(** * Landsat spectral-index scripts: a shallow embedding

    The repository is a set of Google Earth Engine (Code Editor) scripts:

    - [landsat_ndvi_analysis.js], [landsat_ndbi_analysis.js],
      [landsat_ndwi_analysis.js]: one satellite, one time window, one index;
    - the batch NDVI script (several satellites, several time windows);
    - the FVC script (dimidiate pixel model over several time windows);
    - [landsat_metadata.js]: the scene list of a time window, with its
      text helpers and the table it prints.  Its helpers run on the
      client, on JavaScript Numbers: there the numbers are binary64
      values, rounded as JavaScript rounds them.

    The scripts are client-side JavaScript that builds Earth Engine
    computations.  The embedding has three layers:

    - [EE]: the Earth Engine operators the scripts call, as functions on
      rasters, following the API reference.  A band is the list of its
      pixels on the common grid; a pixel without a value (masked, or
      outside the footprint) is [None].  Pixel values are exact rationals
      ([Q]): the arithmetic is the ideal one, without rounding.
    - [Js]: the JavaScript behaviour the scripts depend on: truthiness, the
      [||] default idiom, property lookup through [Object.prototype].
    - one module per script, keeping the names of the source functions.
      Console output, exports and map layers are recorded as a list of
      events; [throw] ends a script with an error.  The image catalogue
      and the percentile reducer are parameters of the scripts. *)

From Stdlib Require Import NArith ZArith QArith Qround Qminmax Qpower Lqa.
From Stdlib Require Import List String Ascii Bool Lia Permutation DecimalString.
Import ListNotations.

Local Open Scope Q_scope.
Local Open Scope list_scope.
Local Open Scope string_scope.

(** ** Earth Engine operators *)

Module EE.

(** A server-side value: either computed, or its evaluation fails.  Earth
    Engine is lazy, so a failure only surfaces where the client forces the
    value ([getInfo]) or where an export or a layer is evaluated. *)
Inductive computed (A : Type) : Type :=
| Value (a : A)
| Failure (msg : string).
Arguments Value {A} a.
Arguments Failure {A} msg.

Definition cbind {A B} (c : computed A) (f : A -> computed B) : computed B :=
  match c with
  | Value a => f a
  | Failure m => Failure m
  end.

Fixpoint cmap {A B} (f : A -> computed B) (l : list A) : computed (list B) :=
  match l with
  | [] => Value []
  | x :: r =>
      cbind (f x) (fun y => cbind (cmap f r) (fun ys => Value (y :: ys)))
  end.

(** A pixel holds a number or nothing. *)
Definition pixel := option Q.

(** One band on the common grid, pixels in a fixed scan order.  An index
    past the end lies outside the footprint and holds nothing. *)
Definition Band := list pixel.

Definition pixel_at (b : Band) (i : nat) : pixel := nth i b None.

(** A single-band image: its band name and its pixels. *)
Definition Raster := (string * Band)%type.

Record Image := mkImage {
  bands : list Raster;
  properties : list (string * string)
}.

Definition bandNames (img : Image) : list string := map fst (bands img).

Definition nonzero (x : Q) : bool := negb (Qeq_bool x 0).

(** *** Arithmetic and comparisons on pixel values *)

Definition multiply (x c : Q) : Q := x * c.
Definition add (x c : Q) : Q := x + c.
Definition subtract (x y : Q) : Q := x - y.

(** [Image.divide]: "Divides the first value by the second, returning 0 for
    division by 0". *)
Definition divide (x y : Q) : Q := if Qeq_bool y 0 then 0 else x / y.

(** [lt] and [gt] give 1 where the comparison holds and 0 elsewhere. *)
Definition lt (x c : Q) : Q := if Qle_bool c x then 0 else 1.
Definition gt (x c : Q) : Q := if Qle_bool x c then 0 else 1.

(** Bitwise operators act on integer pixel types; an integer [z] is stored
    as [z # 1]. *)
Definition bitwiseAnd (x : Q) (m : Z) : Q := inject_Z (Z.land (Qfloor x) m).

(** [or] and [not] are logical: non-zero counts as true. *)
Definition or (x y : Q) : Q := if nonzero x || nonzero y then 1 else 0.
Definition not (x : Q) : Q := if nonzero x then 0 else 1.

(** *** Lifting to bands: a result pixel needs every operand pixel *)

Definition lift2 (f : Q -> Q -> Q) (p q : pixel) : pixel :=
  match p, q with
  | Some x, Some y => Some (f x y)
  | _, _ => None
  end.

Definition tabulate (n : nat) (f : nat -> pixel) : Band := map f (seq 0 n).

Definition band_map (f : Q -> Q) (b : Band) : Band := map (option_map f) b.

Definition band_map2 (f : Q -> Q -> Q) (a b : Band) : Band :=
  tabulate (List.length a) (fun i => lift2 f (pixel_at a i) (pixel_at b i)).

(** [input.where(test, value)] with a constant [value]: "if the corresponding
    pixel in test is nonzero, output the corresponding pixel in value,
    otherwise output the input pixel"; where [test] is masked the input is
    kept, where the input is masked nothing is done. *)
Definition where_px (input test : pixel) (value : Q) : pixel :=
  match input with
  | None => None
  | Some x =>
      match test with
      | Some t => if nonzero t then Some value else Some x
      | None => Some x
      end
  end.

Definition band_where (input test : Band) (value : Q) : Band :=
  tabulate (List.length input)
    (fun i => where_px (pixel_at input i) (pixel_at test i) value).

(** [updateMask(mask)]: a pixel keeps its value only where it had one and
    the mask is present and non-zero. *)
Definition mask_px (p m : pixel) : pixel :=
  match p with
  | None => None
  | Some x =>
      match m with
      | Some t => if nonzero t then Some x else None
      | None => None
      end
  end.

Definition band_updateMask (b mask : Band) : Band :=
  tabulate (List.length b) (fun i => mask_px (pixel_at b i) (pixel_at mask i)).

(** [image.updateMask(mask)] with a single-band mask applies it to every
    band and keeps names, order and metadata. *)
Definition updateMask (img : Image) (mask : Band) : Image :=
  mkImage (map (fun r => (fst r, band_updateMask (snd r) mask)) (bands img))
          (properties img).

(** *** Band selection and addition *)

Fixpoint lookup {A} (k : string) (l : list (string * A)) : option A :=
  match l with
  | [] => None
  | (k', v) :: r => if String.eqb k k' then Some v else lookup k r
  end.

(** [image.select(name)]; evaluation fails when no band has that name. *)
Definition select (img : Image) (name : string) : computed Band :=
  match lookup name (bands img) with
  | Some b => Value b
  | None =>
      Failure ("Image.select: Pattern '" ++ name ++ "' did not match any bands.")
  end.

Definition rename (b : Band) (name : string) : Raster := (name, b).

Definition mem (s : string) (l : list string) : bool :=
  existsb (String.eqb s) l.

Definition suffixed (name : string) (k : nat) : string :=
  name ++ "_" ++ NilEmpty.string_of_uint (Nat.to_uint k).

(** Band names stay unique: a name already taken gets the first free
    numeric suffix [_1], [_2], ... *)
Fixpoint first_free (fuel k : nat) (taken : list string) (name : string)
  : string :=
  match fuel with
  | O => suffixed name k
  | S fuel' =>
      if mem (suffixed name k) taken then first_free fuel' (S k) taken name
      else suffixed name k
  end.

Definition fresh (taken : list string) (name : string) : string :=
  if mem name taken then first_free (List.length taken) 1 taken name else name.

(** [image.addBands(src)] with the default [overwrite = false]: every band
    of [image] is copied, the band of [src] is appended. *)
Definition addBands (img : Image) (src : Raster) : Image :=
  mkImage (bands img ++ [(fresh (bandNames img) (fst src), snd src)])%list
          (properties img).

(** [ee.String(image.get(key))] and [ee.Number(image.get(key))], the only
    uses the scripts make of [get]: a missing property is [null], which is
    no string and no number, so the value fails. *)
Definition get (img : Image) (key : string) : computed string :=
  match lookup key (properties img) with
  | Some v => Value v
  | None => Failure ("Image.get: property '" ++ key ++ "' is null.")
  end.

(** *** Reducers over the valid values of a pixel stack *)

Fixpoint valid (l : list pixel) : list Q :=
  match l with
  | [] => []
  | Some x :: r => x :: valid r
  | None :: r => valid r
  end.

Definition Qsum (l : list Q) : Q := fold_right Qplus 0 l.

Definition reduce_mean (l : list pixel) : pixel :=
  match valid l with
  | [] => None
  | v => Some (Qsum v / inject_Z (Z.of_nat (List.length v)))
  end.

Definition reduce_max (l : list pixel) : pixel :=
  match valid l with
  | [] => None
  | x :: r => Some (fold_right Qmax x r)
  end.

(** The pixels of every band of a stack at one location. *)
Definition pixel_stack (stack : list Band) (i : nat) : list pixel :=
  map (fun b => pixel_at b i) stack.

Definition extent (stack : list Band) : nat :=
  fold_right Nat.max O (map (@List.length pixel) stack).

(** [collection.mean()] / [collection.max()] on single-band images: the
    reducer is applied independently at every location of the union of
    the footprints. *)
Definition reduce (r : list pixel -> pixel) (stack : list Band) : Band :=
  tabulate (extent stack) (fun i => r (pixel_stack stack i)).

Definition mean (stack : list Band) : Band := reduce reduce_mean stack.
Definition max (stack : list Band) : Band := reduce reduce_max stack.

(** [collection.select(name)] *)
Definition selectAll (c : list Image) (name : string) : computed (list Band) :=
  cmap (fun img => select img name) c.

End EE.

(** ** JavaScript behaviour the scripts rely on *)

Module Js.

(** What a script can throw. *)
Inductive Thrown :=
| Error (message : string)          (* [throw new Error(message)] *)
| ReferenceError (name : string)    (* reading an identifier bound nowhere *)
| TypeError (message : string)      (* a member of [undefined], a call of a non-function *)
| EEException (message : string).   (* a forced server value that fails *)

(** [value || fallback] on a number that may be [undefined]: [undefined]
    and [0] are both falsy. *)
Definition or_number (value : option Q) (fallback : Q) : Q :=
  match value with
  | Some x => if Qeq_bool x 0 then fallback else x
  | None => fallback
  end.

(** [value || fallback] on a string: [undefined] and the empty string are
    falsy. *)
Definition or_string (value : option string) (fallback : string) : string :=
  match value with
  | Some EmptyString => fallback
  | Some s => s
  | None => fallback
  end.

(** [value || false] on a boolean. *)
Definition or_false (value : option bool) : bool :=
  match value with
  | Some b => b
  | None => false
  end.

(** The properties every object literal inherits from [Object.prototype];
    all of them are functions or objects, hence truthy. *)
Definition Object_prototype : list string :=
  [ "constructor"; "hasOwnProperty"; "isPrototypeOf"; "propertyIsEnumerable";
    "toLocaleString"; "toString"; "valueOf"; "__proto__";
    "__defineGetter__"; "__defineSetter__"; "__lookupGetter__";
    "__lookupSetter__" ].

(** The value of [obj[key]] for an object literal with own properties of
    type [A]: an own property, else an inherited one, else [undefined]. *)
Inductive Property (A : Type) : Type :=
| Own (a : A)
| Inherited (key : string)
| Undefined.
Arguments Own {A} a.
Arguments Inherited {A} key.
Arguments Undefined {A}.

Definition member {A} (own : list (string * A)) (key : string) : Property A :=
  match EE.lookup key own with
  | Some a => Own a
  | None => if EE.mem key Object_prototype then Inherited key else Undefined
  end.

Definition truthy {A} (p : Property A) : bool :=
  match p with
  | Undefined => false
  | _ => true
  end.

(** [value.name] of the inherited members: the functions are named
    after their key, [constructor] is the function [Object], and
    [__proto__] is the prototype object, which has no name. *)
Definition inherited_name (key : string) : option string :=
  if String.eqb key "constructor" then Some "Object"
  else if String.eqb key "__proto__" then None
  else Some key.

(** [s.split('/').pop()] *)
Fixpoint last_segment_from (acc s : string) : string :=
  match s with
  | EmptyString => acc
  | String c r =>
      if Ascii.eqb c "/"%char then last_segment_from EmptyString r
      else last_segment_from (acc ++ String c EmptyString) r
  end.

Definition last_segment (s : string) : string :=
  last_segment_from EmptyString s.

(** Every object is truthy, a client-side proxy of a server value
    included, whatever the server value turns out to be. *)
Definition truthy_object {A} (o : A) : bool := true.

(** [s.toUpperCase()] on ASCII letters. *)
Definition upper (c : ascii) : ascii :=
  let n := nat_of_ascii c in
  if (97 <=? n)%nat && (n <=? 122)%nat then ascii_of_nat (n - 32) else c.

Fixpoint toUpperCase (s : string) : string :=
  match s with
  | EmptyString => EmptyString
  | String c r => String (upper c) (toUpperCase r)
  end.

(** A word between double quotes, as it appears inside a message. *)
Definition quoted (s : string) : string :=
  String (ascii_of_nat 34) (s ++ String (ascii_of_nat 34) EmptyString).

(** Decimal rendering of a count in a string concatenation. *)
Definition string_of_nat (n : nat) : string :=
  NilEmpty.string_of_uint (Nat.to_uint n).

End Js.

(** ** Script effects: console, exports, map layers, exceptions *)

Module Script.

Import EE Js.

(** The area of interest.  [inside] tells which grid locations the polygon
    covers, [inside_bounds] which ones its bounding box covers. *)
Record Geometry := mkGeometry {
  system_id : string;
  inside : nat -> bool;
  inside_bounds : nat -> bool
}.

(** The image catalogue: [catalog asset start end aoi] is the value of
    [ee.ImageCollection(asset).filterDate(start, end).filterBounds(aoi)];
    it fails for an asset that does not exist. *)
Definition Catalog := string -> string -> string -> Geometry ->
                      computed (list Image).

(** [image.clip(geometry)] *)
Definition clip (b : Band) (g : Geometry) : Band :=
  tabulate (List.length b)
    (fun i => if inside g i then pixel_at b i else None).

(** The pixels of a band that a region covers. *)
Definition region_pixels (b : Band) (covers : nat -> bool) : list pixel :=
  map (pixel_at b) (filter covers (seq 0 (List.length b))).

(** [image.reduceRegion] with a mean or max reducer (unweighted, every
    covered pixel counted once). *)
Definition reduceRegion (r : list pixel -> pixel) (b : Band) (g : Geometry)
  : pixel :=
  r (region_pixels b (inside g)).

Inductive Item :=
| Str (s : string)
| Strs (l : list string)
| Count (n : computed nat)
| Number (x : computed pixel)
| Dictionary (d : computed (list (string * string))).

Inductive Layer :=
| Region
| Pixels (b : computed Band).

Inductive Event :=
| Print (items : list Item)
| ExportImageToDrive (image : computed Band) (description folder : string)
| MapCenterObject
| MapAddLayer (layer : Layer) (name : string)
| Evaluate (callback_print : list Item).  (* [value.evaluate(callback)] *)

(** A script run: the events so far and either an exception or a result. *)
Definition Run (A : Type) : Type := (list Event * (Thrown + A))%type.

Definition ret {A} (a : A) : Run A := ([], inr a).
Definition throw {A} (e : Thrown) : Run A := ([], inl e).
Definition emit (e : Event) : Run unit := ([e], inr tt).

Definition bind {A B} (m : Run A) (f : A -> Run B) : Run B :=
  match m with
  | (log, inl e) => (log, inl e)
  | (log, inr a) =>
      match f a with
      | (log', r) => ((log ++ log')%list, r)
      end
  end.

Notation "x <- m ;; k" := (bind m (fun x => k))
  (at level 61, m at next level, right associativity).
Notation "m ;;; k" := (bind m (fun _ => k))
  (at level 61, right associativity).

Definition print (items : list Item) : Run unit := emit (Print items).

(** [value.getInfo()]: forces a server value; a failure is thrown. *)
Definition getInfo {A} (c : computed A) : Run A :=
  match c with
  | Value a => ret a
  | Failure m => throw (EEException m)
  end.

(** [array.forEach(callback)]: an exception in a callback ends the loop. *)
Fixpoint forEach {A} (l : list A) (callback : A -> Run unit) : Run unit :=
  match l with
  | [] => ret tt
  | x :: r => callback x ;;; forEach r callback
  end.

Definition events {A} (r : Run A) : list Event := fst r.
Definition outcome {A} (r : Run A) : Thrown + A := snd r.

End Script.

(** ** Idioms shared by the index scripts *)

Module Index.

Import EE.

(** [band.multiply(0.0000275).add(-0.2)] *)
Definition reflectance (dn : Band) : Band :=
  band_map (fun x => add (multiply x 0.0000275) (-0.2)) dn.

(** [image.expression('(a - b) / (a + b)', {a: ..., b: ...})] *)
Definition expression (a b : Band) : Band :=
  band_map2 divide (band_map2 subtract a b) (band_map2 add a b).

(** [x = x.where(x.lt(lo), lo).where(x.gt(hi), hi)]: both tests read the
    band as it was before the assignment; [where] keeps the band name. *)
Definition limit_band (x : Band) (lo hi : Q) : Band :=
  band_where (band_where x (band_map (fun v => lt v lo) x) lo)
             (band_map (fun v => gt v hi) x) hi.

Definition limit (x : Raster) (lo hi : Q) : Raster :=
  (fst x, limit_band (snd x) lo hi).

(** The QA test of [maskClouds]:
    [qa.bitwiseAnd(1 << 3).or(qa.bitwiseAnd(1 << 4))]. *)
Definition cloudMask (qa : Band) : Band :=
  band_map2 or (band_map (fun q => bitwiseAnd q (Z.shiftl 1 3)) qa)
               (band_map (fun q => bitwiseAnd q (Z.shiftl 1 4)) qa).

End Index.

(** ** landsat_ndvi_analysis.js *)

Module NdviAnalysis.

Import EE Js Script Index.

Record Satellite := mkSatellite {
  name : string;
  startYear : Z;
  endYear : option Z
}.

Definition SATELLITES : list (string * Satellite) :=
  [ ("L4", mkSatellite "LANDSAT/LT04/C02/T1_L2" 1982 (Some 1993%Z));
    ("L5", mkSatellite "LANDSAT/LT05/C02/T1_L2" 1984 (Some 2012%Z));
    ("L7", mkSatellite "LANDSAT/LE07/C02/T1_L2" 1999 (Some 2022%Z));
    ("L8", mkSatellite "LANDSAT/LC08/C02/T1_L2" 2013 None);
    ("L9", mkSatellite "LANDSAT/LC09/C02/T1_L2" 2021 None) ].

Record BandNames := mkBandNames { nir : string; red : string }.

Definition getBandNames (satellite : string) : BandNames :=
  if String.eqb satellite "L8" || String.eqb satellite "L9"
  then mkBandNames "SR_B5" "SR_B4"
  else mkBandNames "SR_B4" "SR_B3".

Definition maskClouds (image : Image) : computed Image :=
  cbind (select image "QA_PIXEL") (fun qa =>
  Value (updateMask image (band_map not (cloudMask qa)))).

Definition computeNDVI (image : Image) (satellite : string) : computed Image :=
  let bands := getBandNames satellite in
  cbind (select image (nir bands)) (fun nirDN =>
  cbind (select image (red bands)) (fun redDN =>
  let ndvi :=
    rename (expression (reflectance nirDN) (reflectance redDN)) "NDVI" in
  let ndvi := limit ndvi (-1) 1 in
  Value (addBands image ndvi))).

(** [ee.ImageCollection(SATELLITES[id].name)]: the constructor takes an
    asset name; it rejects [undefined] on the client. *)
Definition collectionName (entry : Property Satellite) : Run string :=
  match entry with
  | Own sat => ret (name sat)
  | Inherited key =>
      match inherited_name key with
      | Some n => ret n
      | None =>
          throw (Error
            "Unrecognized argument type to convert to an ImageCollection: undefined")
      end
  | Undefined => throw (TypeError "Cannot read properties of undefined")
  end.

Definition pathRow (image : Image) : computed string :=
  cbind (get image "WRS_PATH") (fun path =>
  cbind (get image "WRS_ROW") (fun row =>
  Value (path ++ "_" ++ row))).

(** [distinct]: the first feature of every key is kept. *)
Fixpoint distinct (seen l : list string) : list string :=
  match l with
  | [] => []
  | x :: r =>
      if mem x seen then distinct seen r else x :: distinct (x :: seen) r
  end.

Definition extractPathRows (collection : computed (list Image))
  : computed (list string) :=
  cbind collection (fun c =>
  cbind (cmap pathRow c) (fun features =>
  Value (distinct [] features))).

Definition printInfo (msg : string) : Run unit :=
  print [Str "信息:"; Str msg].

Definition size {A} (c : computed (list A)) : computed nat :=
  cbind c (fun l => Value (List.length l)).

(** [collection.select('NDVI')[statType]()] *)
Definition statistic (statType : string)
  : option (list Band -> Band) :=
  if String.eqb statType "mean" then Some mean
  else if String.eqb statType "max" then Some max
  else None.

Record Params := mkParams {
  geometry : Geometry;
  startDate : string;
  endDate : string;
  satelliteId : string;
  outputPath : string;
  statType : string
}.

Record Stats := mkStats {
  imageCount : computed nat;
  ndviStats : computed pixel;
  statTypeInfo : string * string;
  temporalRange : string * string;
  pathRowsInfo : computed nat * list string
}.

(** [exports.calculateNDVIStats]; [table] is the imported study-area
    asset the script reads the area name from. *)
Definition calculateNDVIStats (catalog : Catalog) (table : Geometry)
  (params : Params) : Run Stats :=
  let entry := member SATELLITES (satelliteId params) in
  (if negb (truthy entry)
   then throw (Error ("不支持的卫星类型: " ++ satelliteId params))
   else ret tt) ;;;
  (if negb (mem (statType params) ["mean"; "max"])
   then throw (Error ("不支持的统计类型: " ++ statType params
                      ++ "。请使用 " ++ quoted "mean" ++ " 或 "
                      ++ quoted "max"))
   else ret tt) ;;;
  asset <- collectionName entry ;;
  let collection :=
    catalog asset (startDate params) (endDate params) (geometry params) in
  let pathRows := extractPathRows collection in
  let processedCollection :=
    cbind collection (fun c =>
    cbind (cmap maskClouds c) (fun masked =>
    cmap (fun image => computeNDVI image (satelliteId params)) masked)) in
  found <- getInfo (size collection) ;;
  printInfo ("发现的影像数量: " ++ string_of_nat found) ;;;
  processed <- getInfo (size processedCollection) ;;
  printInfo ("有效处理的影像数量: " ++ string_of_nat processed) ;;;
  method <- match statistic (statType params) with
            | Some m => ret m
            | None => throw (TypeError "not a function")
            end ;;
  let statNDVI :=
    cbind processedCollection (fun c =>
    cbind (selectAll c "NDVI") (fun stack => Value (method stack))) in
  let statTypeDesc :=
    if String.eqb (statType params) "mean" then "均值" else "最大值" in
  pathRowList <- getInfo pathRows ;;
  let stats :=
    mkStats (size processedCollection)
      (cbind statNDVI (fun b =>
         Value (reduceRegion
                  (if String.eqb (statType params) "mean"
                   then reduce_mean else reduce_max)
                  b (geometry params))))
      (statType params, statTypeDesc)
      (startDate params, endDate params)
      (size pathRows, pathRowList) in
  let areaName := last_segment (system_id table) in
  print [Str "区域名称:"; Str areaName] ;;;
  emit (ExportImageToDrive statNDVI
          (areaName ++ "_NDVI_" ++ statType params ++ "_"
           ++ startDate params ++ "_" ++ endDate params)
          (outputPath params)) ;;;
  emit MapCenterObject ;;;
  emit (MapAddLayer Region "研究区域") ;;;
  emit (MapAddLayer
          (Pixels (cbind statNDVI (fun b => Value (clip b (geometry params)))))
          ("NDVI " ++ statTypeDesc)) ;;;
  ret stats.

End NdviAnalysis.

(** ** landsat_ndbi_analysis.js (index functions; the statistics pipeline
    has the shape of the NDVI one with the mean fixed) *)

Module NdbiAnalysis.

Import EE Index.

Record BandNames := mkBandNames { swir : string; nir : string }.

Definition getBandNames (satellite : string) : BandNames :=
  if String.eqb satellite "L8" || String.eqb satellite "L9"
  then mkBandNames "SR_B7" "SR_B5"
  else mkBandNames "SR_B7" "SR_B4".

Definition maskClouds (image : Image) : computed Image :=
  cbind (select image "QA_PIXEL") (fun qa =>
  Value (updateMask image (band_map not (cloudMask qa)))).

Definition computeNDBI (image : Image) (satellite : string) : computed Image :=
  let bands := getBandNames satellite in
  cbind (select image (swir bands)) (fun swirDN =>
  cbind (select image (nir bands)) (fun nirDN =>
  let ndbi :=
    rename (expression (reflectance swirDN) (reflectance nirDN)) "NDBI" in
  let ndbi := limit ndbi (-1) 1 in
  Value (addBands image ndbi))).

End NdbiAnalysis.

(** ** landsat_ndwi_analysis.js (index functions) *)

Module NdwiAnalysis.

Import EE Index.

Record BandNames := mkBandNames { nir : string; green : string }.

Definition getBandNames (satellite : string) : BandNames :=
  if String.eqb satellite "L8" || String.eqb satellite "L9"
  then mkBandNames "SR_B5" "SR_B3"
  else mkBandNames "SR_B4" "SR_B2".

Definition maskClouds (image : Image) : computed Image :=
  cbind (select image "QA_PIXEL") (fun qa =>
  Value (updateMask image (band_map not (cloudMask qa)))).

Definition computeNDWI (image : Image) (satellite : string) : computed Image :=
  let bands := getBandNames satellite in
  cbind (select image (green bands)) (fun greenDN =>
  cbind (select image (nir bands)) (fun nirDN =>
  let ndwi :=
    rename (expression (reflectance greenDN) (reflectance nirDN)) "NDWI" in
  let ndwi := limit ndwi (-1) 1 in
  Value (addBands image ndwi))).

End NdwiAnalysis.

(** ** The batch NDVI script (several satellites, several periods) *)

Module NdviBatch.

Import EE Js Script Index.

Definition SATELLITES := NdviAnalysis.SATELLITES.

Definition satelliteConfig : list (string * bool) :=
  [ ("L9", true); ("L8", true); ("L7", false); ("L5", true); ("L4", true) ].

Record Period := mkPeriod { start : string; end_ : string }.

Definition timePeriods : list Period :=
  [ mkPeriod "2020-01-01" "2020-12-31";
    mkPeriod "2019-01-01" "2019-12-31";
    mkPeriod "2018-01-01" "2018-12-31" ].

Definition statType : string := "mean".

Definition maskClouds (image : Image) : computed Image :=
  cbind (select image "QA_PIXEL") (fun qa =>
  Value (updateMask image (band_map not (cloudMask qa)))).

Fixpoint contains (needle s : string) : bool :=
  String.prefix needle s
  || match s with
     | EmptyString => false
     | String _ r => contains needle r
     end.

(** [spacecraftId.match('LANDSAT_[89]').length().gt(0)] *)
Definition isNewSatellite (spacecraftId : string) : bool :=
  contains "LANDSAT_8" spacecraftId || contains "LANDSAT_9" spacecraftId.

Definition computeNDVI (image : Image) : computed Image :=
  cbind (get image "SPACECRAFT_ID") (fun spacecraftId =>
  let nir := if isNewSatellite spacecraftId then "SR_B5" else "SR_B4" in
  let red := if isNewSatellite spacecraftId then "SR_B4" else "SR_B3" in
  cbind (select image nir) (fun nirDN =>
  cbind (select image red) (fun redDN =>
  let ndvi :=
    rename (expression (reflectance nirDN) (reflectance redDN)) "NDVI" in
  let ndvi := limit ndvi (-1) 1 in
  Value (addBands image ndvi)))).

(** [Object.keys(satelliteConfig).filter(function(sat) {...})]: the keys
    in insertion order, those with a true flag kept. *)
Definition enabledSatellites : list string :=
  map fst (filter snd satelliteConfig).

(** [ee.String(s).replace('-', '')]: the first match only. *)
Fixpoint remove_first_dash (s : string) : string :=
  match s with
  | EmptyString => EmptyString
  | String c r =>
      if Ascii.eqb c "-"%char then r else String c (remove_first_dash r)
  end.

Definition merge (a b : computed (list Image)) : computed (list Image) :=
  cbind a (fun x => cbind b (fun y => Value (x ++ y)%list)).

Definition method (statType : string) : Run (list Band -> Band) :=
  match NdviAnalysis.statistic statType with
  | Some m => ret m
  | None => throw (TypeError "not a function")
  end.

Definition processNDVI (catalog : Catalog) (table : Geometry)
  (startDate endDate : string) (geometry : Geometry) (outputPath : string)
  : Run (computed (list (string * string))) :=
  mergedCollection <-
    fold_left
      (fun acc satellite =>
         merged <- acc ;;
         asset <- NdviAnalysis.collectionName (member SATELLITES satellite) ;;
         ret (merge merged (catalog asset startDate endDate geometry)))
      enabledSatellites (ret (Value [])) ;;
  let processedCollection :=
    cbind mergedCollection (fun c =>
    cbind (cmap maskClouds c) (fun masked => cmap computeNDVI masked)) in
  reducer <- method statType ;;
  let statNDVI :=
    cbind processedCollection (fun c =>
    cbind (selectAll c "NDVI") (fun stack => Value (reducer stack))) in
  let areaName := last_segment (system_id table) in
  let startDateFormatted := remove_first_dash (remove_first_dash startDate) in
  let endDateFormatted := remove_first_dash (remove_first_dash endDate) in
  let filename :=
    areaName ++ "_NDVI_" ++ statType ++ "_" ++ startDateFormatted ++ "_"
    ++ endDateFormatted in
  emit (ExportImageToDrive statNDVI filename outputPath) ;;;
  let displayName :=
    startDate ++ "至" ++ endDate ++ " NDVI "
    ++ (if String.eqb statType "mean" then "均值" else "最大值") in
  emit (MapAddLayer
          (Pixels (cbind statNDVI (fun b => Value (clip b geometry))))
          displayName) ;;;
  ret (cbind (NdviAnalysis.size mergedCollection) (fun total =>
       cbind (NdviAnalysis.size processedCollection) (fun processed =>
       Value [ ("period", startDate ++ "_" ++ endDate);
               ("totalImages", string_of_nat total);
               ("processedImages", string_of_nat processed);
               ("statType", statType);
               ("filename", filename) ]))).

(** The main flow over a list of periods; the script runs it on
    [timePeriods]. *)
Definition processAll (catalog : Catalog) (table : Geometry)
  (periods : list Period) : Run unit :=
  print [Str "=== NDVI批量处理开始 ==="] ;;;
  print [Str "统计方式:"; Str statType] ;;;
  print [Str "启用的卫星:"; Strs enabledSatellites] ;;;
  emit MapCenterObject ;;;
  emit (MapAddLayer Region "研究区域") ;;;
  forEach periods (fun period =>
    result <- processNDVI catalog table (start period) (end_ period) table
                "NDVI_Results" ;;
    emit (Evaluate [Str (String (ascii_of_nat 10) "时间段处理结果:");
                    Dictionary result])) ;;;
  print [Str "=== NDVI批量处理完成 ==="].

Definition main (catalog : Catalog) (table : Geometry) : Run unit :=
  processAll catalog table timePeriods.

End NdviBatch.

(** ** The FVC script (dimidiate pixel model over several periods) *)

Module FvcAnalysis.

Import EE Js Script Index.

Definition SATELLITES := NdviAnalysis.SATELLITES.
Definition getBandNames := NdviAnalysis.getBandNames.
Definition maskClouds := NdviAnalysis.maskClouds.
Definition computeNDVI := NdviAnalysis.computeNDVI.

(** The thresholds handed to [calculateFVC]: numbers of the client in
    fixed mode, server values in automatic mode (a percentile of a region
    without valid pixels is [null], here [None]). *)
Record Thresholds := mkThresholds {
  ndvi_soil : computed pixel;
  ndvi_veg : computed pixel
}.

(** [ee.Reducer.percentile([5, 95])] is a parameter: [percentile p l] is
    the [p]-th percentile of the valid values of [l]. *)
Definition Percentile := Z -> list pixel -> pixel.

Definition calculateNDVIThresholds (percentile : Percentile)
  (ndviImage : computed Band) (geometry : Geometry) : Thresholds :=
  let percentiles p :=
    cbind ndviImage (fun b =>
      Value (percentile p (region_pixels b (inside_bounds geometry)))) in
  mkThresholds (percentiles 5%Z) (percentiles 95%Z).

Definition calculateFVC (ndviImage : Band) (ndvi_soil ndvi_veg : Q) : Raster :=
  let fvc :=
    band_map (fun NDVI => divide (subtract NDVI ndvi_soil)
                                 (subtract ndvi_veg ndvi_soil)) ndviImage in
  let fvc := limit_band fvc 0 1 in
  rename fvc "FVC".

(** [ee.Image.constant(value)] of a server number; [null] is no number. *)
Definition constant (value : computed pixel) : computed Q :=
  cbind value (fun v =>
    match v with
    | Some x => Value x
    | None => Failure "Image.constant: Parameter 'value' is required."
    end).

Record Period := mkPeriod { start : string; end_ : string }.

Record Params := mkParams {
  geometry : Geometry;
  timePeriods : list Period;
  satelliteId : string;
  ndviType : option string;
  autoThreshold : option bool;
  param_ndvi_soil : option Q;
  param_ndvi_veg : option Q;
  outputPath : string
}.

(** [params] after the assignments at the top of [exports.calculateFVC],
    [params.x = params.x || default]. *)
Record Resolved := mkResolved {
  type : string;
  auto : bool;
  soil : Q;
  veg : Q
}.

Definition defaults (params : Params) : Resolved :=
  mkResolved (or_string (ndviType params) "max")
             (or_false (autoThreshold params))
             (or_number (param_ndvi_soil params) 0.2)
             (or_number (param_ndvi_veg params) 0.86).

(** The image-valued variables the callback can read where the thresholds
    are estimated. *)
Definition scope (ndviImage : computed Band)
  : list (string * computed Band) :=
  [ ("ndviImage", ndviImage) ].

Definition identifier (env : list (string * computed Band)) (x : string)
  : Run (computed Band) :=
  match lookup x env with
  | Some v => ret v
  | None => throw (ReferenceError x)
  end.

(** Step 3 of the callback: the thresholds of one period. *)
Definition thresholdsFor (percentile : Percentile) (auto : bool)
  (soil veg : Q) (geometry : Geometry) (ndviImage : computed Band)
  : Run Thresholds :=
  if auto then
    ndviMax <- identifier (scope ndviImage) "ndviMax" ;;
    let thresholds := calculateNDVIThresholds percentile ndviMax geometry in
    if negb (truthy_object (ndvi_soil thresholds))
       || negb (truthy_object (ndvi_veg thresholds))
    then
      print [Str "警告：自动计算阈值失败，使用默认值"] ;;;
      ret (mkThresholds (Value (Some soil)) (Value (Some veg)))
    else
      print [Str "已使用自动计算的阈值："] ;;;
      print [Str "NDVI_soil:"; Number (ndvi_soil thresholds)] ;;;
      print [Str "NDVI_veg:"; Number (ndvi_veg thresholds)] ;;;
      ret thresholds
  else
    ret (mkThresholds (Value (Some soil)) (Value (Some veg))).

(** Step 1 of the callback: the scenes of one period, masked and with
    their NDVI band. *)
Definition periodCollection (catalog : Catalog) (asset : string)
  (params : Params) (period : Period) : computed (list Image) :=
  cbind (catalog asset (start period) (end_ period) (geometry params))
    (fun c =>
  cbind (cmap maskClouds c) (fun masked =>
  cmap (fun image => computeNDVI image (satelliteId params)) masked)).

(** Step 2 of the callback: the NDVI composite of the period,
    [collection.select('NDVI').max()] or [.mean()]. *)
Definition composite (type : string) (collection : computed (list Image))
  : computed Band :=
  let stack := cbind collection (fun c => selectAll c "NDVI") in
  if String.eqb type "max"
  then cbind stack (fun s => Value (max s))
  else cbind stack (fun s => Value (mean s)).

(** Step 4 of the callback: [calculateFVC(ndviImage, ndvi_soil, ndvi_veg)]
    on the server values. *)
Definition fvcImage (ndviImage : computed Band) (thresholds : Thresholds)
  : computed Band :=
  cbind ndviImage (fun b =>
  cbind (constant (ndvi_soil thresholds)) (fun s =>
  cbind (constant (ndvi_veg thresholds)) (fun v =>
  Value (snd (calculateFVC b s v))))).

(** The callback of [params.timePeriods.forEach]. *)
Definition processPeriod (catalog : Catalog) (percentile : Percentile)
  (params : Params) (settings : Resolved) (areaName : string)
  (period : Period) : Run unit :=
  let type := type settings in
  print [Str "处理时间段:"; Str (start period ++ " 至 " ++ end_ period)] ;;;
  asset <- NdviAnalysis.collectionName
             (member SATELLITES (satelliteId params)) ;;
  let collection := periodCollection catalog asset params period in
  print [Str "发现的影像数量:"; Count (NdviAnalysis.size collection)] ;;;
  n <- getInfo (NdviAnalysis.size collection) ;;
  if (n =? 0)%nat then
    print [Str ("警告：在时间段 " ++ start period ++ " 至 " ++ end_ period
                ++ " 内未找到影像")]
  else
    let ndviImage := composite type collection in
    print [Str (if String.eqb type "max"
                then "使用NDVI最大值合成" else "使用NDVI均值合成")] ;;;
    print [Str "NDVI计算方法:"; Str type] ;;;
    thresholds <- thresholdsFor percentile (auto settings) (soil settings)
                    (veg settings) (geometry params) ndviImage ;;
    let fvc := fvcImage ndviImage thresholds in
    let exportDescription :=
      areaName ++ "_FVC_" ++ toUpperCase type ++ "_" ++ start period ++ "_"
      ++ end_ period in
    emit (ExportImageToDrive fvc exportDescription (outputPath params)) ;;;
    emit MapCenterObject ;;;
    emit (MapAddLayer Region "研究区域") ;;;
    emit (MapAddLayer
            (Pixels (cbind fvc (fun b => Value (clip b (geometry params)))))
            ("FVC_" ++ toUpperCase type ++ "_" ++ start period ++ "_"
             ++ end_ period)).

(** [exports.calculateFVC] *)
Definition exports_calculateFVC (catalog : Catalog) (percentile : Percentile)
  (params : Params) : Run unit :=
  (if negb (truthy (member SATELLITES (satelliteId params)))
   then throw (Error ("不支持的卫星类型: " ++ satelliteId params))
   else ret tt) ;;;
  let type := or_string (ndviType params) "max" in
  (if negb (String.eqb type "max") && negb (String.eqb type "mean")
   then throw (Error ("不支持的NDVI计算方法: " ++ type ++ "。请使用 "
                      ++ quoted "max" ++ " 或 " ++ quoted "mean"))
   else ret tt) ;;;
  let settings := defaults params in
  let areaName := last_segment (system_id (geometry params)) in
  print [Str "研究区域:"; Str areaName] ;;;
  forEach (timePeriods params)
    (processPeriod catalog percentile params settings areaName).

End FvcAnalysis.

(** ** The quantities the properties are stated with *)

Module Spec.

Import EE.

(** Digital number to surface reflectance. *)
Definition rescale (dn : Q) : Q := dn * 0.0000275 + (-0.2).

Definition normalized_difference (A B : Q) : Q := (A - B) / (A + B).

Definition clamp (lo hi x : Q) : Q := Qmax lo (Qmin hi x).


(** The value [Index.limit_band] leaves at a location holding [x]. *)
Definition limited (lo hi x : Q) : Q :=
  if nonzero (gt x hi) then hi else if nonzero (lt x lo) then lo else x.

(** The two band-role mappings of the NDVI scripts. *)
Definition modern : NdviAnalysis.BandNames :=
  NdviAnalysis.mkBandNames "SR_B5" "SR_B4".
Definition legacy : NdviAnalysis.BandNames :=
  NdviAnalysis.mkBandNames "SR_B4" "SR_B3".

(** Bit 3 (cloud shadow) or bit 4 (cloud) of a QA value. *)
Definition flagged (qa : Z) : bool := Z.testbit qa 3 || Z.testbit qa 4.

(** The index of one location from the two digital numbers: rescale,
    divide (0 for a zero denominator), limit to [-1, 1]. *)
Definition index_value (a b : Q) : Q :=
  limited (-1) 1 (divide (rescale a - rescale b) (rescale a + rescale b)).

(** What an index band holds at every location, given the two source
    bands [A] and [B] (digital numbers). *)
Definition index_of (A B index : Band) : Prop :=
  forall i,
    match pixel_at A i, pixel_at B i with
    | Some a, Some b =>
        exists v,
          pixel_at index i = Some v
          /\ -1 <= v <= 1
          /\ (~ rescale a + rescale b == 0 ->
              v == clamp (-1) 1
                     (normalized_difference (rescale a) (rescale b)))
          /\ (rescale a + rescale b == 0 -> v == 0)
    | _, _ => pixel_at index i = None
    end.

(** A band of digital numbers: every value it holds is an integer, as
    the values of the Landsat surface reflectance bands are. *)
Definition digital_numbers (b : Band) : Prop :=
  Forall (fun p => match p with
                   | Some x => exists z : Z, x == inject_Z z
                   | None => True
                   end) b.

(** The index band of two bands of digital numbers, location by
    location: the rescaled sum is not 0 (so a location with a zero sum,
    which would hold nothing, does not occur), and the band holds the
    quotient of the rescaled values clamped into [-1, 1]; it holds
    nothing where a source band holds nothing. *)
Definition index_of_digital_numbers (A B index : Band) : Prop :=
  forall i,
    match pixel_at A i, pixel_at B i with
    | Some a, Some b =>
        ~ rescale a + rescale b == 0
        /\ (rescale a + rescale b == 0 -> pixel_at index i = None)
        /\ exists v,
             pixel_at index i = Some v
             /\ v == clamp (-1) 1
                      (normalized_difference (rescale a) (rescale b))
             /\ -1 <= v <= 1
    | _, _ => pixel_at index i = None
    end.

(** [result] is [image] with its bands and metadata as they were and one
    band more, which holds the index of [A] and [B]. *)
Definition index_added (image : Image) (A B : Band) (result : computed Image)
  : Prop :=
  exists name index,
    result = Value (mkImage (bands image ++ [(name, index)])%list
                            (properties image))
    /\ index_of_digital_numbers A B index.

(** [result] is [image] with one band appended, called [name] unless the
    image already has a band of that name. *)
Definition one_band_added (image : Image) (name : string)
  (result : computed Image) : Prop :=
  exists name' index,
    result = Value (mkImage (bands image ++ [(name', index)])%list
                            (properties image))
    /\ (~ In name (bandNames image) -> name' = name).

End Spec.

(** ** Sample inputs *)

Module Samples.

Import EE Js Script.

(** A Landsat 8 scene of five locations: clear, cloud shadow, cloud, both
    flags, and one without QA value. *)
Definition scene_L8 : Image :=
  mkImage
    [ ("SR_B4", [Some 10000; Some 10000; Some 10000; Some 10000; Some 10000]);
      ("SR_B5", [Some 20000; Some 20000; Some 20000; Some 20000; Some 20000]);
      ("SR_B7", [Some 15000; Some 15000; Some 15000; Some 15000; Some 15000]);
      ("SR_B3", [Some 9000; Some 9000; Some 9000; Some 9000; Some 9000]);
      ("QA_PIXEL", [Some 1; Some 8; Some 16; Some 24; None]) ]
    [ ("SPACECRAFT_ID", "LANDSAT_8"); ("WRS_PATH", "123"); ("WRS_ROW", "32") ].

(** The study area; its polygon and bounding box cover every location. *)
Definition aoi : Geometry :=
  mkGeometry "users/analyst/study_area" (fun _ => true) (fun _ => true).

Definition landsat_assets : list string :=
  map (fun entry => NdviAnalysis.name (snd entry)) NdviAnalysis.SATELLITES.

(** A catalogue in which only Landsat 8 has a scene, [scene_L8], in the
    windows that start on 2021-01-01 and on 2019-01-01; the other Landsat
    windows are empty and no other asset exists. *)
Definition catalog : Catalog :=
  fun asset startDate endDate geometry =>
    if mem asset landsat_assets then
      if String.eqb asset "LANDSAT/LC08/C02/T1_L2"
         && (String.eqb startDate "2021-01-01"
             || String.eqb startDate "2019-01-01")
      then Value [scene_L8]
      else Value []
    else
      Failure ("ImageCollection.load: ImageCollection asset '" ++ asset
               ++ "' not found.").

(** A percentile reducer that finds no valid pixel. *)
Definition no_percentile : FvcAnalysis.Percentile := fun _ _ => None.

Definition periods_2020_2021 : list FvcAnalysis.Period :=
  [ FvcAnalysis.mkPeriod "2020-01-01" "2020-12-31";
    FvcAnalysis.mkPeriod "2021-01-01" "2021-12-31" ].

(** Fixed thresholds, as in the usage example of the FVC script. *)
Definition fixed_params : FvcAnalysis.Params :=
  FvcAnalysis.mkParams aoi periods_2020_2021 "L8" (Some "max") (Some false)
    (Some 0.2) (Some 0.86) "FVC_Results".

(** Equal thresholds. *)
Definition degenerate_params : FvcAnalysis.Params :=
  FvcAnalysis.mkParams aoi periods_2020_2021 "L8" (Some "max") (Some false)
    (Some 0.5) (Some 0.5) "FVC_Results".

(** Automatic thresholds. *)
Definition auto_params : FvcAnalysis.Params :=
  FvcAnalysis.mkParams aoi periods_2020_2021 "L8" (Some "max") (Some true)
    None None "FVC_Results".

(** A soil threshold of 0 supplied by the caller. *)
Definition zero_soil_params : FvcAnalysis.Params :=
  FvcAnalysis.mkParams aoi periods_2020_2021 "L8" (Some "max") (Some false)
    (Some 0) (Some 0.86) "FVC_Results".

(** The 2021 collection of the FVC script: [scene_L8] after [maskClouds]
    and [computeNDVI]. *)
Definition collection_2021 : list Image :=
  Eval vm_compute in
    match FvcAnalysis.periodCollection catalog "LANDSAT/LC08/C02/T1_L2"
            auto_params (FvcAnalysis.mkPeriod "2021-01-01" "2021-12-31")
    with
    | Value c => c
    | Failure _ => []
    end.

(** A satellite identifier that is no key of [SATELLITES]. *)
Definition constructor_params : NdviAnalysis.Params :=
  NdviAnalysis.mkParams aoi "2020-01-01" "2020-12-31" "constructor"
    "NDVI_Results" "mean".

End Samples.

(** ** landsat_metadata.js: the text helpers and the scene table *)

Module Metadata.

(** This script measures and pads text, so here a string is the list of
    its UTF-16 code units, and [List.length] is its [length]. *)
Definition str := list N.

(** A literal of 8-bit characters. *)
Definition lit (s : string) : str := map N_of_ascii (list_ascii_of_string s).

(** *** Numbers

    A Number is a binary64 value; [Real] holds the exact value of a
    finite one. *)
Inductive Real :=
| Finite (q : Q)
| NotANumber
| PlusInfinity
| MinusInfinity.

(** The integer nearest to [q], the even one of two. *)
Definition nearest_even (q : Q) : Z :=
  let f := Qfloor q in
  match Qcompare (q - inject_Z f) (1 # 2) with
  | Lt => f
  | Gt => (f + 1)%Z
  | Eq => if Z.even f then f else (f + 1)%Z
  end.

(** A binary exponent of a positive number: the largest [c] with
    [2 ^ c <= q]. *)
Definition log2_floor (q : Q) : Z :=
  let c := (Z.log2 (Qnum q) - Z.log2 (Zpos (Qden q)))%Z in
  if Qle_bool (Qpower 2 c) q then c else (c - 1)%Z.

(** A positive number rounded to 53 significant bits (fewer below the
    normal range), to the even significand on a tie; past the largest
    finite value the result is infinite. *)
Definition round_positive (q : Q) : Real :=
  let e := Z.max (log2_floor q - 52) (-1074) in
  let v := inject_Z (nearest_even (q / Qpower 2 e)) * Qpower 2 e in
  if Qle_bool (Qpower 2 1024) v then PlusInfinity else Finite v.

(** The Number value of an exact number: the nearest binary64 value. *)
Definition binary64 (q : Q) : Real :=
  match Qcompare q 0 with
  | Eq => Finite 0
  | Gt => round_positive q
  | Lt =>
      match round_positive (- q) with
      | Finite v => Finite (- v)
      | _ => MinusInfinity
      end
  end.

(** The Numbers the helpers format: those that are integers, [NaN] and
    the infinities. *)
Inductive Num :=
| Int (z : Z)
| NaN
| Infinity
| NegInfinity.

(** [Math.floor] *)
Definition floor (x : Real) : Num :=
  match x with
  | Finite q => Int (Qfloor q)
  | NotANumber => NaN
  | PlusInfinity => Infinity
  | MinusInfinity => NegInfinity
  end.

(** The Number value of an integer numeral. *)
Definition numberOfInteger (v : Z) : Num := floor (binary64 (inject_Z v)).

(** The decimal digits of an integer that is not negative. *)
Definition decimalDigits (z : Z) : str :=
  lit (NilZero.string_of_int (Z.to_int z)).

(** Whether the decimal [v] reads as the Number [z]. *)
Definition denotes (v z : Z) : bool :=
  match binary64 (inject_Z v) with
  | Finite q => Qeq_bool q (inject_Z z)
  | _ => false
  end.

(** Among the decimals of [k] significant digits next to [z] (which has
    [count] digits), one that reads as [z]: the nearer one, the even one
    of two equally near. *)
Definition shortest_with (z : Z) (count k : nat) : option Z :=
  let unit := (10 ^ Z.of_nat (count - k))%Z in
  let below := (z / unit * unit)%Z in
  let above := (below + unit)%Z in
  match denotes below z, denotes above z with
  | true, true =>
      Some (if (z - below <? above - z)%Z then below
            else if (above - z <? z - below)%Z then above
            else if Z.even (z / unit) then below else above)
  | true, false => Some below
  | false, true => Some above
  | false, false => None
  end.

Fixpoint shortest_from (z : Z) (count k fuel : nat) : Z :=
  match fuel with
  | O => z
  | S fuel' =>
      match shortest_with z count k with
      | Some v => v
      | None => shortest_from z count (S k) fuel'
      end
  end.

(** The decimal of fewest significant digits that reads as the positive
    integer [z]: the digits JavaScript writes for it. *)
Definition shortest (z : Z) : Z :=
  let count := List.length (decimalDigits z) in
  shortest_from z count 1 count.

Fixpoint drop_zeros (ds : str) : str :=
  match ds with
  | 48%N :: r => drop_zeros r
  | _ => ds
  end.

(** [d.ddde+n] from the digits of a positive integer. *)
Definition exponential (ds : str) : str :=
  let e := (lit "e+" ++ decimalDigits (Z.of_nat (List.length ds) - 1))%list in
  match rev (drop_zeros (rev ds)) with
  | [] => ds
  | [d] => d :: e
  | d :: r => (d :: 46%N :: r ++ e)%list
  end.

(** A positive integer Number as text: its shortest digits, in exponent
    notation from 10^21 on. *)
Definition positiveToString (z : Z) : str :=
  let v := shortest z in
  if (v <? 10 ^ 21)%Z then decimalDigits v else exponential (decimalDigits v).

Definition integerToString (z : Z) : str :=
  if (z =? 0)%Z then lit "0"
  else if (z <? 0)%Z then (lit "-" ++ positiveToString (- z))%list
  else positiveToString z.

(** ['' + num] *)
Definition numberToString (num : Num) : str :=
  match num with
  | Int z => integerToString z
  | NaN => lit "NaN"
  | Infinity => lit "Infinity"
  | NegInfinity => lit "-Infinity"
  end.

(** [num < k]: false for [NaN]. *)
Definition lessThan (num : Num) (k : Z) : bool :=
  match num with
  | Int z => (z <? k)%Z
  | NegInfinity => true
  | NaN | Infinity => false
  end.

Definition padZero (num : Num) : str :=
  if lessThan num 10 then (lit "0" ++ numberToString num)%list
  else numberToString num.

(** The loop of [repeatStr]: [result += str], [n] times. *)
Fixpoint repeat_loop (s : str) (n : nat) : str :=
  match n with
  | O => []
  | S k => (repeat_loop s k ++ s)%list
  end.

(** [repeatStr(str, times)] for an integer [times]: the loop runs while
    [i < times], not at all when [times] is zero or negative. *)
Definition repeatStr (s : str) (times : Z) : str :=
  repeat_loop s (Z.to_nat times).

(** [padChar || ' '] *)
Definition padCharOr (padChar : option str) : str :=
  match padChar with
  | Some (c :: r) => c :: r
  | Some [] | None => lit " "
  end.

(** [padString(str, length, padChar)] of a text ([String(str)] is the
    text itself) and an integer length; [padChar] is [None] when the
    argument is left out. *)
Definition padString (s : str) (length : Z) (padChar : option str) : str :=
  if (length <=? Z.of_nat (List.length s))%Z then s
  else (s ++ repeatStr (padCharOr padChar)
                       (length - Z.of_nat (List.length s)))%list.

(** [s.split(separator)] for a separator of one code unit. *)
Fixpoint split_from (separator : N) (acc s : str) : list str :=
  match s with
  | [] => [acc]
  | c :: r =>
      if N.eqb c separator then acc :: split_from separator [] r
      else split_from separator (acc ++ [c])%list r
  end.

Definition split (separator : N) (s : str) : list str :=
  split_from separator [] s.

(** [parts[i]]: [None] is [undefined]. *)
Definition part (parts : list str) (i : nat) : option str := nth_error parts i.

(** White space that number parsing skips. *)
Definition white_space : list N :=
  [ 9; 10; 11; 12; 13; 32; 160; 5760; 8192; 8193; 8194; 8195; 8196; 8197;
    8198; 8199; 8200; 8201; 8202; 8232; 8233; 8239; 8287; 12288; 65279 ]%N.

Definition is_space (c : N) : bool := existsb (N.eqb c) white_space.

Fixpoint skip_spaces (s : str) : str :=
  match s with
  | c :: r => if is_space c then skip_spaces r else s
  | [] => []
  end.

Definition is_digit (c : N) : bool := (48 <=? c)%N && (c <=? 57)%N.

Definition digit_value (c : N) : Z := (Z.of_N c - 48)%Z.

(** The longest prefix of decimal digits: its value on top of [acc], the
    number of digits added to [count], and what follows. *)
Fixpoint digits (acc : Z) (count : nat) (s : str) : Z * nat * str :=
  match s with
  | c :: r =>
      if is_digit c then digits (acc * 10 + digit_value c)%Z (S count) r
      else (acc, count, s)
  | [] => (acc, count, [])
  end.

(** An optional sign: whether it is a minus, and what follows. *)
Definition sign (s : str) : bool * str :=
  match s with
  | 45%N :: r => (true, r)
  | 43%N :: r => (false, r)
  | _ => (false, s)
  end.

(** [parseInt(text, 10)]; [undefined] reads as a word without digits. *)
Definition parseInt (text : option str) : Num :=
  match text with
  | None => NaN
  | Some s =>
      let (negative, s) := sign (skip_spaces s) in
      match digits 0 0 s with
      | (_, O, _) => NaN
      | (v, _, _) => numberOfInteger (if negative then - v else v)
      end
  end.

Fixpoint starts_with (prefix s : str) : bool :=
  match prefix, s with
  | [], _ => true
  | p :: prefix', c :: r => N.eqb p c && starts_with prefix' r
  | _ :: _, [] => false
  end.

(** The exponent part, if a complete one follows. *)
Definition exponent (s : str) : Z :=
  match s with
  | c :: r =>
      if N.eqb c 101 || N.eqb c 69 then
        let (negative, r) := sign r in
        match digits 0 0 r with
        | (_, O, _) => 0%Z
        | (e, _, _) => if negative then (- e)%Z else e
        end
      else 0%Z
  | [] => 0%Z
  end.

(** [parseFloat(text)]: the Number value of the longest prefix that is
    a decimal literal. *)
Definition parseFloat (text : option str) : Real :=
  match text with
  | None => NotANumber
  | Some s =>
      let (negative, s) := sign (skip_spaces s) in
      if starts_with (lit "Infinity") s
      then (if negative then MinusInfinity else PlusInfinity)
      else
        match digits 0 0 s with
        | (whole, n1, rest) =>
            match (match rest with
                   | 46%N :: r => digits 0 0 r
                   | _ => (0%Z, O, rest)
                   end) with
            | (fraction, n2, rest') =>
                if ((n1 + n2)%nat =? 0)%nat then NotANumber
                else
                  let mantissa :=
                    (inject_Z whole
                     + inject_Z fraction / inject_Z (10 ^ Z.of_nat n2))%Q in
                  let value := (mantissa * Qpower 10 (exponent rest'))%Q in
                  binary64 (if negative then (- value)%Q else value)
            end
        end
  end.

(** [(hours + 8) % 24]: the sum is a Number again; the remainder is
    exact and has the sign of the dividend; it is [NaN] for a dividend
    that is not finite. *)
Definition plus8mod24 (hours : Num) : Num :=
  match hours with
  | Int z =>
      match numberOfInteger (z + 8) with
      | Int sum => Int (Z.rem sum 24)
      | _ => NaN
      end
  | _ => NaN
  end.

Definition calcBeijingTime (centerTime : str) : str :=
  let parts := split 58 centerTime in
  let hours := parseInt (part parts 0) in
  let minutes := parseInt (part parts 1) in
  let seconds := parseFloat (part parts 2) in
  let hours := plus8mod24 hours in
  (padZero hours ++ lit ":" ++ padZero minutes ++ lit ":"
   ++ padZero (floor seconds))%list.

(** *** The scene table *)

Record Feature := mkFeature {
  id : str;
  CLOUD_COVER : Q;
  DATE_ACQUIRED : str;
  SCENE_CENTER_TIME : str;
  WRS_PATH : Z;
  WRS_ROW : Z
}.

(** [x.toFixed(2)] of the exact value of a Number: the nearest multiple
    of 1/100, the larger one on a tie, written with two decimals
    ([fixed2], for a number that is not negative); from 10^21 on the
    Number is written as ['' + x] writes it; a negative number is written
    as its opposite after a minus sign. *)
Definition fixed2 (x : Q) : str :=
  let n := Qfloor (x * 100 + (1 # 2))%Q in
  let m := decimalDigits n in
  let m := (repeatStr (lit "0") (3 - Z.of_nat (List.length m)) ++ m)%list in
  let k := (List.length m - 2)%nat in
  (firstn k m ++ lit "." ++ skipn k m)%list.

Definition toFixed2 (x : Q) : str :=
  let written x :=
    if Qle_bool (inject_Z (10 ^ 21)) x
    then numberToString (Int (Qfloor x))
    else fixed2 x in
  if Qle_bool 0 x then written x else (lit "-" ++ written (- x))%list.

(** [String(cell)] of a cell that may be [undefined]. *)
Definition cellText (cell : option str) : str :=
  match cell with
  | Some s => s
  | None => lit "undefined"
  end.

Definition header : list str :=
  [ [24207; 21495]%N;
    [24433; 20687; 73; 68]%N;
    [20113; 37327]%N;
    [33719; 21462; 26085; 26399]%N;
    [33719; 21462; 26102; 38388; 40; 85; 84; 67; 41]%N;
    [33719; 21462; 26102; 38388; 40; 21271; 20140; 26102; 38388; 41]%N;
    [24180; 20221]%N;
    [26376; 20221]%N;
    lit "Path";
    lit "Row" ].

(** [row_data] of the feature at [index], every cell as [String(cell)]
    shows it. *)
Definition rowData (index : nat) (feature : Feature) : list str :=
  let dateParts := split 45 (DATE_ACQUIRED feature) in
  [ numberToString (Int (Z.of_nat index + 1));
    id feature;
    (toFixed2 (CLOUD_COVER feature) ++ lit "%")%list;
    DATE_ACQUIRED feature;
    SCENE_CENTER_TIME feature;
    calcBeijingTime (SCENE_CENTER_TIME feature);
    cellText (part dateParts 0);
    cellText (part dateParts 1);
    numberToString (Int (WRS_PATH feature));
    numberToString (Int (WRS_ROW feature)) ].

(** The data rows, in the order of the features. *)
Fixpoint rowsFrom (index : nat) (features : list Feature) : list (list str) :=
  match features with
  | [] => []
  | feature :: rest => rowData index feature :: rowsFrom (S index) rest
  end.

(** [tableData]: the header, then the data rows. *)
Definition tableData (features : list Feature) : list (list str) :=
  header :: rowsFrom O features.

(** One pass of [row_data.forEach]: [columnWidths[i] =
    Math.max(columnWidths[i], String(cell).length)].  A width is [None]
    once it is [NaN], which is what a cell beyond the known columns
    makes of it. *)
Fixpoint updateWidths (widths : list (option Z)) (row : list str)
  : list (option Z) :=
  match row with
  | [] => widths
  | cell :: cells =>
      match widths with
      | Some w :: rest =>
          Some (Z.max w (Z.of_nat (List.length cell)))
          :: updateWidths rest cells
      | None :: rest => None :: updateWidths rest cells
      | [] => None :: updateWidths [] cells
      end
  end.

(** [columnWidths] after the loop over the features. *)
Definition columnWidths (features : list Feature) : list (option Z) :=
  fold_left updateWidths (rowsFrom O features)
    (map (fun col => Some (Z.of_nat (List.length col))) header).

(** [array.join(separator)] *)
Fixpoint join (separator : str) (cells : list str) : str :=
  match cells with
  | [] => []
  | [cell] => cell
  | cell :: rest => (cell ++ separator ++ join separator rest)%list
  end.

(** [String(cell) + repeatStr(' ', columnWidths[i] - String(cell).length)]
    for every cell; a missing or [NaN] width pads with nothing. *)
Fixpoint padCells (widths : list (option Z)) (row : list str) : list str :=
  match row with
  | [] => []
  | cell :: cells =>
      (cell ++ match widths with
               | Some w :: _ =>
                   repeatStr (lit " ") (w - Z.of_nat (List.length cell))
               | _ => []
               end)%list
      :: padCells (tl widths) cells
  end.

(** The printed line of a row. *)
Definition rowLine (widths : list (option Z)) (row : list str) : str :=
  (lit "| " ++ join (lit " | ") (padCells widths row) ++ lit " |")%list.

(** [columnWidths.reduce(sum) + columnWidths.length * 3 - 1]; [None] is
    [NaN].  (The header gives ten columns, so the array is never empty.) *)
Definition totalWidth (widths : list (option Z)) : option Z :=
  match fold_right (fun w sum =>
                      match w, sum with
                      | Some x, Some y => Some (x + y)%Z
                      | _, _ => None
                      end) (Some 0%Z) widths with
  | Some sum => Some (sum + Z.of_nat (List.length widths) * 3 - 1)%Z
  | None => None
  end.

(** [repeatStr(ch, totalWidth)]; with [NaN] the loop does not run. *)
Definition ruler (ch : str) (total : option Z) : str :=
  match total with
  | Some t => repeatStr ch t
  | None => []
  end.

Definition title : str :=
  [10; 24433; 20687; 35814; 32454; 20449; 24687; 34920; 58]%N.

(** The lines the callback prints for the table, in order. *)
Definition tableLines (features : list Feature) : list str :=
  let widths := columnWidths features in
  let total := totalWidth widths in
  (title :: ruler (lit "=") total
   :: rowLine widths header
   :: ruler (lit "-") total
   :: map (rowLine widths) (rowsFrom O features)
   ++ [ruler (lit "=") total])%list.

End Metadata.

(** ** Observations on rasters and runs *)

Module Observe.

Import EE Js Script Spec.

(** Every value of the band lies in [lo, hi]. *)
Definition within (lo hi : Q) (b : Band) : Prop :=
  forall i x, pixel_at b i = Some x -> lo <= x <= hi.

(** What an index pixel holds, given the pixels of the two source bands
    (digital numbers) at the same location. *)
Definition index_pixel (pa pb p : pixel) : Prop :=
  match pa, pb with
  | Some a, Some b =>
      exists v,
        p = Some v
        /\ -1 <= v <= 1
        /\ (~ rescale a + rescale b == 0 ->
            v == clamp (-1) 1 (normalized_difference (rescale a) (rescale b)))
        /\ (rescale a + rescale b == 0 -> v == 0)
  | _, _ => p = None
  end.

(** The validity value [maskClouds] derives from a QA value: non-zero
    keeps the location. *)
Definition validity (q : Q) : Q :=
  not (or (bitwiseAnd q (Z.shiftl 1 3)) (bitwiseAnd q (Z.shiftl 1 4))).

Definition is_export (e : Event) : bool :=
  match e with
  | ExportImageToDrive _ _ _ => true
  | _ => false
  end.

Definition is_print (e : Event) : bool :=
  match e with
  | Print _ => true
  | _ => false
  end.

(** The export requests of a run, in order. *)
Definition exports (log : list Event) : list Event := filter is_export log.

(** The descriptions (file base names) of the export requests, in order. *)
Definition export_descriptions (log : list Event) : list string :=
  flat_map (fun e => match e with
                     | ExportImageToDrive _ description _ => [description]
                     | _ => []
                     end) log.

(** A collection that evaluates to at least one scene. *)
Definition has_scenes (c : computed (list Image)) : bool :=
  match c with
  | Value (_ :: _) => true
  | _ => false
  end.

(** How often a character occurs in a string. *)
Fixpoint occurrences (c : ascii) (s : string) : nat :=
  match s with
  | EmptyString => O
  | String d r => (if Ascii.eqb d c then 1 else 0) + occurrences c r
  end.

(** The string without any occurrence of a character. *)
Fixpoint without (c : ascii) (s : string) : string :=
  match s with
  | EmptyString => EmptyString
  | String d r => if Ascii.eqb d c then without c r else String d (without c r)
  end.

(** The number a run of decimal digits writes, on top of [acc]. *)
Definition decimal (acc : Z) (ds : Metadata.str) : Z :=
  fold_left (fun a c => (a * 10 + Metadata.digit_value c)%Z) ds acc.

(** [padZero] writes [n] as two digits of which it is the value. *)
Definition two_digits (n : nat) : bool :=
  match Metadata.padZero (Metadata.Int (Z.of_nat n)) with
  | [d1; d2] =>
      Metadata.is_digit d1 && Metadata.is_digit d2
      && (Metadata.digit_value d1 * 10 + Metadata.digit_value d2
          =? Z.of_nat n)%Z
  | _ => false
  end.

(** The integer [n] is a Number: its numeral reads as [n] itself. *)
Definition exact_integer (n : nat) : bool :=
  match Metadata.numberOfInteger (Z.of_nat n) with
  | Metadata.Int z => (z =? Z.of_nat n)%Z
  | _ => false
  end.

(** The sum of the widths of the columns. *)
Definition total (ws : list Z) : Z := fold_right Z.add 0%Z ws.

End Observe.

(** ** More sample inputs *)

Module MoreSamples.

Import EE Js Script.

(** A catalogue whose every request fails on the server. *)
Definition failing_catalog : Catalog :=
  fun _ _ _ _ => Failure "Computation timed out.".

(** Parameters of the NDVI statistics script, as in its usage example. *)
Definition ndvi_params : NdviAnalysis.Params :=
  NdviAnalysis.mkParams Samples.aoi "2021-01-01" "2021-12-31" "L8"
    "NDVI_Results" "mean".

(** The same with a statistic the script does not know. *)
Definition median_params : NdviAnalysis.Params :=
  NdviAnalysis.mkParams Samples.aoi "2021-01-01" "2021-12-31" "L8"
    "NDVI_Results" "median".

(** A window without scenes. *)
Definition empty_window_params : NdviAnalysis.Params :=
  NdviAnalysis.mkParams Samples.aoi "2020-01-01" "2020-12-31" "L8"
    "NDVI_Results" "max".

(** FVC parameters with a composite the script does not know. *)
Definition median_fvc_params : FvcAnalysis.Params :=
  FvcAnalysis.mkParams Samples.aoi Samples.periods_2020_2021 "L8"
    (Some "median") (Some false) (Some 0.2) (Some 0.86) "FVC_Results".

(** FVC parameters with a satellite the script does not know. *)
Definition l6_fvc_params : FvcAnalysis.Params :=
  FvcAnalysis.mkParams Samples.aoi Samples.periods_2020_2021 "L6"
    (Some "median") (Some false) (Some 0.2) (Some 0.86) "FVC_Results".

(** [Samples.scene_L8] after [maskClouds]. *)
Definition masked_2021 : list Image :=
  Eval vm_compute in
    match cmap NdviAnalysis.maskClouds [Samples.scene_L8] with
    | Value masked => masked
    | Failure _ => []
    end.

(** Two scenes of the same path and row, and one of the next row. *)
Definition scene_row (row : string) : Image :=
  mkImage [] [ ("WRS_PATH", "123"); ("WRS_ROW", row) ].

Definition three_scenes : list Image :=
  [ scene_row "32"; scene_row "33"; scene_row "32" ].

End MoreSamples.

(** ** Pixels of derived bands *)

Section Pixels.

Import EE.

Lemma pixel_at_tabulate (n : nat) (f : nat -> pixel) (i : nat) :
  pixel_at (tabulate n f) i = if (i <? n)%nat then f i else None.
Proof.
  unfold pixel_at, tabulate.
  destruct (Nat.ltb_spec i n) as [Hlt | Hge].
  - rewrite (nth_indep _ None (f O)) by (rewrite length_map, length_seq; exact Hlt).
    rewrite map_nth, seq_nth by exact Hlt. reflexivity.
  - apply nth_overflow. rewrite length_map, length_seq. exact Hge.
Qed.

Lemma pixel_at_outside (b : Band) (i : nat) :
  (List.length b <= i)%nat -> pixel_at b i = None.
Proof. intros H. apply nth_overflow. exact H. Qed.

Lemma pixel_at_band_map (f : Q -> Q) (b : Band) (i : nat) :
  pixel_at (band_map f b) i = option_map f (pixel_at b i).
Proof. exact (map_nth (option_map f) b None i). Qed.

Lemma pixel_at_band_map2 (f : Q -> Q -> Q) (a b : Band) (i : nat) :
  pixel_at (band_map2 f a b) i = lift2 f (pixel_at a i) (pixel_at b i).
Proof.
  unfold band_map2. rewrite pixel_at_tabulate.
  destruct (Nat.ltb_spec i (List.length a)) as [_ | Hge]; [reflexivity |].
  rewrite (pixel_at_outside a) by exact Hge. reflexivity.
Qed.

Lemma pixel_at_band_where (input test : Band) (value : Q) (i : nat) :
  pixel_at (band_where input test value) i
  = where_px (pixel_at input i) (pixel_at test i) value.
Proof.
  unfold band_where. rewrite pixel_at_tabulate.
  destruct (Nat.ltb_spec i (List.length input)) as [_ | Hge]; [reflexivity |].
  rewrite (pixel_at_outside input) by exact Hge. reflexivity.
Qed.

Lemma pixel_at_band_updateMask (b mask : Band) (i : nat) :
  pixel_at (band_updateMask b mask) i
  = mask_px (pixel_at b i) (pixel_at mask i).
Proof.
  unfold band_updateMask. rewrite pixel_at_tabulate.
  destruct (Nat.ltb_spec i (List.length b)) as [_ | Hge]; [reflexivity |].
  rewrite (pixel_at_outside b) by exact Hge. reflexivity.
Qed.

End Pixels.

Create Rewrite HintDb pixels.
#[local] Hint Rewrite pixel_at_band_map pixel_at_band_map2 pixel_at_band_where
  pixel_at_band_updateMask : pixels.

(** ** Limiting a value to a range *)

Section Limit.

Import EE Index Spec.

Variables lo hi : Q.
Hypothesis range : lo <= hi.

Lemma pixel_at_limit_band (b : Band) (i : nat) :
  pixel_at (limit_band b lo hi) i = option_map (limited lo hi) (pixel_at b i).
Proof.
  unfold limit_band. autorewrite with pixels.
  destruct (pixel_at b i) as [x |]; [| reflexivity].
  unfold where_px, limited. cbn [option_map].
  destruct (nonzero (lt x lo)), (nonzero (gt x hi)); reflexivity.
Qed.

Lemma nonzero_gt (x c : Q) : nonzero (gt x c) = negb (Qle_bool x c).
Proof. unfold gt. destruct (Qle_bool x c); reflexivity. Qed.

Lemma nonzero_lt (x c : Q) : nonzero (lt x c) = negb (Qle_bool c x).
Proof. unfold lt. destruct (Qle_bool c x); reflexivity. Qed.

Lemma Qle_bool_false (x y : Q) : Qle_bool x y = false -> y < x.
Proof.
  intros H. apply Qnot_le_lt. intros Hle.
  apply Qle_bool_iff in Hle. congruence.
Qed.

(** The two [where] steps together are the clamp into [lo, hi]. *)
Lemma limited_clamp (x : Q) : limited lo hi x == clamp lo hi x.
Proof.
  unfold limited, clamp. rewrite nonzero_gt, nonzero_lt.
  destruct (Qle_bool x hi) eqn:Hhi; cbn.
  - apply Qle_bool_iff in Hhi.
    destruct (Qle_bool lo x) eqn:Hlo; cbn.
    + apply Qle_bool_iff in Hlo.
      rewrite (Q.min_r hi x) by exact Hhi. rewrite Q.max_r by exact Hlo.
      reflexivity.
    + apply Qle_bool_false in Hlo.
      rewrite (Q.min_r hi x) by exact Hhi.
      rewrite Q.max_l by (apply Qlt_le_weak; exact Hlo). reflexivity.
  - apply Qle_bool_false in Hhi.
    rewrite (Q.min_l hi x) by (apply Qlt_le_weak; exact Hhi).
    rewrite Q.max_r by exact range. reflexivity.
Qed.

Lemma limited_range (x : Q) : lo <= limited lo hi x <= hi.
Proof.
  unfold limited. rewrite nonzero_gt, nonzero_lt.
  destruct (Qle_bool x hi) eqn:Hhi; cbn.
  - apply Qle_bool_iff in Hhi.
    destruct (Qle_bool lo x) eqn:Hlo; cbn.
    + apply Qle_bool_iff in Hlo. split; assumption.
    + split; [apply Qle_refl | exact range].
  - split; [exact range | apply Qle_refl].
Qed.

Lemma clamp_inside (x : Q) : lo <= x -> x <= hi -> clamp lo hi x == x.
Proof.
  intros Hlo Hhi. unfold clamp.
  rewrite (Q.min_r hi x) by exact Hhi. apply Q.max_r. exact Hlo.
Qed.

End Limit.


(** ** The index functions *)

Section IndexFunctions.

Import EE Index Spec.

Lemma index_value_regular (a b : Q) :
  ~ rescale a + rescale b == 0 ->
  index_value a b
  == clamp (-1) 1 (normalized_difference (rescale a) (rescale b)).
Proof.
  intros Hnz. unfold index_value, divide.
  destruct (Qeq_bool (rescale a + rescale b) 0) eqn:E.
  - apply Qeq_bool_iff in E. contradiction.
  - apply limited_clamp. discriminate.
Qed.

Lemma index_value_zero_sum (a b : Q) :
  rescale a + rescale b == 0 -> index_value a b == 0.
Proof.
  intros Hz. unfold index_value, divide.
  apply Qeq_bool_iff in Hz. rewrite Hz. reflexivity.
Qed.

Lemma index_value_range (a b : Q) : -1 <= index_value a b <= 1.
Proof. apply limited_range. discriminate. Qed.

(** Integer digital numbers never rescale to a zero sum: that would need
    [a + b = 160000 / 11]. *)
Lemma integer_dn_sum_nonzero (a b : Z) :
  ~ rescale (inject_Z a) + rescale (inject_Z b) == 0.
Proof.
  unfold rescale, Qeq. cbn. lia.
Qed.

Lemma index_band (A B : Band) :
  index_of A B (limit_band (expression (reflectance A) (reflectance B)) (-1) 1).
Proof.
  intros i. rewrite pixel_at_limit_band. unfold expression, reflectance.
  autorewrite with pixels.
  destruct (pixel_at A i) as [a |], (pixel_at B i) as [b |]; try reflexivity.
  exists (index_value a b). split; [reflexivity |].
  split; [apply index_value_range |].
  split; [apply index_value_regular | apply index_value_zero_sum].
Qed.

(** A value a band holds at some location is one of its pixels. *)
Lemma pixel_at_In (b : Band) (i : nat) (x : Q) :
  pixel_at b i = Some x -> In (Some x) b.
Proof.
  unfold pixel_at. intros H.
  destruct (Nat.ltb_spec i (List.length b)) as [Hlt | Hge].
  - rewrite <- H. apply nth_In. exact Hlt.
  - rewrite nth_overflow in H by exact Hge. discriminate.
Qed.

Lemma digital_number_at (b : Band) (i : nat) (x : Q) :
  digital_numbers b -> pixel_at b i = Some x -> exists z : Z, x == inject_Z z.
Proof.
  intros Hb Hx. unfold digital_numbers in Hb. rewrite Forall_forall in Hb.
  apply (Hb (Some x)). apply (pixel_at_In b i). exact Hx.
Qed.

(** On digital numbers the index band is the clamped quotient everywhere:
    the zero denominator does not occur. *)
Lemma index_band_digital_numbers (A B : Band) :
  digital_numbers A ->
  digital_numbers B ->
  index_of_digital_numbers A B
    (limit_band (expression (reflectance A) (reflectance B)) (-1) 1).
Proof.
  intros HdA HdB i. pose proof (index_band A B i) as H.
  destruct (pixel_at A i) as [a |] eqn:Ea; [| exact H].
  destruct (pixel_at B i) as [b |] eqn:Eb; [| exact H].
  destruct (digital_number_at A i a HdA Ea) as [za Hza].
  destruct (digital_number_at B i b HdB Eb) as [zb Hzb].
  assert (Hnz : ~ rescale a + rescale b == 0).
  { unfold rescale. rewrite Hza, Hzb. apply integer_dn_sum_nonzero. }
  destruct H as (v & Hv & Hrange & Hregular & _).
  split; [exact Hnz |]. split; [intros Hz; contradiction |].
  exists v. split; [exact Hv |]. split; [apply Hregular; exact Hnz |].
  exact Hrange.
Qed.

Lemma fresh_unused (taken : list string) (name : string) :
  ~ In name taken -> fresh taken name = name.
Proof.
  intros Hnot. unfold fresh, mem.
  destruct (existsb (String.eqb name) taken) eqn:E; [| reflexivity].
  apply existsb_exists in E. destruct E as [x [Hin Heq]].
  apply String.eqb_eq in Heq. subst x. contradiction.
Qed.

End IndexFunctions.

Section IndexClaims.

Import EE Index Spec.

(** Both source bands are there: the function returns the image with the
    limited index band appended. *)
Ltac index_function HA HB :=
  rewrite HA, HB; cbn [cbind]; eexists _, _; split; [reflexivity |].

(** C1: for every scene whose two selected bands hold digital numbers
    (integers, as every Landsat surface reflectance band does),
    computeNDVI, computeNDBI and computeNDWI return the scene with one
    band more.  At every location where both source bands hold a value,
    that band holds the quotient (A - B) / (A + B) of the rescaled values
    (x 0.0000275, + -0.2), clamped into [-1, 1] after the division, so a
    value in [-1, 1]; the rescaled sum A + B is never 0 there (that would
    need digital numbers adding up to 160000 / 11), so the case in which
    the pixel would hold nothing for a zero sum has no instance; where a
    source band holds nothing, so does the index.  A raw 1.5 is clamped
    to 1. *)
Theorem index_rescale_divide_clamp :
  forall (image : Image) (satellite : string) (A B : Band),
    digital_numbers A ->
    digital_numbers B ->
    (select image (NdviAnalysis.nir (NdviAnalysis.getBandNames satellite))
       = Value A ->
     select image (NdviAnalysis.red (NdviAnalysis.getBandNames satellite))
       = Value B ->
     index_added image A B (NdviAnalysis.computeNDVI image satellite))
    /\ (select image (NdbiAnalysis.swir (NdbiAnalysis.getBandNames satellite))
          = Value A ->
        select image (NdbiAnalysis.nir (NdbiAnalysis.getBandNames satellite))
          = Value B ->
        index_added image A B (NdbiAnalysis.computeNDBI image satellite))
    /\ (select image (NdwiAnalysis.green (NdwiAnalysis.getBandNames satellite))
          = Value A ->
        select image (NdwiAnalysis.nir (NdwiAnalysis.getBandNames satellite))
          = Value B ->
        index_added image A B (NdwiAnalysis.computeNDWI image satellite))
    /\ clamp (-1) 1 1.5 == 1.
Proof.
  intros image satellite A B HdA HdB.
  split; [| split; [| split; [| reflexivity]]].
  - intros HA HB. unfold NdviAnalysis.computeNDVI.
    index_function HA HB. apply index_band_digital_numbers; assumption.
  - intros HA HB. unfold NdbiAnalysis.computeNDBI.
    index_function HA HB. apply index_band_digital_numbers; assumption.
  - intros HA HB. unfold NdwiAnalysis.computeNDWI.
    index_function HA HB. apply index_band_digital_numbers; assumption.
Qed.

Lemma index_rescale_divide_clamp_witness :
  index_added Samples.scene_L8
    [Some 20000; Some 20000; Some 20000; Some 20000; Some 20000]
    [Some 10000; Some 10000; Some 10000; Some 10000; Some 10000]
    (NdviAnalysis.computeNDVI Samples.scene_L8 "L8").
Proof.
  apply (index_rescale_divide_clamp Samples.scene_L8 "L8").
  - repeat (constructor; [exists 20000%Z; reflexivity |]). constructor.
  - repeat (constructor; [exists 10000%Z; reflexivity |]). constructor.
  - reflexivity.
  - reflexivity.
Defined.

(** C10: for every image that has the two bands the function reads,
    computeNDVI and computeNDBI return the image with every original band
    in place, under its name and with its pixels, the metadata unchanged,
    and exactly one band appended, called NDVI (resp. NDBI) when the image
    has no band of that name yet. *)
Theorem index_band_appended :
  forall (image : Image) (satellite : string) (A B : Band),
    (select image (NdviAnalysis.nir (NdviAnalysis.getBandNames satellite))
       = Value A ->
     select image (NdviAnalysis.red (NdviAnalysis.getBandNames satellite))
       = Value B ->
     one_band_added image "NDVI" (NdviAnalysis.computeNDVI image satellite))
    /\ (select image (NdbiAnalysis.swir (NdbiAnalysis.getBandNames satellite))
          = Value A ->
        select image (NdbiAnalysis.nir (NdbiAnalysis.getBandNames satellite))
          = Value B ->
        one_band_added image "NDBI" (NdbiAnalysis.computeNDBI image satellite)).
Proof.
  intros image satellite A B. split.
  - intros HA HB. unfold NdviAnalysis.computeNDVI.
    index_function HA HB. apply fresh_unused.
  - intros HA HB. unfold NdbiAnalysis.computeNDBI.
    index_function HA HB. apply fresh_unused.
Qed.

Lemma index_band_appended_witness :
  one_band_added Samples.scene_L8 "NDVI"
    (NdviAnalysis.computeNDVI Samples.scene_L8 "L8").
Proof.
  apply (index_band_appended Samples.scene_L8 "L8"
           [Some 20000; Some 20000; Some 20000; Some 20000; Some 20000]
           [Some 10000; Some 10000; Some 10000; Some 10000; Some 10000]);
    reflexivity.
Defined.

End IndexClaims.

(** ** Cloud and shadow masking *)

Section CloudMask.

Import EE Index Spec.

Lemma land_pow2 (q n : Z) :
  (0 <= n)%Z -> Z.land q (2 ^ n) = if Z.testbit q n then (2 ^ n)%Z else 0%Z.
Proof.
  intros Hn. apply Z.bits_inj'. intros k Hk.
  rewrite Z.land_spec, Z.pow2_bits_eqb by exact Hn.
  destruct (Z.eqb_spec n k) as [-> | Hne].
  - destruct (Z.testbit q k) eqn:E.
    + rewrite Z.pow2_bits_eqb, Z.eqb_refl by exact Hk. reflexivity.
    + rewrite Z.bits_0. reflexivity.
  - rewrite andb_false_r.
    destruct (Z.testbit q n).
    + rewrite Z.pow2_bits_eqb by exact Hn.
      symmetry. apply Z.eqb_neq. exact Hne.
    + rewrite Z.bits_0. reflexivity.
Qed.

(** The mask value of a location whose QA value is the integer [q]. *)
Lemma valid_mask_value (q : Z) :
  not (or (bitwiseAnd (inject_Z q) (Z.shiftl 1 3))
          (bitwiseAnd (inject_Z q) (Z.shiftl 1 4)))
  = if flagged q then 0 else 1.
Proof.
  unfold bitwiseAnd, flagged. rewrite Qfloor_Z.
  change (Z.shiftl 1 3) with (2 ^ 3)%Z. change (Z.shiftl 1 4) with (2 ^ 4)%Z.
  rewrite !land_pow2 by lia.
  destruct (Z.testbit q 3), (Z.testbit q 4); reflexivity.
Qed.

Lemma pixel_at_valid_mask (qa : Band) (i : nat) (q : Z) :
  pixel_at qa i = Some (inject_Z q) ->
  pixel_at (band_map not (cloudMask qa)) i
  = Some (if flagged q then 0 else 1).
Proof.
  intros Hq. unfold cloudMask. autorewrite with pixels. rewrite Hq. cbn.
  rewrite valid_mask_value. reflexivity.
Qed.

Lemma lookup_map_band (f : Band -> Band) (l : list Raster) (k : string) :
  lookup k (map (fun r => (fst r, f (snd r))) l) = option_map f (lookup k l).
Proof.
  induction l as [| [k' b] l IH]; [reflexivity |].
  cbn. destruct (String.eqb k k'); [reflexivity | exact IH].
Qed.

Lemma bandNames_updateMask (image : Image) (mask : Band) :
  bandNames (updateMask image mask) = bandNames image.
Proof.
  unfold bandNames, updateMask. cbn. rewrite map_map. reflexivity.
Qed.

(** C8: for every scene with a QA band, maskClouds returns the scene with
    the same band names and metadata; a location whose QA value is the
    integer q is marked invalid (mask 0) exactly when bit 3 or bit 4 of q
    is set, and there every band loses its value, while at the other
    locations every band keeps its pixel.  Binary 11000 is invalid, binary
    00001 stays valid. *)
Theorem cloud_mask_bits_3_and_4 :
  forall (image : Image) (qa : Band),
    select image "QA_PIXEL" = Value qa ->
    exists masked,
      NdviAnalysis.maskClouds image = Value masked
      /\ bandNames masked = bandNames image
      /\ properties masked = properties image
      /\ (forall i q,
            pixel_at qa i = Some (inject_Z q) ->
            pixel_at (band_map not (cloudMask qa)) i
            = Some (if flagged q then 0 else 1)
            /\ forall name b,
                 lookup name (bands image) = Some b ->
                 exists b',
                   lookup name (bands masked) = Some b'
                   /\ pixel_at b' i
                      = if flagged q then None else pixel_at b i)
      /\ flagged 24 = true
      /\ flagged 1 = false.
Proof.
  intros image qa Hqa. unfold NdviAnalysis.maskClouds. rewrite Hqa. cbn [cbind].
  eexists. split; [reflexivity |].
  split; [apply bandNames_updateMask |].
  split; [reflexivity |].
  split; [| split; reflexivity].
  intros i q Hq. split; [apply pixel_at_valid_mask; exact Hq |].
  intros name b Hb. unfold updateMask. cbn [bands].
  rewrite (lookup_map_band (fun x => band_updateMask x _)), Hb. cbn [option_map].
  eexists. split; [reflexivity |].
  rewrite pixel_at_band_updateMask, (pixel_at_valid_mask qa i q Hq).
  destruct (flagged q), (pixel_at b i); reflexivity.
Qed.

Lemma cloud_mask_bits_3_and_4_witness :
  exists masked,
    NdviAnalysis.maskClouds Samples.scene_L8 = Value masked
    /\ bandNames masked = bandNames Samples.scene_L8
    /\ properties masked = properties Samples.scene_L8
    /\ (forall i q,
          pixel_at [Some 1; Some 8; Some 16; Some 24; None] i
          = Some (inject_Z q) ->
          pixel_at (band_map not
                      (cloudMask [Some 1; Some 8; Some 16; Some 24; None])) i
          = Some (if flagged q then 0 else 1)
          /\ forall name b,
               lookup name (bands Samples.scene_L8) = Some b ->
               exists b',
                 lookup name (bands masked) = Some b'
                 /\ pixel_at b' i
                    = if flagged q then None else pixel_at b i)
    /\ flagged 24 = true
    /\ flagged 1 = false.
Proof.
  apply (cloud_mask_bits_3_and_4 Samples.scene_L8
           [Some 1; Some 8; Some 16; Some 24; None]).
  reflexivity.
Defined.

(** The four scripts carry the same [maskClouds]. *)
Lemma maskClouds_copies (image : Image) :
  NdbiAnalysis.maskClouds image = NdviAnalysis.maskClouds image
  /\ NdwiAnalysis.maskClouds image = NdviAnalysis.maskClouds image
  /\ NdviBatch.maskClouds image = NdviAnalysis.maskClouds image
  /\ FvcAnalysis.maskClouds image = NdviAnalysis.maskClouds image.
Proof. repeat split. Qed.

(** Masking keeps every scene of a collection. *)
Lemma cmap_length {A B} (f : A -> computed B) (l : list A) (r : list B) :
  cmap f l = Value r -> List.length r = List.length l.
Proof.
  revert r. induction l as [| x l IH]; intros r H.
  - injection H as <-. reflexivity.
  - cbn in H. destruct (f x) as [y | m]; [| discriminate]. cbn in H.
    destruct (cmap f l) as [ys | m]; [| discriminate]. cbn in H.
    injection H as <-. cbn. rewrite (IH ys eq_refl). reflexivity.
Qed.

End CloudMask.

(** ** The dimidiate pixel model *)

Section FractionalCover.

Import EE Index Spec FvcAnalysis.

Lemma pixel_at_calculateFVC (ndviImage : Band) (s v : Q) (i : nat) :
  pixel_at (snd (calculateFVC ndviImage s v)) i
  = option_map (fun x => limited 0 1 (divide (x - s) (v - s)))
               (pixel_at ndviImage i).
Proof.
  unfold calculateFVC, rename. cbn [snd].
  rewrite pixel_at_limit_band, pixel_at_band_map.
  destruct (pixel_at ndviImage i); reflexivity.
Qed.

(** C2: for every NDVI raster and thresholds with ndvi_veg <> ndvi_soil,
    calculateFVC names its band FVC and holds, at every location with an
    NDVI value, (NDVI - ndvi_soil) / (ndvi_veg - ndvi_soil) clamped to
    [0, 1]: a value in [0, 1], equal to 0 where NDVI = ndvi_soil and to 1
    where NDVI = ndvi_veg; locations without NDVI value stay without. *)
Theorem fvc_linear_mixture_clamped :
  forall (ndviImage : Band) (ndvi_soil ndvi_veg : Q),
    ~ ndvi_veg == ndvi_soil ->
    fst (calculateFVC ndviImage ndvi_soil ndvi_veg) = "FVC"
    /\ forall i,
         match pixel_at ndviImage i with
         | Some NDVI =>
             exists fvc,
               pixel_at (snd (calculateFVC ndviImage ndvi_soil ndvi_veg)) i
               = Some fvc
               /\ fvc == clamp 0 1 ((NDVI - ndvi_soil) / (ndvi_veg - ndvi_soil))
               /\ 0 <= fvc <= 1
               /\ (NDVI == ndvi_soil -> fvc == 0)
               /\ (NDVI == ndvi_veg -> fvc == 1)
         | None =>
             pixel_at (snd (calculateFVC ndviImage ndvi_soil ndvi_veg)) i = None
         end.
Proof.
  intros ndviImage s v Hne. split; [reflexivity |].
  intros i. rewrite pixel_at_calculateFVC.
  destruct (pixel_at ndviImage i) as [x |]; [| reflexivity]. cbn [option_map].
  assert (Hden : ~ v - s == 0).
  { intros H. apply Hne. apply Qplus_inj_r with (z := - s).
    rewrite Qplus_opp_r. exact H. }
  assert (Hdiv : divide (x - s) (v - s) = (x - s) / (v - s)).
  { unfold divide. destruct (Qeq_bool (v - s) 0) eqn:E; [| reflexivity].
    apply Qeq_bool_iff in E. contradiction. }
  rewrite Hdiv.
  assert (H01 : 0 <= 1) by discriminate.
  assert (Hclamp := limited_clamp 0 1 H01 ((x - s) / (v - s))).
  eexists. split; [reflexivity |].
  split; [exact Hclamp |].
  split; [apply limited_range; exact H01 |].
  split; intros Heq; rewrite Hclamp.
  - assert (Hq : (x - s) / (v - s) == 0).
    { rewrite Heq. unfold Qminus at 1. rewrite Qplus_opp_r.
      unfold Qdiv. apply Qmult_0_l. }
    rewrite clamp_inside; rewrite ?Hq; try reflexivity; discriminate.
  - assert (Hq : (x - s) / (v - s) == 1).
    { rewrite Heq. unfold Qdiv. apply Qmult_inv_r. exact Hden. }
    rewrite clamp_inside; rewrite ?Hq; try reflexivity; discriminate.
Qed.

Lemma fvc_linear_mixture_clamped_witness :
  fst (calculateFVC [Some 0.2; Some 0.86; Some 0.53; None; Some (-0.5)]
         0.2 0.86) = "FVC"
  /\ forall i,
       match pixel_at [Some 0.2; Some 0.86; Some 0.53; None; Some (-0.5)] i with
       | Some NDVI =>
           exists fvc,
             pixel_at
               (snd (calculateFVC
                       [Some 0.2; Some 0.86; Some 0.53; None; Some (-0.5)]
                       0.2 0.86)) i
             = Some fvc
             /\ fvc == clamp 0 1 ((NDVI - 0.2) / (0.86 - 0.2))
             /\ 0 <= fvc <= 1
             /\ (NDVI == 0.2 -> fvc == 0)
             /\ (NDVI == 0.86 -> fvc == 1)
       | None =>
           pixel_at
             (snd (calculateFVC
                     [Some 0.2; Some 0.86; Some 0.53; None; Some (-0.5)]
                     0.2 0.86)) i
           = None
       end.
Proof.
  apply (fvc_linear_mixture_clamped
           [Some 0.2; Some 0.86; Some 0.53; None; Some (-0.5)] 0.2 0.86).
  discriminate.
Defined.

Lemma calculateFVC_equal_thresholds (ndviImage : Band) (s v : Q) (i : nat) :
  v == s ->
  pixel_at (snd (calculateFVC ndviImage s v)) i
  = option_map (fun _ => 0) (pixel_at ndviImage i).
Proof.
  intros Heq. rewrite pixel_at_calculateFVC.
  destruct (pixel_at ndviImage i) as [x |]; [| reflexivity]. cbn [option_map].
  assert (Hden : Qeq_bool (v - s) 0 = true).
  { apply Qeq_bool_iff. rewrite Heq. apply Qplus_opp_r. }
  unfold divide. rewrite Hden. reflexivity.
Qed.

End FractionalCover.

(** ** Temporal aggregation *)

Section TemporalAggregate.

Import EE Spec.

Lemma valid_In (l : list pixel) (x : Q) : In x (valid l) <-> In (Some x) l.
Proof.
  induction l as [| [y |] l IH]; cbn.
  - reflexivity.
  - rewrite IH. split; (intros [H | H]; [left | right; exact H]).
    + rewrite H. reflexivity.
    + injection H as ->. reflexivity.
  - rewrite IH. split; [intros H; right; exact H |].
    intros [H | H]; [discriminate | exact H].
Qed.



(** The largest of a non-empty list is one of its elements and bounds
    them all. *)
Lemma Qmax_either (a b : Q) : Qmax a b = a \/ Qmax a b = b.
Proof.
  unfold Qmax, GenericMinMax.gmax. destruct (Qcompare a b); auto.
Qed.

Lemma fold_max_In (x : Q) (r : list Q) : In (fold_right Qmax x r) (x :: r).
Proof.
  induction r as [| y r IH]; [left; reflexivity |].
  cbn [fold_right].
  destruct (Qmax_either y (fold_right Qmax x r)) as [-> | ->].
  - right; left; reflexivity.
  - destruct IH as [H | H]; [left; exact H | right; right; exact H].
Qed.





Lemma extent_bound (stack : list Band) (b : Band) :
  In b stack -> (List.length b <= extent stack)%nat.
Proof.
  unfold extent. induction stack as [| c stack IH]; cbn; [intros [] |].
  intros [-> | H]; [apply Nat.le_max_l |].
  eapply Nat.le_trans; [apply IH; exact H | apply Nat.le_max_r].
Qed.

Lemma extent_perm (stack stack' : list Band) :
  Permutation stack stack' -> extent stack = extent stack'.
Proof.
  unfold extent.
  induction 1 as [| b l l' _ IH | b c l | l1 l2 l3 _ IH1 _ IH2]; cbn;
    [reflexivity | rewrite IH; reflexivity | lia | congruence].
Qed.

Lemma valid_outside (stack : list Band) (i : nat) :
  (extent stack <= i)%nat -> valid (pixel_stack stack i) = [].
Proof.
  intros Hi. unfold pixel_stack.
  assert (H : forall b, In b stack -> pixel_at b i = None).
  { intros b Hb. apply pixel_at_outside.
    eapply Nat.le_trans; [apply extent_bound; exact Hb | exact Hi]. }
  clear Hi. induction stack as [| b stack IH]; [reflexivity |].
  cbn. rewrite (H b) by (left; reflexivity).
  apply IH. intros c Hc. apply H. right. exact Hc.
Qed.

Lemma pixel_at_mean (stack : list Band) (i : nat) :
  pixel_at (mean stack) i = reduce_mean (pixel_stack stack i).
Proof.
  unfold mean, reduce. rewrite pixel_at_tabulate.
  destruct (Nat.ltb_spec i (extent stack)) as [_ | Hge]; [reflexivity |].
  unfold reduce_mean. rewrite valid_outside by exact Hge. reflexivity.
Qed.

Lemma pixel_at_max (stack : list Band) (i : nat) :
  pixel_at (max stack) i = reduce_max (pixel_stack stack i).
Proof.
  unfold max, reduce. rewrite pixel_at_tabulate.
  destruct (Nat.ltb_spec i (extent stack)) as [_ | Hge]; [reflexivity |].
  unfold reduce_max. rewrite valid_outside by exact Hge. reflexivity.
Qed.




End TemporalAggregate.

(** ** Script runs *)

Section Runs.

Import EE Js Script Spec.

Lemma bind_ret {A B} (a : A) (f : A -> Run B) : bind (ret a) f = f a.
Proof. unfold bind, ret. destruct (f a). reflexivity. Qed.

Lemma bind_throw {A B} (e : Thrown) (f : A -> Run B) :
  bind (throw e) f = throw e.
Proof. reflexivity. Qed.

Lemma outcome_bind_emit {B} (e : Event) (k : unit -> Run B) :
  outcome (bind (emit e) k) = outcome (k tt).
Proof. unfold bind, emit, outcome. destruct (k tt). reflexivity. Qed.

Lemma events_bind_emit {B} (e : Event) (k : unit -> Run B) :
  events (bind (emit e) k) = e :: events (k tt).
Proof. unfold bind, emit, events. destruct (k tt). reflexivity. Qed.

Lemma forEach_cons {A} (x : A) (r : list A) (callback : A -> Run unit) :
  forEach (x :: r) callback = bind (callback x) (fun _ => forEach r callback).
Proof. reflexivity. Qed.

(** A callback that returns normally does not stop the loop: the later
    elements run as they would alone, after its events. *)
Lemma forEach_continues {A} (x : A) (r : list A) (callback : A -> Run unit)
  (log : list Event) :
  callback x = (log, inr tt) ->
  events (forEach (x :: r) callback) = (log ++ events (forEach r callback))%list
  /\ outcome (forEach (x :: r) callback) = outcome (forEach r callback).
Proof.
  intros H. rewrite forEach_cons, H. unfold bind, events, outcome.
  destruct (forEach r callback). split; reflexivity.
Qed.

End Runs.

(** ** The FVC script *)

Section FvcRuns.

Import EE Js Script Spec FvcAnalysis.

Lemma size_value {A} (l : list A) :
  NdviAnalysis.size (Value l) = Value (List.length l).
Proof. reflexivity. Qed.

Lemma length_eqb_nonempty {A} (l : list A) :
  l <> [] -> (List.length l =? 0)%nat = false.
Proof. destruct l; [congruence | reflexivity]. Qed.

(** C4, where the code departs from the claim: in automatic threshold
    mode, a period with at least one scene ends the run with a
    ReferenceError on [ndviMax]; up to there only console lines were
    produced: no percentile is computed, no default is substituted and
    nothing is exported. *)
Theorem auto_threshold_period_throws :
  forall (catalog : Catalog) (percentile : Percentile) (params : Params)
         (settings : Resolved) (areaName asset : string) (period : Period)
         (collection : list Image),
    auto settings = true ->
    NdviAnalysis.collectionName (member SATELLITES (satelliteId params))
    = ret asset ->
    periodCollection catalog asset params period = Value collection ->
    collection <> [] ->
    outcome (processPeriod catalog percentile params settings areaName period)
    = inl (ReferenceError "ndviMax")
    /\ forall e,
         In e (events (processPeriod catalog percentile params settings
                         areaName period)) ->
         exists items, e = Print items.
Proof.
  intros catalog percentile params settings areaName asset period collection
         Hauto Hasset Hcoll Hne.
  unfold processPeriod, print, emit, bind.
  rewrite Hasset. unfold ret. rewrite Hcoll, size_value. cbn [getInfo ret].
  rewrite (length_eqb_nonempty collection Hne).
  unfold thresholdsFor. rewrite Hauto. cbn.
  split; [reflexivity |].
  intros e [<- | [<- | [<- | [<- | []]]]]; eexists; reflexivity.
Qed.

Lemma auto_threshold_period_throws_witness :
  outcome (processPeriod Samples.catalog Samples.no_percentile
             Samples.auto_params (defaults Samples.auto_params) "study_area"
             (mkPeriod "2021-01-01" "2021-12-31"))
  = inl (ReferenceError "ndviMax")
  /\ forall e,
       In e (events (processPeriod Samples.catalog Samples.no_percentile
                       Samples.auto_params (defaults Samples.auto_params)
                       "study_area" (mkPeriod "2021-01-01" "2021-12-31"))) ->
       exists items, e = Print items.
Proof.
  apply (auto_threshold_period_throws Samples.catalog Samples.no_percentile
           Samples.auto_params (defaults Samples.auto_params) "study_area"
           "LANDSAT/LC08/C02/T1_L2" (mkPeriod "2021-01-01" "2021-12-31")
           Samples.collection_2021).
  - reflexivity.
  - reflexivity.
  - reflexivity.
  - discriminate.
Defined.

(** The estimator itself, given an image, takes the 5th and the 95th
    percentile over the bounding box of the area. *)
Lemma thresholds_are_percentiles (percentile : Percentile) (b : Band)
  (geometry : Geometry) :
  calculateNDVIThresholds percentile (Value b) geometry
  = mkThresholds
      (Value (percentile 5%Z (region_pixels b (inside_bounds geometry))))
      (Value (percentile 95%Z (region_pixels b (inside_bounds geometry)))).
Proof. reflexivity. Qed.

(** The fallback test reads two client-side proxies, which are objects
    and therefore truthy: it never selects the defaults. *)
Lemma fallback_test_never_fires (thresholds : Thresholds) :
  negb (truthy_object (ndvi_soil thresholds))
  || negb (truthy_object (ndvi_veg thresholds)) = false.
Proof. reflexivity. Qed.

(** The whole run in automatic mode on the sample catalogue: the empty
    period is skipped, the next one throws. *)
Lemma auto_threshold_run_throws :
  outcome (exports_calculateFVC Samples.catalog Samples.no_percentile
             Samples.auto_params)
  = inl (ReferenceError "ndviMax").
Proof. reflexivity. Qed.

(** In fixed mode a period with scenes ends normally and requests the
    export of its FVC product, whatever the two thresholds are. *)
Lemma fixed_mode_period_exports (catalog : Catalog) (percentile : Percentile)
  (params : Params) (settings : Resolved) (areaName asset : string)
  (period : Period) (collection : list Image) :
  auto settings = false ->
  NdviAnalysis.collectionName (member SATELLITES (satelliteId params))
  = ret asset ->
  periodCollection catalog asset params period = Value collection ->
  collection <> [] ->
  outcome (processPeriod catalog percentile params settings areaName period)
  = inr tt
  /\ In (ExportImageToDrive
           (fvcImage (composite (type settings) (Value collection))
              (mkThresholds (Value (Some (soil settings)))
                            (Value (Some (veg settings)))))
           (areaName ++ "_FVC_" ++ toUpperCase (type settings) ++ "_"
            ++ start period ++ "_" ++ end_ period)
           (outputPath params))
        (events (processPeriod catalog percentile params settings areaName
                   period)).
Proof.
  intros Hauto Hasset Hcoll Hne.
  unfold processPeriod, print, emit, bind.
  rewrite Hasset. unfold ret. rewrite Hcoll, size_value. cbn [getInfo ret].
  rewrite (length_eqb_nonempty collection Hne).
  unfold thresholdsFor. rewrite Hauto. unfold ret, outcome, events. cbn.
  split; [reflexivity |]. tauto.
Qed.

(** C3 (as amended): with ndvi_veg = ndvi_soil in fixed mode, a period
    with scenes raises nothing: it ends normally and its FVC product is
    exported; calculateFVC holds 0 at every location with an NDVI value
    (the zero denominator makes the quotient 0) and nothing elsewhere. *)
Theorem fvc_equal_thresholds_all_zero :
  forall (catalog : Catalog) (percentile : Percentile) (params : Params)
         (settings : Resolved) (areaName asset : string) (period : Period)
         (collection : list Image),
    auto settings = false ->
    veg settings == soil settings ->
    NdviAnalysis.collectionName (member SATELLITES (satelliteId params))
    = ret asset ->
    periodCollection catalog asset params period = Value collection ->
    collection <> [] ->
    outcome (processPeriod catalog percentile params settings areaName period)
    = inr tt
    /\ In (ExportImageToDrive
             (fvcImage (composite (type settings) (Value collection))
                (mkThresholds (Value (Some (soil settings)))
                              (Value (Some (veg settings)))))
             (areaName ++ "_FVC_" ++ toUpperCase (type settings) ++ "_"
              ++ start period ++ "_" ++ end_ period)
             (outputPath params))
          (events (processPeriod catalog percentile params settings areaName
                     period))
    /\ forall ndviImage i,
         pixel_at (snd (calculateFVC ndviImage (soil settings) (veg settings)))
                  i
         = option_map (fun _ => 0) (pixel_at ndviImage i).
Proof.
  intros catalog percentile params settings areaName asset period collection
         Hauto Heq Hasset Hcoll Hne.
  destruct (fixed_mode_period_exports catalog percentile params settings
              areaName asset period collection Hauto Hasset Hcoll Hne)
    as [Hout Hexport].
  split; [exact Hout |]. split; [exact Hexport |].
  intros ndviImage i. apply calculateFVC_equal_thresholds. exact Heq.
Qed.

Lemma fvc_equal_thresholds_all_zero_witness :
  outcome (processPeriod Samples.catalog Samples.no_percentile
             Samples.degenerate_params (defaults Samples.degenerate_params)
             "study_area" (mkPeriod "2021-01-01" "2021-12-31"))
  = inr tt
  /\ In (ExportImageToDrive
           (fvcImage (composite "max" (Value Samples.collection_2021))
              (mkThresholds (Value (Some 0.5)) (Value (Some 0.5))))
           "study_area_FVC_MAX_2021-01-01_2021-12-31" "FVC_Results")
        (events (processPeriod Samples.catalog Samples.no_percentile
                   Samples.degenerate_params
                   (defaults Samples.degenerate_params) "study_area"
                   (mkPeriod "2021-01-01" "2021-12-31")))
  /\ forall ndviImage i,
       pixel_at (snd (calculateFVC ndviImage 0.5 0.5)) i
       = option_map (fun _ => 0) (pixel_at ndviImage i).
Proof.
  apply (fvc_equal_thresholds_all_zero Samples.catalog Samples.no_percentile
           Samples.degenerate_params (defaults Samples.degenerate_params)
           "study_area" "LANDSAT/LC08/C02/T1_L2"
           (mkPeriod "2021-01-01" "2021-12-31") Samples.collection_2021).
  - reflexivity.
  - reflexivity.
  - reflexivity.
  - reflexivity.
  - discriminate.
Defined.

(** C3, the claim as stated fails: with ndvi_soil = ndvi_veg = 0.5 the
    run raises nothing and exports the FVC raster of the 2021 period, 0 at
    its only valid location. *)
Lemma equal_thresholds_run_raises_nothing :
  outcome (exports_calculateFVC Samples.catalog Samples.no_percentile
             Samples.degenerate_params)
  = inr tt
  /\ In (ExportImageToDrive (Value [Some 0; None; None; None; None])
           "study_area_FVC_MAX_2021-01-01_2021-12-31" "FVC_Results")
        (events (exports_calculateFVC Samples.catalog Samples.no_percentile
                   Samples.degenerate_params)).
Proof.
  split; [reflexivity |]. vm_compute. tauto.
Qed.

Lemma or_number_kept (x fallback : Q) :
  ~ x == 0 -> or_number (Some x) fallback = x.
Proof.
  intros H. unfold or_number.
  destruct (Qeq_bool x 0) eqn:E; [| reflexivity].
  apply Qeq_bool_iff in E. contradiction.
Qed.

Lemma or_number_unspecified (fallback : Q) : or_number None fallback = fallback.
Proof. reflexivity. Qed.

Lemma or_number_zero (x fallback : Q) :
  x == 0 -> or_number (Some x) fallback = fallback.
Proof.
  intros H. unfold or_number. apply Qeq_bool_iff in H. rewrite H. reflexivity.
Qed.

(** In fixed mode the thresholds of a period are the resolved
    parameters. *)
Lemma fixed_thresholds (percentile : Percentile) (params : Params)
  (geometry : Geometry) (ndviImage : computed Band) :
  or_false (autoThreshold params) = false ->
  thresholdsFor percentile (auto (defaults params)) (soil (defaults params))
    (veg (defaults params)) geometry ndviImage
  = ret (mkThresholds
           (Value (Some (or_number (param_ndvi_soil params) 0.2)))
           (Value (Some (or_number (param_ndvi_veg params) 0.86)))).
Proof.
  intros H. unfold thresholdsFor, defaults. cbn [auto soil veg].
  rewrite H. reflexivity.
Qed.

(** Supplied non-zero thresholds are used as they are; unspecified ones
    become 0.2 and 0.86. *)
Lemma fixed_thresholds_supplied (percentile : Percentile) (params : Params)
  (geometry : Geometry) (ndviImage : computed Band) (s v : Q) :
  or_false (autoThreshold params) = false ->
  param_ndvi_soil params = Some s -> ~ s == 0 ->
  param_ndvi_veg params = Some v -> ~ v == 0 ->
  thresholdsFor percentile (auto (defaults params)) (soil (defaults params))
    (veg (defaults params)) geometry ndviImage
  = ret (mkThresholds (Value (Some s)) (Value (Some v))).
Proof.
  intros H Hs Hs0 Hv Hv0. rewrite fixed_thresholds by exact H.
  rewrite Hs, Hv, !or_number_kept by assumption. reflexivity.
Qed.

(** C5, where the code departs from the claim: in fixed mode a
    caller-supplied soil threshold equal to 0 is not returned unchanged;
    the default 0.2 takes its place. *)
Theorem fixed_threshold_zero_soil_replaced :
  forall (percentile : Percentile) (params : Params) (geometry : Geometry)
         (ndviImage : computed Band) (s : Q),
    or_false (autoThreshold params) = false ->
    param_ndvi_soil params = Some s ->
    s == 0 ->
    thresholdsFor percentile (auto (defaults params)) (soil (defaults params))
      (veg (defaults params)) geometry ndviImage
    = ret (mkThresholds
             (Value (Some 0.2))
             (Value (Some (or_number (param_ndvi_veg params) 0.86)))).
Proof.
  intros percentile params geometry ndviImage s H Hs Hs0.
  rewrite fixed_thresholds by exact H.
  rewrite Hs, or_number_zero by exact Hs0. reflexivity.
Qed.

Lemma fixed_threshold_zero_soil_replaced_witness :
  thresholdsFor Samples.no_percentile
    (auto (defaults Samples.zero_soil_params))
    (soil (defaults Samples.zero_soil_params))
    (veg (defaults Samples.zero_soil_params)) Samples.aoi (Value [])
  = ret (mkThresholds (Value (Some 0.2)) (Value (Some 0.86))).
Proof.
  apply (fixed_threshold_zero_soil_replaced Samples.no_percentile
           Samples.zero_soil_params Samples.aoi (Value []) 0);
    reflexivity.
Defined.

(** The usage example of the script on the sample catalogue: the 2020
    period has no scene and is skipped with a warning, the 2021 period
    that follows it is exported, and the run ends normally. *)
Lemma fvc_batch_isolates_empty_period :
  outcome (exports_calculateFVC Samples.catalog Samples.no_percentile
             Samples.fixed_params)
  = inr tt
  /\ In (Print [Str "警告：在时间段 2020-01-01 至 2020-12-31 内未找到影像"])
        (events (exports_calculateFVC Samples.catalog Samples.no_percentile
                   Samples.fixed_params))
  /\ In (ExportImageToDrive
           (fvcImage (composite "max" (Value Samples.collection_2021))
              (mkThresholds (Value (Some 0.2)) (Value (Some 0.86))))
           "study_area_FVC_MAX_2021-01-01_2021-12-31" "FVC_Results")
        (events (exports_calculateFVC Samples.catalog Samples.no_percentile
                   Samples.fixed_params)).
Proof.
  split; [reflexivity |]. split; vm_compute; tauto.
Qed.

(** A period without scenes is skipped with a warning: three console
    lines, no export, no layer, no exception. *)
Lemma fvc_empty_period_skipped (catalog : Catalog) (percentile : Percentile)
  (params : Params) (settings : Resolved) (areaName asset : string)
  (period : Period) :
  NdviAnalysis.collectionName (member SATELLITES (satelliteId params))
  = ret asset ->
  periodCollection catalog asset params period = Value [] ->
  processPeriod catalog percentile params settings areaName period
  = ([ Print [Str "处理时间段:"; Str (start period ++ " 至 " ++ end_ period)];
       Print [Str "发现的影像数量:"; Count (Value O)];
       Print [Str ("警告：在时间段 " ++ start period ++ " 至 " ++ end_ period
                   ++ " 内未找到影像")] ],
     inr tt).
Proof.
  intros Hasset Hcoll. unfold processPeriod, print, emit, bind.
  rewrite Hasset. unfold ret. rewrite Hcoll. reflexivity.
Qed.

(** After a skipped period the loop goes on with the remaining periods. *)
Lemma fvc_batch_continues_after_empty_period (catalog : Catalog)
  (percentile : Percentile) (params : Params) (settings : Resolved)
  (areaName asset : string) (period : Period) (rest : list Period) :
  NdviAnalysis.collectionName (member SATELLITES (satelliteId params))
  = ret asset ->
  periodCollection catalog asset params period = Value [] ->
  outcome (forEach (period :: rest)
             (processPeriod catalog percentile params settings areaName))
  = outcome (forEach rest
               (processPeriod catalog percentile params settings areaName))
  /\ exists skipped,
       events (forEach (period :: rest)
                 (processPeriod catalog percentile params settings areaName))
       = (skipped
          ++ events (forEach rest
                       (processPeriod catalog percentile params settings
                          areaName)))%list
       /\ forall e, In e skipped -> exists items, e = Print items.
Proof.
  intros Hasset Hcoll.
  destruct (forEach_continues period rest
              (processPeriod catalog percentile params settings areaName) _
              (fvc_empty_period_skipped catalog percentile params settings
                 areaName asset period Hasset Hcoll)) as [Hev Hout].
  split; [exact Hout |].
  eexists. split; [exact Hev |].
  intros e [<- | [<- | [<- | []]]]; eexists; reflexivity.
Qed.

End FvcRuns.

(** ** The batch NDVI script *)

Section NdviBatchRuns.

Import EE Js Script Spec NdviBatch.

(** C7, where the batch NDVI script departs from the claim: a period in
    which no enabled satellite has a scene is not skipped.  Nothing is
    printed, no warning either; an export of the empty composite and a map
    layer are requested, and the call returns normally. *)
Theorem ndvi_batch_empty_period_not_skipped :
  forall (catalog : Catalog) (table : Geometry) (startDate endDate : string)
         (geometry : Geometry) (outputPath : string),
    (forall satellite info,
       In satellite enabledSatellites ->
       lookup satellite SATELLITES = Some info ->
       catalog (NdviAnalysis.name info) startDate endDate geometry = Value []) ->
    exists filename displayName result,
      processNDVI catalog table startDate endDate geometry outputPath
      = ([ ExportImageToDrive (Value []) filename outputPath;
           MapAddLayer (Pixels (Value [])) displayName ],
         inr result).
Proof.
  intros catalog table startDate endDate geometry outputPath Hempty.
  pose proof (Hempty "L9" _ (or_introl eq_refl) eq_refl) as H9.
  pose proof (Hempty "L8" _ (or_intror (or_introl eq_refl)) eq_refl) as H8.
  pose proof (Hempty "L5" _ (or_intror (or_intror (or_introl eq_refl)))
                eq_refl) as H5.
  pose proof (Hempty "L4" _
                (or_intror (or_intror (or_intror (or_introl eq_refl))))
                eq_refl) as H4.
  cbn in H9, H8, H5, H4.
  unfold processNDVI. cbn. rewrite H9, H8, H5, H4. cbn.
  eexists _, _, _. reflexivity.
Qed.

Lemma ndvi_batch_empty_period_not_skipped_witness :
  exists filename displayName result,
    processNDVI Samples.catalog Samples.aoi "2020-01-01" "2020-12-31"
      Samples.aoi "NDVI_Results"
    = ([ ExportImageToDrive (Value []) filename "NDVI_Results";
         MapAddLayer (Pixels (Value [])) displayName ],
       inr result).
Proof.
  apply (ndvi_batch_empty_period_not_skipped Samples.catalog Samples.aoi
           "2020-01-01" "2020-12-31" Samples.aoi "NDVI_Results").
  intros satellite info Hin Hlookup. cbn in Hin.
  destruct Hin as [<- | [<- | [<- | [<- | []]]]];
    injection Hlookup as <-; reflexivity.
Defined.

(** The script on the sample catalogue: the 2020 period has no scene, and
    its empty composite is exported under the period's file name; the
    run ends normally. *)
Lemma ndvi_batch_main_exports_empty_period :
  outcome (main Samples.catalog Samples.aoi) = inr tt
  /\ In (ExportImageToDrive (Value []) "study_area_NDVI_mean_20200101_20201231"
           "NDVI_Results")
        (events (main Samples.catalog Samples.aoi)).
Proof.
  split; [reflexivity |]. vm_compute. tauto.
Qed.

End NdviBatchRuns.

(** ** Satellite identifiers *)

Section Satellites.

Import EE Js Script Spec NdviAnalysis.

(** The five supported identifiers pass the check and get one of the two
    mappings: the modern one for L8 and L9, the legacy one for L4, L5
    and L7. *)
Lemma band_profile_supported (satellite : string) :
  In satellite ["L4"; "L5"; "L7"; "L8"; "L9"] ->
  truthy (member SATELLITES satellite) = true
  /\ (getBandNames satellite = modern /\ In satellite ["L8"; "L9"]
      \/ getBandNames satellite = legacy /\ In satellite ["L4"; "L5"; "L7"]).
Proof.
  intros [<- | [<- | [<- | [<- | [<- | []]]]]]; (split; [reflexivity |]);
    cbn; tauto.
Qed.

(** getBandNames itself never fails: any other identifier gets the legacy
    mapping. *)
Lemma band_profile_total (satellite : string) :
  getBandNames satellite = modern \/ getBandNames satellite = legacy.
Proof.
  unfold getBandNames.
  destruct (String.eqb satellite "L8" || String.eqb satellite "L9"); auto.
Qed.

(** An identifier that is neither a key of SATELLITES nor the name of an
    inherited property is rejected first thing: nothing is printed,
    exported or read from the catalogue. *)
Lemma unsupported_rejected_before_imagery (catalog : Catalog)
  (table : Geometry) (params : Params) :
  lookup (satelliteId params) SATELLITES = None ->
  mem (satelliteId params) Object_prototype = false ->
  calculateNDVIStats catalog table params
  = ([], inl (Error ("不支持的卫星类型: " ++ satelliteId params))).
Proof.
  intros Hown Hinherited. unfold calculateNDVIStats, member.
  rewrite Hown, Hinherited. reflexivity.
Qed.

Lemma inherited_passes_check (key : string) :
  In key Object_prototype -> truthy (member SATELLITES key) = true.
Proof.
  intros Hin. unfold member.
  destruct (lookup key SATELLITES); [reflexivity |].
  assert (H : mem key Object_prototype = true).
  { apply existsb_exists. exists key. split; [exact Hin |].
    apply String.eqb_refl. }
  rewrite H. reflexivity.
Qed.

(** C9, where the code departs from the claim: the identifier
    [constructor] is outside the supported set, yet the check lets it
    through; the collection asked for is [Object], and the run ends with
    the failure of the catalogue, not with the unsupported-satellite
    error. *)
Theorem inherited_identifier_not_rejected :
  forall (catalog : Catalog) (table : Geometry) (params : Params)
         (message : string),
    satelliteId params = "constructor" ->
    statType params = "mean" ->
    catalog "Object" (startDate params) (endDate params) (geometry params)
    = Failure message ->
    calculateNDVIStats catalog table params
    = ([], inl (EEException message)).
Proof.
  intros catalog table params message Hid Htype Hcatalog.
  unfold calculateNDVIStats. rewrite Hid, Htype. cbn.
  rewrite Hcatalog. reflexivity.
Qed.

Lemma inherited_identifier_not_rejected_witness :
  calculateNDVIStats Samples.catalog Samples.aoi Samples.constructor_params
  = ([], inl (EEException
                "ImageCollection.load: ImageCollection asset 'Object' not found.")).
Proof.
  apply (inherited_identifier_not_rejected Samples.catalog Samples.aoi
           Samples.constructor_params); reflexivity.
Defined.

End Satellites.

(** ** Masking, composed *)

Section MaskComposed.

Import EE Index Spec Observe.

Lemma tabulate_length (n : nat) (f : nat -> pixel) :
  List.length (tabulate n f) = n.
Proof. unfold tabulate. rewrite length_map, length_seq. reflexivity. Qed.

(** Two bands of the same length with the same pixels are the same. *)
Lemma band_ext (a b : Band) :
  List.length a = List.length b ->
  (forall i, pixel_at a i = pixel_at b i) ->
  a = b.
Proof.
  intros Hlen Hpix. apply (nth_ext a b None None Hlen).
  intros i _. apply Hpix.
Qed.

Lemma pixel_at_validity (qa : Band) (i : nat) :
  pixel_at (band_map not (cloudMask qa)) i = option_map validity (pixel_at qa i).
Proof.
  unfold cloudMask. autorewrite with pixels.
  destruct (pixel_at qa i); reflexivity.
Qed.

Lemma band_updateMask_again (b qa : Band) :
  band_updateMask
    (band_updateMask b (band_map not (cloudMask qa)))
    (band_map not
       (cloudMask (band_updateMask qa (band_map not (cloudMask qa)))))
  = band_updateMask b (band_map not (cloudMask qa)).
Proof.
  apply band_ext.
  - unfold band_updateMask. rewrite !tabulate_length. reflexivity.
  - intros i. rewrite !pixel_at_band_updateMask, !pixel_at_validity.
    rewrite pixel_at_band_updateMask, pixel_at_validity.
    destruct (pixel_at qa i) as [q |], (pixel_at b i) as [x |]; cbn;
      try reflexivity;
      destruct (nonzero (validity q)) eqn:E; cbn; rewrite ?E; reflexivity.
Qed.

(** X1: masking a scene a second time changes nothing; a scene without
    QA band fails both times with the same failure. *)
Theorem maskClouds_idempotent :
  forall image : Image,
    cbind (NdviAnalysis.maskClouds image) NdviAnalysis.maskClouds
    = NdviAnalysis.maskClouds image.
Proof.
  intros image. unfold NdviAnalysis.maskClouds at 1 3, select.
  destruct (lookup "QA_PIXEL" (bands image)) as [qa |] eqn:Hqa;
    [| reflexivity].
  cbn [cbind]. unfold NdviAnalysis.maskClouds, select, updateMask.
  cbn [bands properties].
  rewrite (lookup_map_band
             (fun x => band_updateMask x (band_map not (cloudMask qa)))),
    Hqa.
  cbn [option_map cbind]. f_equal. f_equal.
  rewrite map_map. apply map_ext. intros [name b]. cbn [fst snd].
  rewrite band_updateMask_again. reflexivity.
Qed.

Lemma lookup_map_band_inv (f : Band -> Band) (l : list Raster) (k : string)
  (b' : Band) :
  lookup k (map (fun r => (fst r, f (snd r))) l) = Some b' ->
  exists b, lookup k l = Some b /\ b' = f b.
Proof.
  rewrite lookup_map_band. destruct (lookup k l) as [b |]; [| discriminate].
  intros H. injection H as <-. exists b. split; reflexivity.
Qed.

(** X2: masking only takes values away.  Every band of the masked scene
    comes from the band of the same name; at each location it holds
    nothing or the pixel it held before, and it holds nothing wherever
    the QA band has no value. *)
Theorem maskClouds_only_removes :
  forall (image masked : Image),
    NdviAnalysis.maskClouds image = Value masked ->
    exists qa,
      select image "QA_PIXEL" = Value qa
      /\ forall name b',
           lookup name (bands masked) = Some b' ->
           exists b,
             lookup name (bands image) = Some b
             /\ forall i,
                  (pixel_at b' i = None \/ pixel_at b' i = pixel_at b i)
                  /\ (pixel_at qa i = None -> pixel_at b' i = None).
Proof.
  intros image masked. unfold NdviAnalysis.maskClouds.
  destruct (select image "QA_PIXEL") as [qa | m]; [| discriminate].
  cbn [cbind]. intros H. injection H as <-. exists qa. split; [reflexivity |].
  intros name b' Hb'. unfold updateMask in Hb'. cbn [bands] in Hb'.
  destruct (lookup_map_band_inv
              (fun x => band_updateMask x (band_map not (cloudMask qa)))
              _ _ _ Hb') as [b [Hb ->]].
  exists b. split; [exact Hb |]. intros i.
  rewrite pixel_at_band_updateMask, pixel_at_validity.
  destruct (pixel_at b i) as [x |], (pixel_at qa i) as [q |]; cbn;
    try destruct (nonzero (validity q));
    (split; [auto | first [intros H; discriminate H | reflexivity]]).
Qed.

Lemma maskClouds_only_removes_witness :
  exists qa,
    select Samples.scene_L8 "QA_PIXEL" = Value qa
    /\ forall name b',
         lookup name
           (bands (updateMask Samples.scene_L8
                     (band_map not
                        (cloudMask [Some 1; Some 8; Some 16; Some 24; None]))))
         = Some b' ->
         exists b,
           lookup name (bands Samples.scene_L8) = Some b
           /\ forall i,
                (pixel_at b' i = None \/ pixel_at b' i = pixel_at b i)
                /\ (pixel_at qa i = None -> pixel_at b' i = None).
Proof.
  apply (maskClouds_only_removes Samples.scene_L8). reflexivity.
Defined.

End MaskComposed.

(** ** From masked scenes to composites *)

Section Composites.

Import EE Index Spec Observe.

Lemma index_of_pixels (A B index : Band) :
  index_of A B index
  <-> forall i, index_pixel (pixel_at A i) (pixel_at B i) (pixel_at index i).
Proof. reflexivity. Qed.

Lemma lookup_absent {A} (k : string) (l : list (string * A)) :
  ~ In k (map fst l) -> lookup k l = None.
Proof.
  induction l as [| [k' v] l IH]; [reflexivity |].
  cbn. intros Hnot. destruct (String.eqb_spec k k') as [-> | _].
  - exfalso. apply Hnot. left. reflexivity.
  - apply IH. intros H. apply Hnot. right. exact H.
Qed.

Lemma lookup_appended (k : string) (l : list Raster) (v : Band) :
  lookup k l = None -> lookup k (l ++ [(k, v)])%list = Some v.
Proof.
  induction l as [| [k' w] l IH]; cbn.
  - rewrite String.eqb_refl. reflexivity.
  - destruct (String.eqb k k'); [discriminate | exact IH].
Qed.

(** The NDVI band of a scene that had none before. *)
Lemma select_added_band (image : Image) (name : string) (index : Band) :
  ~ In name (bandNames image) ->
  select (addBands image (name, index)) name = Value index.
Proof.
  intros Hnew. unfold select, addBands. cbn [bands fst snd].
  rewrite (fresh_unused _ _ Hnew).
  rewrite (lookup_appended name (bands image) index (lookup_absent _ _ Hnew)).
  reflexivity.
Qed.

Lemma select_updateMask (image : Image) (mask : Band) (name : string)
  (b : Band) :
  select image name = Value b ->
  select (updateMask image mask) name = Value (band_updateMask b mask).
Proof.
  unfold select, updateMask. cbn [bands].
  rewrite (lookup_map_band (fun x => band_updateMask x mask)).
  destruct (lookup name (bands image)); [| discriminate].
  intros H. injection H as ->. reflexivity.
Qed.

(** X3: mask, then index.  For a scene with a QA band, the two
    reflectance bands and no NDVI band yet, the NDVI band of the processed
    scene holds nothing wherever bit 3 or bit 4 of the QA value is set
    or the QA band has no value; at every other location it is the index
    of the two original pixels. *)
Theorem masked_pixels_have_no_index :
  forall (image : Image) (satellite : string) (qa A B : Band),
    select image "QA_PIXEL" = Value qa ->
    select image (NdviAnalysis.nir (NdviAnalysis.getBandNames satellite))
    = Value A ->
    select image (NdviAnalysis.red (NdviAnalysis.getBandNames satellite))
    = Value B ->
    ~ In "NDVI" (bandNames image) ->
    exists ndvi,
      cbind (cbind (NdviAnalysis.maskClouds image)
                   (fun masked => NdviAnalysis.computeNDVI masked satellite))
            (fun processed => select processed "NDVI")
      = Value ndvi
      /\ forall i,
           match pixel_at qa i with
           | None => pixel_at ndvi i = None
           | Some v =>
               (forall q, v = inject_Z q -> flagged q = true ->
                          pixel_at ndvi i = None)
               /\ (forall q, v = inject_Z q -> flagged q = false ->
                             index_pixel (pixel_at A i) (pixel_at B i)
                                         (pixel_at ndvi i))
           end.
Proof.
  intros image satellite qa A B Hqa HA HB Hnew.
  unfold NdviAnalysis.maskClouds. rewrite Hqa. cbn [cbind].
  set (valid := band_map not (cloudMask qa)).
  unfold NdviAnalysis.computeNDVI.
  rewrite (select_updateMask _ _ _ _ HA), (select_updateMask _ _ _ _ HB).
  cbn [cbind]. unfold limit, rename. cbn [fst snd].
  rewrite select_added_band
    by (rewrite bandNames_updateMask; exact Hnew).
  eexists. split; [reflexivity |].
  intros i.
  pose proof (index_band (band_updateMask A valid) (band_updateMask B valid) i)
    as Hidx.
  rewrite !pixel_at_band_updateMask in Hidx. unfold valid in Hidx.
  destruct (pixel_at qa i) as [v |] eqn:Ev.
  - split; intros q -> Hflag;
      rewrite (pixel_at_valid_mask qa i q Ev), Hflag in Hidx.
    + destruct (pixel_at A i), (pixel_at B i); exact Hidx.
    + destruct (pixel_at A i), (pixel_at B i); exact Hidx.
  - rewrite pixel_at_validity, Ev in Hidx.
    destruct (pixel_at A i), (pixel_at B i); exact Hidx.
Qed.

Lemma masked_pixels_have_no_index_witness :
  exists ndvi,
    cbind (cbind (NdviAnalysis.maskClouds Samples.scene_L8)
                 (fun masked => NdviAnalysis.computeNDVI masked "L8"))
          (fun processed => select processed "NDVI")
    = Value ndvi
    /\ forall i,
         match pixel_at [Some 1; Some 8; Some 16; Some 24; None] i with
         | None => pixel_at ndvi i = None
         | Some v =>
             (forall q, v = inject_Z q -> flagged q = true ->
                        pixel_at ndvi i = None)
             /\ (forall q, v = inject_Z q -> flagged q = false ->
                           index_pixel
                             (pixel_at [Some 20000; Some 20000; Some 20000;
                                        Some 20000; Some 20000] i)
                             (pixel_at [Some 10000; Some 10000; Some 10000;
                                        Some 10000; Some 10000] i)
                             (pixel_at ndvi i))
         end.
Proof.
  apply (masked_pixels_have_no_index Samples.scene_L8 "L8"
           [Some 1; Some 8; Some 16; Some 24; None]).
  - reflexivity.
  - reflexivity.
  - reflexivity.
  - cbn. intros [H | [H | [H | [H | [H | []]]]]]; discriminate.
Defined.

(** X4: where both digital numbers are integers of at least 7273 (both
    reflectances are then positive), the clamp changes nothing: the index
    pixel is the plain quotient (A - B) / (A + B). *)
Theorem clamp_inactive_for_positive_reflectance :
  forall (A B : Band) (i : nat) (a b : Z),
    pixel_at A i = Some (inject_Z a) ->
    pixel_at B i = Some (inject_Z b) ->
    (7273 <= a)%Z ->
    (7273 <= b)%Z ->
    pixel_at (limit_band (expression (reflectance A) (reflectance B)) (-1) 1) i
    = Some (normalized_difference (rescale (inject_Z a))
                                  (rescale (inject_Z b))).
Proof.
  intros A B i a b HA HB Ha Hb.
  rewrite pixel_at_limit_band. unfold expression, reflectance.
  autorewrite with pixels. rewrite HA, HB. cbn [option_map lift2].
  change (Some (limited (-1) 1
                  (divide (rescale (inject_Z a) - rescale (inject_Z b))
                          (rescale (inject_Z a) + rescale (inject_Z b))))
          = Some (normalized_difference (rescale (inject_Z a))
                                        (rescale (inject_Z b)))).
  assert (Hx : 0 < rescale (inject_Z a)).
  { unfold rescale, Qlt. cbn. lia. }
  assert (Hy : 0 < rescale (inject_Z b)).
  { unfold rescale, Qlt. cbn. lia. }
  set (x := rescale (inject_Z a)) in *. set (y := rescale (inject_Z b)) in *.
  assert (Hsum : 0 < x + y) by lra.
  unfold divide.
  destruct (Qeq_bool (x + y) 0) eqn:E.
  { apply Qeq_bool_iff in E. lra. }
  fold (normalized_difference x y).
  assert (Hhi : normalized_difference x y <= 1).
  { unfold normalized_difference. apply Qle_shift_div_r; [exact Hsum | lra]. }
  assert (Hlo : -1 <= normalized_difference x y).
  { unfold normalized_difference. apply Qle_shift_div_l; [exact Hsum | lra]. }
  unfold limited. rewrite nonzero_gt, nonzero_lt.
  apply Qle_bool_iff in Hhi. apply Qle_bool_iff in Hlo.
  rewrite Hhi, Hlo. reflexivity.
Qed.

Lemma clamp_inactive_for_positive_reflectance_witness :
  pixel_at (limit_band
              (expression (reflectance [Some 20000]) (reflectance [Some 10000]))
              (-1) 1) 0
  = Some (normalized_difference (rescale (inject_Z 20000))
                                (rescale (inject_Z 10000))).
Proof.
  apply (clamp_inactive_for_positive_reflectance [Some 20000] [Some 10000]
           0 20000 10000); first [reflexivity | lia].
Defined.

Lemma Qsum_bounds (lo hi : Q) (v : list Q) :
  (forall x, In x v -> lo <= x <= hi) ->
  lo * inject_Z (Z.of_nat (List.length v)) <= Qsum v
  /\ Qsum v <= hi * inject_Z (Z.of_nat (List.length v)).
Proof.
  induction v as [| x v IH]; intros H.
  - change (lo * 0 <= 0 /\ 0 <= hi * 0). split; lra.
  - assert (Hx : lo <= x <= hi) by (apply H; left; reflexivity).
    destruct IH as [IHlo IHhi]; [intros z Hz; apply H; right; exact Hz |].
    cbn [Qsum fold_right List.length].
    rewrite Nat2Z.inj_succ, <- Z.add_1_r, inject_Z_plus.
    fold (Qsum v). change (inject_Z 1) with 1.
    rewrite !Qmult_plus_distr_r, !Qmult_1_r.
    set (u := lo * inject_Z (Z.of_nat (List.length v))) in *.
    set (w := hi * inject_Z (Z.of_nat (List.length v))) in *.
    split; lra.
Qed.

Lemma pixel_stack_In (stack : list Band) (i : nat) (p : pixel) :
  In p (pixel_stack stack i) -> exists b, In b stack /\ pixel_at b i = p.
Proof.
  unfold pixel_stack. intros H. apply in_map_iff in H.
  destruct H as [b [Hb Hin]]. exists b. split; assumption.
Qed.

(** The composite of bands that all lie in [lo, hi] lies in
    [lo, hi], for the mean and for the max. *)
Theorem composite_within_range :
  forall (stack : list Band) (lo hi : Q),
    (forall b, In b stack -> within lo hi b) ->
    within lo hi (mean stack) /\ within lo hi (max stack).
Proof.
  intros stack lo hi Hall.
  assert (Hvalid : forall i x, In x (valid (pixel_stack stack i)) ->
                               lo <= x <= hi).
  { intros i x Hx. apply valid_In in Hx. apply pixel_stack_In in Hx.
    destruct Hx as [b [Hb Hpix]]. exact (Hall b Hb i x Hpix). }
  split; intros i x Hx.
  - rewrite pixel_at_mean in Hx. unfold reduce_mean in Hx.
    destruct (valid (pixel_stack stack i)) as [| y r] eqn:E; [discriminate |].
    injection Hx as <-.
    destruct (Qsum_bounds lo hi (y :: r)) as [Hlo Hhi].
    { intros z Hz. apply (Hvalid i). rewrite E. exact Hz. }
    assert (Hn : 0 < inject_Z (Z.of_nat (List.length (y :: r)))).
    { unfold Qlt. cbn. lia. }
    split.
    + apply Qle_shift_div_l; assumption.
    + apply Qle_shift_div_r; assumption.
  - rewrite pixel_at_max in Hx. unfold reduce_max in Hx.
    destruct (valid (pixel_stack stack i)) as [| y r] eqn:E; [discriminate |].
    injection Hx as <-. apply (Hvalid i). rewrite E. apply fold_max_In.
Qed.

Lemma composite_within_range_witness :
  within (-1) 1 (mean [[Some 0.1]; [Some 0.5]; [None]; [Some 0.3]])
  /\ within (-1) 1 (max [[Some 0.1]; [Some 0.5]; [None]; [Some 0.3]]).
Proof.
  apply (composite_within_range
           [[Some 0.1]; [Some 0.5]; [None]; [Some 0.3]] (-1) 1).
  intros b [<- | [<- | [<- | [<- | []]]]] [| i] x H; cbn in H;
    try discriminate; try (destruct i; discriminate);
    injection H as <-; split; discriminate.
Defined.

Lemma cmap_Forall2 {A B} (f : A -> computed B) (l : list A) (r : list B) :
  cmap f l = Value r -> Forall2 (fun x y => f x = Value y) l r.
Proof.
  revert r. induction l as [| x l IH]; intros r H.
  - injection H as <-. constructor.
  - cbn in H. destruct (f x) as [y | m] eqn:Ex; [| discriminate]. cbn in H.
    destruct (cmap f l) as [ys | m]; [| discriminate]. cbn in H.
    injection H as <-. constructor; [exact Ex | apply IH; reflexivity].
Qed.

Lemma maskClouds_bandNames (image masked : Image) :
  NdviAnalysis.maskClouds image = Value masked ->
  bandNames masked = bandNames image.
Proof.
  unfold NdviAnalysis.maskClouds.
  destruct (select image "QA_PIXEL"); [| discriminate].
  cbn [cbind]. intros H. injection H as <-. apply bandNames_updateMask.
Qed.

Lemma computeNDVI_band_within (image result : Image) (satellite : string)
  (b : Band) :
  NdviAnalysis.computeNDVI image satellite = Value result ->
  ~ In "NDVI" (bandNames image) ->
  select result "NDVI" = Value b ->
  within (-1) 1 b.
Proof.
  unfold NdviAnalysis.computeNDVI.
  destruct (select image _) as [A | m]; [| discriminate]. cbn [cbind].
  destruct (select image _) as [B | m]; [| discriminate]. cbn [cbind].
  intros H Hnew Hb. injection H as <-.
  unfold limit, rename in Hb. cbn [fst snd] in Hb.
  rewrite (select_added_band _ _ _ Hnew) in Hb. injection Hb as <-.
  intros i x Hx. rewrite pixel_at_limit_band in Hx.
  destruct (pixel_at _ i) as [raw |]; [| discriminate].
  injection Hx as <-. apply limited_range. discriminate.
Qed.

(** The NDVI band of an indexed scene that had none before is there. *)
Lemma computeNDVI_has_band (image result : Image) (satellite : string) :
  NdviAnalysis.computeNDVI image satellite = Value result ->
  ~ In "NDVI" (bandNames image) ->
  exists b, select result "NDVI" = Value b.
Proof.
  unfold NdviAnalysis.computeNDVI.
  destruct (select image _) as [A | m]; [| discriminate]. cbn [cbind].
  destruct (select image _) as [B | m]; [| discriminate]. cbn [cbind].
  intros H Hnew. injection H as <-.
  unfold limit, rename. cbn [fst snd].
  rewrite (select_added_band _ _ _ Hnew). eexists. reflexivity.
Qed.

(** Scenes without a band called NDVI, masked and indexed: their NDVI
    bands can be selected, and the mean and the max of these bands hold
    only values between -1 and 1. *)
Lemma ndvi_stack_within_range :
  forall (scenes masked processed : list Image) (satellite : string),
    (forall scene, In scene scenes -> ~ In "NDVI" (bandNames scene)) ->
    cmap NdviAnalysis.maskClouds scenes = Value masked ->
    cmap (fun image => NdviAnalysis.computeNDVI image satellite) masked
    = Value processed ->
    exists stack,
      selectAll processed "NDVI" = Value stack
      /\ within (-1) 1 (mean stack) /\ within (-1) 1 (max stack).
Proof.
  intros scenes masked processed satellite Hnew Em Hproc.
  assert (Hstack : exists stack,
             selectAll processed "NDVI" = Value stack
             /\ forall b, In b stack -> within (-1) 1 b).
  { apply cmap_Forall2 in Em. apply cmap_Forall2 in Hproc.
    revert masked processed Em Hproc.
    induction scenes as [| scene scenes IH]; intros masked processed Em Hproc.
    - inversion Em; subst. inversion Hproc; subst.
      exists []. split; [reflexivity | intros b []].
    - inversion Em as [| ? m1 ? masked' Hm1 Em']; subst.
      inversion Hproc as [| ? p1 ? processed' Hp1 Hproc']; subst.
      assert (Hm1new : ~ In "NDVI" (bandNames m1)).
      { rewrite (maskClouds_bandNames _ _ Hm1). apply Hnew. left. reflexivity. }
      destruct (computeNDVI_has_band m1 p1 satellite Hp1 Hm1new) as [b1 Hb1].
      destruct (IH (fun s Hs => Hnew s (or_intror Hs)) masked' processed'
                   Em' Hproc') as (stack' & Hsel & Hin).
      exists (b1 :: stack'). unfold selectAll in *. cbn [cmap].
      rewrite Hb1, Hsel. split; [reflexivity |].
      intros b [<- | Hb]; [| apply Hin; exact Hb].
      apply (computeNDVI_band_within m1 p1 satellite b1 Hp1 Hm1new Hb1). }
  destruct Hstack as (stack & Hsel & Hin).
  exists stack. split; [exact Hsel |].
  apply composite_within_range. exact Hin.
Qed.

End Composites.

(** ** The shape of the fractional cover *)

Section FvcShape.

Import EE Index Spec Observe FvcAnalysis.

Lemma Qle_bool_cases (x y : Q) :
  (Qle_bool x y = true /\ x <= y) \/ (Qle_bool x y = false /\ y < x).
Proof.
  destruct (Qle_bool x y) eqn:E.
  - left. split; [reflexivity | apply Qle_bool_iff; exact E].
  - right. split; [reflexivity | apply Qle_bool_false; exact E].
Qed.

(** The limited value as a case distinction on the raw value. *)
Lemma limited_cases (lo hi x : Q) :
  lo <= hi ->
  (x < lo /\ limited lo hi x = lo)
  \/ (lo <= x <= hi /\ limited lo hi x = x)
  \/ (hi < x /\ limited lo hi x = hi).
Proof.
  intros Hrange. unfold limited. rewrite nonzero_gt, nonzero_lt.
  destruct (Qle_bool_cases x hi) as [[-> Hhi] | [-> Hhi]];
    destruct (Qle_bool_cases lo x) as [[-> Hlo] | [-> Hlo]]; cbn.
  - right; left. split; [split; assumption | reflexivity].
  - left. split; [assumption | reflexivity].
  - right; right. split; [assumption | reflexivity].
  - right; right. split; [assumption | reflexivity].
Qed.

Lemma limited_monotone (lo hi x y : Q) :
  lo <= hi -> x <= y -> limited lo hi x <= limited lo hi y.
Proof.
  intros Hrange Hxy.
  destruct (limited_cases lo hi x Hrange) as [[Hx ->] | [[Hx ->] | [Hx ->]]];
    destruct (limited_cases lo hi y Hrange) as [[Hy ->] | [[Hy ->] | [Hy ->]]];
    lra.
Qed.

(** The raw quotient for thresholds in the usual order. *)
Lemma quotient_regular (x s v : Q) :
  ~ v - s == 0 -> divide (x - s) (v - s) = (x - s) / (v - s).
Proof.
  intros Hne. unfold divide.
  destruct (Qeq_bool (v - s) 0) eqn:E; [| reflexivity].
  apply Qeq_bool_iff in E. contradiction.
Qed.

(** X6: with ndvi_soil < ndvi_veg the cover never decreases when NDVI
    increases: of two locations, the one with the larger NDVI has the
    larger or the same FVC. *)
Theorem fvc_monotone :
  forall (ndviImage : Band) (ndvi_soil ndvi_veg : Q) (i j : nat) (x y : Q),
    ndvi_soil < ndvi_veg ->
    pixel_at ndviImage i = Some x ->
    pixel_at ndviImage j = Some y ->
    x <= y ->
    exists fx fy,
      pixel_at (snd (calculateFVC ndviImage ndvi_soil ndvi_veg)) i = Some fx
      /\ pixel_at (snd (calculateFVC ndviImage ndvi_soil ndvi_veg)) j
         = Some fy
      /\ fx <= fy.
Proof.
  intros ndviImage s v i j x y Hsv Hx Hy Hxy.
  rewrite !pixel_at_calculateFVC, Hx, Hy. cbn [option_map].
  eexists _, _. split; [reflexivity |]. split; [reflexivity |].
  assert (Hden : 0 < v - s) by lra.
  rewrite !quotient_regular by lra.
  apply limited_monotone; [discriminate |].
  unfold Qdiv. apply Qmult_le_compat_r; [lra |].
  apply Qlt_le_weak, Qinv_lt_0_compat. exact Hden.
Qed.

Lemma fvc_monotone_witness :
  exists fx fy,
    pixel_at (snd (calculateFVC [Some 0.3; Some 0.7] 0.2 0.86)) 0 = Some fx
    /\ pixel_at (snd (calculateFVC [Some 0.3; Some 0.7] 0.2 0.86)) 1 = Some fy
    /\ fx <= fy.
Proof.
  apply (fvc_monotone [Some 0.3; Some 0.7] 0.2 0.86 0 1 0.3 0.7);
    first [reflexivity | discriminate].
Defined.

(** X7: with ndvi_soil < ndvi_veg the cover saturates: it is exactly 0
    wherever NDVI is at or below ndvi_soil and exactly 1 wherever NDVI is
    at or above ndvi_veg. *)
Theorem fvc_saturates :
  forall (ndviImage : Band) (ndvi_soil ndvi_veg : Q) (i : nat) (x : Q),
    ndvi_soil < ndvi_veg ->
    pixel_at ndviImage i = Some x ->
    exists f,
      pixel_at (snd (calculateFVC ndviImage ndvi_soil ndvi_veg)) i = Some f
      /\ (x <= ndvi_soil -> f == 0)
      /\ (ndvi_veg <= x -> f == 1).
Proof.
  intros ndviImage s v i x Hsv Hx.
  rewrite pixel_at_calculateFVC, Hx. cbn [option_map].
  eexists. split; [reflexivity |].
  assert (Hden : 0 < v - s) by lra.
  rewrite quotient_regular by lra.
  assert (H01 : 0 <= 1) by discriminate.
  split; intros Hcase.
  - assert (Hq : (x - s) / (v - s) <= 0).
    { apply Qle_shift_div_r; [exact Hden | lra]. }
    destruct (limited_cases 0 1 ((x - s) / (v - s)) H01)
      as [[H ->] | [[H ->] | [H ->]]]; lra.
  - assert (Hq : 1 <= (x - s) / (v - s)).
    { apply Qle_shift_div_l; [exact Hden | lra]. }
    destruct (limited_cases 0 1 ((x - s) / (v - s)) H01)
      as [[H ->] | [[H ->] | [H ->]]]; lra.
Qed.

Lemma fvc_saturates_witness :
  exists f,
    pixel_at (snd (calculateFVC [Some 0.1; Some 0.9] 0.2 0.86)) 0 = Some f
    /\ (0.1 <= 0.2 -> f == 0)
    /\ (0.86 <= 0.1 -> f == 1).
Proof.
  apply (fvc_saturates [Some 0.1; Some 0.9] 0.2 0.86 0 0.1);
    first [reflexivity | discriminate].
Defined.

(** X8: thresholds given in the wrong order (ndvi_veg < ndvi_soil) are
    accepted and turn the scale around: the cover is 0 wherever NDVI is at
    or above ndvi_soil and 1 wherever NDVI is at or below ndvi_veg. *)
Theorem fvc_inverted_thresholds :
  forall (ndviImage : Band) (ndvi_soil ndvi_veg : Q) (i : nat) (x : Q),
    ndvi_veg < ndvi_soil ->
    pixel_at ndviImage i = Some x ->
    exists f,
      pixel_at (snd (calculateFVC ndviImage ndvi_soil ndvi_veg)) i = Some f
      /\ (ndvi_soil <= x -> f == 0)
      /\ (x <= ndvi_veg -> f == 1).
Proof.
  intros ndviImage s v i x Hvs Hx.
  rewrite pixel_at_calculateFVC, Hx. cbn [option_map].
  eexists. split; [reflexivity |].
  assert (Hden : 0 < s - v) by lra.
  rewrite quotient_regular by lra.
  assert (Hflip : (x - s) / (v - s) == (s - x) / (s - v)).
  { field. lra. }
  assert (H01 : 0 <= 1) by discriminate.
  split; intros Hcase.
  - assert (Hq : (s - x) / (s - v) <= 0).
    { apply Qle_shift_div_r; [exact Hden | lra]. }
    destruct (limited_cases 0 1 ((x - s) / (v - s)) H01)
      as [[H ->] | [[H ->] | [H ->]]]; lra.
  - assert (Hq : 1 <= (s - x) / (s - v)).
    { apply Qle_shift_div_l; [exact Hden | lra]. }
    destruct (limited_cases 0 1 ((x - s) / (v - s)) H01)
      as [[H ->] | [[H ->] | [H ->]]]; lra.
Qed.

Lemma fvc_inverted_thresholds_witness :
  exists f,
    pixel_at (snd (calculateFVC [Some 0.9; Some 0.1] 0.86 0.2)) 0 = Some f
    /\ (0.86 <= 0.9 -> f == 0)
    /\ (0.9 <= 0.2 -> f == 1).
Proof.
  apply (fvc_inverted_thresholds [Some 0.9; Some 0.1] 0.86 0.2 0 0.9);
    first [reflexivity | discriminate].
Defined.

End FvcShape.

(** ** The FVC script: parameters and batch *)

Section FvcBatch.

Import EE Js Script Spec Observe FvcAnalysis.

(** X9: an unspecified or empty ndviType means max: the run is the run
    with ndviType 'max'. *)
Theorem fvc_type_defaults_to_max :
  forall (catalog : Catalog) (percentile : Percentile) (geometry : Geometry)
         (periods : list Period) (satellite : string) (auto : option bool)
         (soil veg : option Q) (outputPath : string),
    exports_calculateFVC catalog percentile
      (mkParams geometry periods satellite None auto soil veg outputPath)
    = exports_calculateFVC catalog percentile
        (mkParams geometry periods satellite (Some "max") auto soil veg
           outputPath)
    /\ exports_calculateFVC catalog percentile
         (mkParams geometry periods satellite (Some "") auto soil veg
            outputPath)
       = exports_calculateFVC catalog percentile
           (mkParams geometry periods satellite (Some "max") auto soil veg
              outputPath).
Proof.
  intros. split; reflexivity.
Qed.

(** X10: the two parameter checks come first and in this order.  A
    satellite identifier that is neither a key of SATELLITES nor an
    inherited property name ends the run with the unsupported-satellite
    error, whatever the other parameters are; with the satellite accepted,
    an ndviType other than 'max' and 'mean' ends it with the unsupported-
    method error.  In both cases nothing is printed, requested or read. *)
Theorem fvc_parameter_checks :
  forall (catalog : Catalog) (percentile : Percentile) (params : Params),
    (truthy (member SATELLITES (satelliteId params)) = false ->
     exports_calculateFVC catalog percentile params
     = ([], inl (Error ("不支持的卫星类型: " ++ satelliteId params))))
    /\ (truthy (member SATELLITES (satelliteId params)) = true ->
        or_string (ndviType params) "max" <> "max" ->
        or_string (ndviType params) "max" <> "mean" ->
        exports_calculateFVC catalog percentile params
        = ([], inl (Error ("不支持的NDVI计算方法: "
                           ++ or_string (ndviType params) "max"
                           ++ "。请使用 " ++ quoted "max" ++ " 或 "
                           ++ quoted "mean")))).
Proof.
  intros catalog percentile params. split.
  - intros Hsat. unfold exports_calculateFVC. rewrite Hsat. reflexivity.
  - intros Hsat Hmax Hmean. unfold exports_calculateFVC. rewrite Hsat.
    apply String.eqb_neq in Hmax. apply String.eqb_neq in Hmean.
    cbn [negb]. rewrite Hmax, Hmean. reflexivity.
Qed.

Lemma fvc_parameter_checks_witness :
  exports_calculateFVC Samples.catalog Samples.no_percentile
    MoreSamples.l6_fvc_params
  = ([], inl (Error "不支持的卫星类型: L6"))
  /\ exports_calculateFVC Samples.catalog Samples.no_percentile
       MoreSamples.median_fvc_params
     = ([], inl (Error ("不支持的NDVI计算方法: median。请使用 "
                        ++ quoted "max" ++ " 或 " ++ quoted "mean"))).
Proof.
  split.
  - apply (fvc_parameter_checks Samples.catalog Samples.no_percentile
             MoreSamples.l6_fvc_params). reflexivity.
  - apply (fvc_parameter_checks Samples.catalog Samples.no_percentile
             MoreSamples.median_fvc_params);
      first [reflexivity | discriminate].
Defined.

(** A fixed-mode period with scenes ends normally and requests one
    export, under the period's file base name. *)
Lemma fixed_mode_period_log (catalog : Catalog) (percentile : Percentile)
  (params : Params) (settings : Resolved) (areaName asset : string)
  (period : Period) (collection : list Image) :
  auto settings = false ->
  NdviAnalysis.collectionName (member SATELLITES (satelliteId params))
  = ret asset ->
  periodCollection catalog asset params period = Value collection ->
  collection <> [] ->
  outcome (processPeriod catalog percentile params settings areaName period)
  = inr tt
  /\ export_descriptions
       (events (processPeriod catalog percentile params settings areaName
                  period))
     = [ areaName ++ "_FVC_" ++ toUpperCase (type settings) ++ "_"
         ++ start period ++ "_" ++ end_ period ].
Proof.
  intros Hauto Hasset Hcoll Hne.
  unfold processPeriod, print, emit, bind.
  rewrite Hasset. unfold ret. rewrite Hcoll, size_value. cbn [getInfo ret].
  rewrite (length_eqb_nonempty collection Hne).
  unfold thresholdsFor. rewrite Hauto. unfold ret, outcome, events. cbn.
  split; reflexivity.
Qed.

Lemma export_descriptions_app (a b : list Event) :
  export_descriptions (a ++ b) = (export_descriptions a ++ export_descriptions b)%list.
Proof. unfold export_descriptions. apply flat_map_app. Qed.

(** X11: in fixed threshold mode, with every period's collection
    available, the run ends normally and requests exactly one export per
    period that has scenes, in the order of the periods and under the name
    <area>_FVC_<TYPE>_<start>_<end>; periods without scenes request
    none. *)
Theorem fvc_batch_exports_nonempty_periods :
  forall (catalog : Catalog) (percentile : Percentile) (params : Params)
         (settings : Resolved) (areaName asset : string)
         (periods : list Period),
    auto settings = false ->
    NdviAnalysis.collectionName (member SATELLITES (satelliteId params))
    = ret asset ->
    (forall period, In period periods ->
       exists collection,
         periodCollection catalog asset params period = Value collection) ->
    outcome (forEach periods
               (processPeriod catalog percentile params settings areaName))
    = inr tt
    /\ export_descriptions
         (events (forEach periods
                    (processPeriod catalog percentile params settings
                       areaName)))
       = map (fun period =>
                areaName ++ "_FVC_" ++ toUpperCase (type settings) ++ "_"
                ++ start period ++ "_" ++ end_ period)
             (filter (fun period =>
                        has_scenes
                          (periodCollection catalog asset params period))
                     periods).
Proof.
  intros catalog percentile params settings areaName asset periods
         Hauto Hasset Hall.
  induction periods as [| period rest IH]; [split; reflexivity |].
  destruct IH as [IHout IHlog];
    [intros p Hp; apply Hall; right; exact Hp |].
  destruct (Hall period (or_introl eq_refl)) as [collection Hcoll].
  assert (Hstep : exists log,
             processPeriod catalog percentile params settings areaName period
             = (log, inr tt)
             /\ export_descriptions log
                = if has_scenes (periodCollection catalog asset params period)
                  then [ areaName ++ "_FVC_" ++ toUpperCase (type settings)
                         ++ "_" ++ start period ++ "_" ++ end_ period ]
                  else []).
  { rewrite Hcoll. destruct collection as [| scene more].
    - eexists. split;
        [apply (fvc_empty_period_skipped catalog percentile params settings
                  areaName asset period Hasset Hcoll) | reflexivity].
    - destruct (fixed_mode_period_log catalog percentile params settings
                  areaName asset period (scene :: more) Hauto Hasset Hcoll)
        as [Hout Hlog]; [discriminate |].
      destruct (processPeriod catalog percentile params settings areaName
                  period) as [log r] eqn:E.
      cbn in Hout, Hlog. subst r. exists log. split; [reflexivity | exact Hlog]. }
  destruct Hstep as [log [Hrun Hlog]].
  destruct (forEach_continues period rest
              (processPeriod catalog percentile params settings areaName)
              log Hrun) as [Hev Hout].
  split; [rewrite Hout; exact IHout |].
  rewrite Hev, export_descriptions_app, Hlog, IHlog. cbn [filter].
  destruct (has_scenes (periodCollection catalog asset params period));
    reflexivity.
Qed.

Lemma fvc_batch_exports_nonempty_periods_witness :
  outcome (forEach Samples.periods_2020_2021
             (processPeriod Samples.catalog Samples.no_percentile
                Samples.fixed_params (defaults Samples.fixed_params)
                "study_area"))
  = inr tt
  /\ export_descriptions
       (events (forEach Samples.periods_2020_2021
                  (processPeriod Samples.catalog Samples.no_percentile
                     Samples.fixed_params (defaults Samples.fixed_params)
                     "study_area")))
     = map (fun period =>
              "study_area" ++ "_FVC_"
              ++ toUpperCase (type (defaults Samples.fixed_params)) ++ "_"
              ++ start period ++ "_" ++ end_ period)
           (filter (fun period =>
                      has_scenes
                        (periodCollection Samples.catalog
                           "LANDSAT/LC08/C02/T1_L2" Samples.fixed_params
                           period))
                   Samples.periods_2020_2021).
Proof.
  apply (fvc_batch_exports_nonempty_periods Samples.catalog
           Samples.no_percentile Samples.fixed_params
           (defaults Samples.fixed_params) "study_area"
           "LANDSAT/LC08/C02/T1_L2" Samples.periods_2020_2021).
  - reflexivity.
  - reflexivity.
  - intros period [<- | [<- | []]]; eexists; reflexivity.
Defined.

(** X12: a collection that fails on the server is fatal for the whole
    batch: the period in which the failure is forced throws it after two
    console lines, and no later period runs. *)
Theorem fvc_server_failure_ends_batch :
  forall (catalog : Catalog) (percentile : Percentile) (params : Params)
         (settings : Resolved) (areaName asset message : string)
         (period : Period) (rest : list Period),
    NdviAnalysis.collectionName (member SATELLITES (satelliteId params))
    = ret asset ->
    periodCollection catalog asset params period = Failure message ->
    forEach (period :: rest)
      (processPeriod catalog percentile params settings areaName)
    = ([ Print [Str "处理时间段:";
                Str (start period ++ " 至 " ++ end_ period)];
         Print [Str "发现的影像数量:"; Count (Failure message)] ],
       inl (EEException message)).
Proof.
  intros catalog percentile params settings areaName asset message period
         rest Hasset Hcoll.
  rewrite forEach_cons. unfold processPeriod, print, emit, bind.
  rewrite Hasset. unfold ret. rewrite Hcoll. reflexivity.
Qed.

Lemma fvc_server_failure_ends_batch_witness :
  forEach Samples.periods_2020_2021
    (processPeriod MoreSamples.failing_catalog Samples.no_percentile
       Samples.fixed_params (defaults Samples.fixed_params) "study_area")
  = ([ Print [Str "处理时间段:"; Str "2020-01-01 至 2020-12-31"];
       Print [Str "发现的影像数量:"; Count (Failure "Computation timed out.")] ],
     inl (EEException "Computation timed out.")).
Proof.
  apply (fvc_server_failure_ends_batch MoreSamples.failing_catalog
           Samples.no_percentile Samples.fixed_params
           (defaults Samples.fixed_params) "study_area"
           "LANDSAT/LC08/C02/T1_L2" "Computation timed out."
           (mkPeriod "2020-01-01" "2020-12-31")
           [mkPeriod "2021-01-01" "2021-12-31"]);
    reflexivity.
Defined.

End FvcBatch.

(** ** The NDVI statistics script *)

Section NdviStats.

Import EE Js Script Spec Observe NdviAnalysis.

Lemma distinct_In (seen l : list string) (k : string) :
  In k (distinct seen l) <-> In k l /\ ~ In k seen.
Proof.
  revert seen. induction l as [| x l IH]; intros seen; cbn.
  - tauto.
  - destruct (mem x seen) eqn:E.
    + rewrite IH. apply existsb_exists in E. destruct E as [y [Hy Heq]].
      apply String.eqb_eq in Heq. subst y.
      split; [tauto |]. intros [[-> | H] Hn]; [contradiction | tauto].
    + assert (Hx : ~ In x seen).
      { intros Hin. assert (Ht : mem x seen = true).
        { apply existsb_exists. exists x. split;
            [exact Hin | apply String.eqb_refl]. }
        congruence. }
      cbn. rewrite IH. cbn. split.
      * intros [-> | [H Hn]]; [tauto |]. split; [tauto |].
        intros Hin. apply Hn. right. exact Hin.
      * intros [[<- | H] Hn]; [tauto |].
        destruct (string_dec x k) as [-> | Hne]; [tauto |].
        right. split; [exact H |]. intros [Heq | Hin]; [contradiction | tauto].
Qed.

Lemma distinct_NoDup (seen l : list string) : NoDup (distinct seen l).
Proof.
  revert seen. induction l as [| x l IH]; intros seen; cbn.
  - constructor.
  - destruct (mem x seen); [apply IH |].
    constructor; [| apply IH].
    intros Hin. apply distinct_In in Hin. destruct Hin as [_ Hn].
    apply Hn. left. reflexivity.
Qed.

Lemma Forall2_In_right {A B} (R : A -> B -> Prop) (l : list A) (r : list B)
  (y : B) :
  Forall2 R l r -> In y r -> exists x, In x l /\ R x y.
Proof.
  induction 1 as [| a b l r Hab _ IH]; intros Hin; [destruct Hin |].
  destruct Hin as [<- | Hin].
  - exists a. split; [left; reflexivity | exact Hab].
  - destruct (IH Hin) as [x [Hx HR]]. exists x. split; [right | ]; assumption.
Qed.

Lemma Forall2_In_left {A B} (R : A -> B -> Prop) (l : list A) (r : list B)
  (x : A) :
  Forall2 R l r -> In x l -> exists y, In y r /\ R x y.
Proof.
  induction 1 as [| a b l r Hab _ IH]; intros Hin; [destruct Hin |].
  destruct Hin as [<- | Hin].
  - exists b. split; [left; reflexivity | exact Hab].
  - destruct (IH Hin) as [y [Hy HR]]. exists y. split; [right | ]; assumption.
Qed.

(** X13: when every scene carries its path and row, extractPathRows
    returns each path_row key once, and the keys it returns are exactly
    the keys of the scenes. *)
Theorem path_rows_listed_once :
  forall (scenes : list Image),
    (forall scene, In scene scenes -> exists key, pathRow scene = Value key) ->
    exists rows,
      extractPathRows (Value scenes) = Value rows
      /\ NoDup rows
      /\ forall key,
           In key rows
           <-> exists scene, In scene scenes /\ pathRow scene = Value key.
Proof.
  intros scenes Hall. unfold extractPathRows. cbn [cbind].
  assert (Hmap : exists features, cmap pathRow scenes = Value features).
  { induction scenes as [| scene scenes IH]; [exists []; reflexivity |].
    destruct (Hall scene (or_introl eq_refl)) as [key Hkey].
    destruct IH as [features Hf];
      [intros sc Hsc; apply Hall; right; exact Hsc |].
    exists (key :: features). cbn. rewrite Hkey, Hf. reflexivity. }
  destruct Hmap as [features Hf]. rewrite Hf. cbn [cbind].
  eexists. split; [reflexivity |]. split; [apply distinct_NoDup |].
  apply cmap_Forall2 in Hf. intros key. rewrite distinct_In. split.
  - intros [Hin _]. apply (Forall2_In_right _ _ _ _ Hf Hin).
  - intros [scene [Hin Hkey]]. split; [| intros []].
    destruct (Forall2_In_left _ _ _ _ Hf Hin) as [key' [Hin' Hkey']].
    rewrite Hkey in Hkey'. injection Hkey' as ->. exact Hin'.
Qed.

Lemma path_rows_listed_once_witness :
  exists rows,
    extractPathRows (Value MoreSamples.three_scenes) = Value rows
    /\ NoDup rows
    /\ forall key,
         In key rows
         <-> exists scene,
               In scene MoreSamples.three_scenes /\ pathRow scene = Value key.
Proof.
  apply (path_rows_listed_once MoreSamples.three_scenes).
  intros scene [<- | [<- | [<- | []]]]; eexists; reflexivity.
Defined.

(** X14: the satellite is checked before the statistic.  A satellite
    identifier that is neither a key of SATELLITES nor an inherited
    property name ends the run with the unsupported-satellite error even
    when the statistic is unknown too; with the satellite accepted, a
    statType other than 'mean' and 'max' ends it with the unsupported-
    statistic error.  In both cases nothing is printed, requested or
    read. *)
Theorem ndvi_parameter_checks :
  forall (catalog : Catalog) (table : Geometry) (params : Params),
    (truthy (member SATELLITES (satelliteId params)) = false ->
     calculateNDVIStats catalog table params
     = ([], inl (Error ("不支持的卫星类型: " ++ satelliteId params))))
    /\ (truthy (member SATELLITES (satelliteId params)) = true ->
        statType params <> "mean" ->
        statType params <> "max" ->
        calculateNDVIStats catalog table params
        = ([], inl (Error ("不支持的统计类型: " ++ statType params
                           ++ "。请使用 " ++ quoted "mean" ++ " 或 "
                           ++ quoted "max")))).
Proof.
  intros catalog table params. split.
  - intros Hsat. unfold calculateNDVIStats. rewrite Hsat. reflexivity.
  - intros Hsat Hmean Hmax. unfold calculateNDVIStats. rewrite Hsat.
    apply String.eqb_neq in Hmean. apply String.eqb_neq in Hmax.
    unfold mem. cbn [negb existsb]. rewrite Hmean, Hmax. reflexivity.
Qed.

Lemma ndvi_parameter_checks_witness :
  calculateNDVIStats Samples.catalog Samples.aoi MoreSamples.median_params
  = ([], inl (Error ("不支持的统计类型: median。请使用 " ++ quoted "mean"
                     ++ " 或 " ++ quoted "max"))).
Proof.
  apply (ndvi_parameter_checks Samples.catalog Samples.aoi
           MoreSamples.median_params);
    first [reflexivity | discriminate].
Defined.

(** X15: a run on well-formed scenes.  With a supported satellite, a
    known statistic and a collection whose scenes can all be masked,
    indexed and keyed by path and row, the run ends normally; both
    console counts and imageCount are the number of scenes of the
    collection, the path/row list is the duplicate-free list of keys, and
    exactly one export is requested, named
    <area>_NDVI_<statType>_<startDate>_<endDate>. *)
Theorem ndvi_stats_normal_run :
  forall (catalog : Catalog) (table : Geometry) (params : Params)
         (satellite : Satellite) (scenes masked processed : list Image)
         (features : list string),
    lookup (satelliteId params) SATELLITES = Some satellite ->
    statType params = "mean" \/ statType params = "max" ->
    catalog (name satellite) (startDate params) (endDate params)
      (geometry params)
    = Value scenes ->
    cmap maskClouds scenes = Value masked ->
    cmap (fun image => computeNDVI image (satelliteId params)) masked
    = Value processed ->
    cmap pathRow scenes = Value features ->
    exists log stats,
      calculateNDVIStats catalog table params = (log, inr stats)
      /\ imageCount stats = Value (List.length scenes)
      /\ pathRowsInfo stats
         = (Value (List.length (distinct [] features)), distinct [] features)
      /\ In (Print [Str "信息:";
                    Str ("发现的影像数量: "
                         ++ string_of_nat (List.length scenes))]) log
      /\ In (Print [Str "信息:";
                    Str ("有效处理的影像数量: "
                         ++ string_of_nat (List.length scenes))]) log
      /\ export_descriptions log
         = [ last_segment (system_id table) ++ "_NDVI_" ++ statType params
             ++ "_" ++ startDate params ++ "_" ++ endDate params ].
Proof.
  intros catalog table params satellite scenes masked processed features
         Hsat Htype Hcat Hmask Hndvi Hrows.
  assert (Hlen : List.length processed = List.length scenes).
  { rewrite (cmap_length _ _ _ Hndvi). apply (cmap_length _ _ _ Hmask). }
  unfold calculateNDVIStats, member. rewrite Hsat. cbn [truthy negb].
  unfold collectionName, extractPathRows, printInfo, print, emit, bind, ret,
    getInfo, size.
  rewrite Hcat. cbn [cbind]. rewrite Hmask. cbn [cbind]. rewrite Hndvi, Hrows.
  cbn [cbind]. rewrite Hlen.
  destruct Htype as [-> | ->]; cbn; eexists _, _;
    (split; [reflexivity |]); cbn;
    repeat split; tauto.
Qed.

Lemma ndvi_stats_normal_run_witness :
  exists log stats,
    calculateNDVIStats Samples.catalog Samples.aoi MoreSamples.ndvi_params
    = (log, inr stats)
    /\ imageCount stats = Value 1%nat
    /\ pathRowsInfo stats = (Value 1%nat, ["123_32"])
    /\ In (Print [Str "信息:"; Str "发现的影像数量: 1"]) log
    /\ In (Print [Str "信息:"; Str "有效处理的影像数量: 1"]) log
    /\ export_descriptions log
       = [ "study_area_NDVI_mean_2021-01-01_2021-12-31" ].
Proof.
  apply (ndvi_stats_normal_run Samples.catalog Samples.aoi
           MoreSamples.ndvi_params
           (mkSatellite "LANDSAT/LC08/C02/T1_L2" 2013 None)
           [Samples.scene_L8] MoreSamples.masked_2021
           Samples.collection_2021 ["123_32"]).
  - reflexivity.
  - left. reflexivity.
  - reflexivity.
  - reflexivity.
  - reflexivity.
  - reflexivity.
Defined.

(** X5: the composite that calculateNDVIStats exports lies in [-1, 1].
    With a supported satellite, statType 'mean' or 'max' and a collection
    of scenes that have no band called NDVI and can all be masked, indexed
    and keyed by path and row, the run ends normally and requests exactly
    one export, of an image whose values all lie between -1 and 1. *)
Theorem ndvi_composite_within_range :
  forall (catalog : Catalog) (table : Geometry) (params : Params)
         (satellite : Satellite) (scenes masked processed : list Image)
         (features : list string),
    lookup (satelliteId params) SATELLITES = Some satellite ->
    statType params = "mean" \/ statType params = "max" ->
    catalog (name satellite) (startDate params) (endDate params)
      (geometry params)
    = Value scenes ->
    (forall scene, In scene scenes -> ~ In "NDVI" (bandNames scene)) ->
    cmap maskClouds scenes = Value masked ->
    cmap (fun image => computeNDVI image (satelliteId params)) masked
    = Value processed ->
    cmap pathRow scenes = Value features ->
    exists log stats composite description folder,
      calculateNDVIStats catalog table params = (log, inr stats)
      /\ exports log
         = [ ExportImageToDrive (Value composite) description folder ]
      /\ within (-1) 1 composite.
Proof.
  intros catalog table params satellite scenes masked processed features
         Hsat Htype Hcat Hnew Hmask Hndvi Hrows.
  destruct (ndvi_stack_within_range scenes masked processed
              (satelliteId params) Hnew Hmask Hndvi)
    as (stack & Hstack & Hmean & Hmax).
  unfold calculateNDVIStats, member. rewrite Hsat. cbn [truthy negb].
  unfold collectionName, extractPathRows, printInfo, print, emit, bind, ret,
    getInfo, size.
  rewrite Hcat. cbn [cbind]. rewrite Hmask. cbn [cbind]. rewrite Hndvi, Hrows.
  cbn [cbind]. rewrite Hstack.
  destruct Htype as [-> | ->]; cbn; eexists _, _, _, _, _;
    (split; [reflexivity |]); cbn; (split; [reflexivity |]); assumption.
Qed.

Lemma ndvi_composite_within_range_witness :
  exists log stats composite description folder,
    calculateNDVIStats Samples.catalog Samples.aoi MoreSamples.ndvi_params
    = (log, inr stats)
    /\ exports log
       = [ ExportImageToDrive (Value composite) description folder ]
    /\ within (-1) 1 composite.
Proof.
  apply (ndvi_composite_within_range Samples.catalog Samples.aoi
           MoreSamples.ndvi_params
           (mkSatellite "LANDSAT/LC08/C02/T1_L2" 2013 None)
           [Samples.scene_L8] MoreSamples.masked_2021
           Samples.collection_2021 ["123_32"]).
  - reflexivity.
  - left. reflexivity.
  - reflexivity.
  - intros scene [<- | []]. cbn.
    intros [H | [H | [H | [H | [H | []]]]]]; discriminate.
  - reflexivity.
  - reflexivity.
  - reflexivity.
Defined.

(** X16: an empty collection is not an error for this script.  With a
    supported satellite and a known statistic the run ends normally with
    imageCount 0, an empty path/row list and a regional statistic without
    value, and it still requests the export of the (empty) composite. *)
Theorem ndvi_stats_empty_collection :
  forall (catalog : Catalog) (table : Geometry) (params : Params)
         (satellite : Satellite),
    lookup (satelliteId params) SATELLITES = Some satellite ->
    statType params = "mean" \/ statType params = "max" ->
    catalog (name satellite) (startDate params) (endDate params)
      (geometry params)
    = Value [] ->
    exists log stats,
      calculateNDVIStats catalog table params = (log, inr stats)
      /\ imageCount stats = Value O
      /\ ndviStats stats = Value None
      /\ pathRowsInfo stats = (Value O, [])
      /\ exports log
         = [ ExportImageToDrive (Value [])
               (last_segment (system_id table) ++ "_NDVI_" ++ statType params
                ++ "_" ++ startDate params ++ "_" ++ endDate params)
               (outputPath params) ].
Proof.
  intros catalog table params satellite Hsat Htype Hcat.
  unfold calculateNDVIStats, member. rewrite Hsat. cbn [truthy negb].
  unfold collectionName, extractPathRows, printInfo, print, emit, bind, ret,
    getInfo, size.
  rewrite Hcat.
  destruct Htype as [-> | ->]; cbn; eexists _, _;
    (split; [reflexivity |]); cbn; repeat split.
Qed.

Lemma ndvi_stats_empty_collection_witness :
  exists log stats,
    calculateNDVIStats Samples.catalog Samples.aoi
      MoreSamples.empty_window_params
    = (log, inr stats)
    /\ imageCount stats = Value O
    /\ ndviStats stats = Value None
    /\ pathRowsInfo stats = (Value O, [])
    /\ exports log
       = [ ExportImageToDrive (Value [])
             "study_area_NDVI_max_2020-01-01_2020-12-31" "NDVI_Results" ].
Proof.
  apply (ndvi_stats_empty_collection Samples.catalog Samples.aoi
           MoreSamples.empty_window_params
           (mkSatellite "LANDSAT/LC08/C02/T1_L2" 2013 None)).
  - reflexivity.
  - right. reflexivity.
  - reflexivity.
Defined.

End NdviStats.

(** ** The batch NDVI script, for every catalogue *)

Section NdviBatchAll.

Import EE Js Script Spec Observe NdviBatch.

(** X17: the batch script picks the bands from the scene's own
    SPACECRAFT_ID; for the five Landsat platforms its computeNDVI gives
    the result of the single-satellite computeNDVI called with the
    matching identifier. *)
Theorem batch_computeNDVI_agrees :
  forall (image : Image) (spacecraftId satellite : string),
    get image "SPACECRAFT_ID" = Value spacecraftId ->
    In (spacecraftId, satellite)
       [ ("LANDSAT_4", "L4"); ("LANDSAT_5", "L5"); ("LANDSAT_7", "L7");
         ("LANDSAT_8", "L8"); ("LANDSAT_9", "L9") ] ->
    computeNDVI image = NdviAnalysis.computeNDVI image satellite.
Proof.
  intros image spacecraftId satellite Hid Hin.
  unfold computeNDVI. rewrite Hid. cbn [cbind].
  destruct Hin as [H | [H | [H | [H | [H | []]]]]];
    injection H as <- <-; reflexivity.
Qed.

Lemma batch_computeNDVI_agrees_witness :
  computeNDVI Samples.scene_L8 = NdviAnalysis.computeNDVI Samples.scene_L8 "L8".
Proof.
  apply (batch_computeNDVI_agrees Samples.scene_L8 "LANDSAT_8" "L8").
  - reflexivity.
  - cbn. tauto.
Defined.

(** For every catalogue processNDVI returns normally after one export
    request and one layer. *)
Lemma processNDVI_always_returns (catalog : Catalog) (table : Geometry)
  (startDate endDate : string) (geometry : Geometry) (outputPath : string) :
  exists image result,
    processNDVI catalog table startDate endDate geometry outputPath
    = ([ ExportImageToDrive image
           (last_segment (system_id table) ++ "_NDVI_" ++ statType ++ "_"
            ++ remove_first_dash (remove_first_dash startDate) ++ "_"
            ++ remove_first_dash (remove_first_dash endDate))
           outputPath;
         MapAddLayer (Pixels (cbind image (fun b => Value (clip b geometry))))
           (startDate ++ "至" ++ endDate ++ " NDVI 均值") ],
       inr result).
Proof.
  unfold processNDVI. cbn. eexists _, _. reflexivity.
Qed.

(** X18: the batch NDVI script never throws, whatever the catalogue
    holds, be it empty windows or failing requests: the main flow ends
    normally and requests exactly one export per period, in the order of
    the periods, named <area>_NDVI_mean_<start>_<end> with the first two
    dashes of each date removed. *)
Theorem ndvi_batch_never_throws :
  forall (catalog : Catalog) (table : Geometry) (periods : list Period),
    outcome (processAll catalog table periods) = inr tt
    /\ export_descriptions (events (processAll catalog table periods))
       = map (fun period =>
                last_segment (system_id table) ++ "_NDVI_" ++ statType ++ "_"
                ++ remove_first_dash (remove_first_dash (start period)) ++ "_"
                ++ remove_first_dash (remove_first_dash (end_ period)))
             periods.
Proof.
  intros catalog table periods.
  assert (Hloop :
    outcome (forEach periods (fun period =>
               bind (processNDVI catalog table (start period) (end_ period)
                       table "NDVI_Results")
                    (fun result =>
                       emit (Evaluate
                               [Str (String (ascii_of_nat 10)
                                       "时间段处理结果:");
                                Dictionary result]))))
    = inr tt
    /\ export_descriptions
         (events (forEach periods (fun period =>
               bind (processNDVI catalog table (start period) (end_ period)
                       table "NDVI_Results")
                    (fun result =>
                       emit (Evaluate
                               [Str (String (ascii_of_nat 10)
                                       "时间段处理结果:");
                                Dictionary result])))))
       = map (fun period =>
                last_segment (system_id table) ++ "_NDVI_" ++ statType ++ "_"
                ++ remove_first_dash (remove_first_dash (start period)) ++ "_"
                ++ remove_first_dash (remove_first_dash (end_ period)))
             periods).
  { induction periods as [| period rest IH]; [split; reflexivity |].
    destruct IH as [IHout IHlog].
    destruct (processNDVI_always_returns catalog table (start period)
                (end_ period) table "NDVI_Results") as [image [result Hrun]].
    rewrite forEach_cons, Hrun.
    destruct (forEach rest _) as [log r] eqn:E.
    unfold outcome, events in *. cbn in IHout, IHlog |- *.
    split; [exact IHout |]. f_equal. exact IHlog. }
  destruct Hloop as [Hout Hlog].
  unfold processAll, print, emit.
  destruct (forEach periods _) as [log r] eqn:E.
  unfold outcome, events in *. cbn [fst snd] in Hout, Hlog. subst r.
  cbn -[export_descriptions]. split; [reflexivity |].
  change (export_descriptions
            (log ++ [Print [Str "=== NDVI批量处理完成 ==="]])
          = map (fun period =>
                   last_segment (system_id table) ++ "_NDVI_" ++ statType
                   ++ "_"
                   ++ remove_first_dash (remove_first_dash (start period))
                   ++ "_"
                   ++ remove_first_dash (remove_first_dash (end_ period)))
                periods).
  rewrite export_descriptions_app, Hlog. apply app_nil_r.
Qed.

Lemma remove_first_dash_occurrences (s : string) :
  occurrences "-" (remove_first_dash s) = pred (occurrences "-" s).
Proof.
  induction s as [| c s IH]; [reflexivity |].
  cbn. destruct (Ascii.eqb c "-") eqn:E; [reflexivity |].
  cbn. rewrite E. exact IH.
Qed.

Lemma remove_first_dash_without (s : string) :
  without "-" (remove_first_dash s) = without "-" s.
Proof.
  induction s as [| c s IH]; [reflexivity |].
  cbn. destruct (Ascii.eqb c "-") eqn:E; [reflexivity |].
  cbn. rewrite E, IH. reflexivity.
Qed.

Lemma without_absent (c : ascii) (s : string) :
  occurrences c s = O -> without c s = s.
Proof.
  induction s as [| d s IH]; [reflexivity |].
  cbn. destruct (Ascii.eqb d c); [discriminate |].
  intros H. rewrite IH by exact H. reflexivity.
Qed.

(** X19: the date formatting of the file names removes the first two
    dashes and nothing else: a date with at most two dashes comes out
    without any dash and otherwise unchanged, and a string with more
    dashes keeps all but the first two. *)
Theorem date_formatting_removes_two_dashes :
  forall date : string,
    occurrences "-" (remove_first_dash (remove_first_dash date))
    = (occurrences "-" date - 2)%nat
    /\ without "-" (remove_first_dash (remove_first_dash date))
       = without "-" date
    /\ ((occurrences "-" date <= 2)%nat ->
        remove_first_dash (remove_first_dash date) = without "-" date).
Proof.
  intros date.
  assert (Hcount : occurrences "-" (remove_first_dash (remove_first_dash date))
                   = (occurrences "-" date - 2)%nat).
  { rewrite !remove_first_dash_occurrences. lia. }
  assert (Hwithout : without "-" (remove_first_dash (remove_first_dash date))
                     = without "-" date).
  { rewrite !remove_first_dash_without. reflexivity. }
  split; [exact Hcount |]. split; [exact Hwithout |].
  intros Hle. rewrite <- Hwithout. symmetry. apply without_absent.
  rewrite Hcount. lia.
Qed.

Lemma date_formatting_removes_two_dashes_witness :
  remove_first_dash (remove_first_dash "2020-01-01") = without "-" "2020-01-01".
Proof.
  apply (date_formatting_removes_two_dashes "2020-01-01"). cbn. lia.
Defined.

End NdviBatchAll.

(** ** Names *)

Section Names.

Import EE Js Script Spec Observe.

Lemma last_segment_from_no_slash (acc s : string) :
  occurrences "/" s = O -> last_segment_from acc s = acc ++ s.
Proof.
  revert acc. induction s as [| c s IH]; intros acc H; cbn.
  - induction acc as [| a acc IHacc]; [reflexivity |].
    cbn. rewrite <- IHacc. reflexivity.
  - cbn in H. destruct (Ascii.eqb c "/"); [discriminate |].
    rewrite IH by exact H.
    clear. induction acc as [| a acc IHacc]; [reflexivity |].
    cbn. rewrite IHacc. reflexivity.
Qed.

Lemma last_segment_from_after_slash (acc prefix rest : string) :
  last_segment_from acc (prefix ++ String "/" rest)
  = last_segment_from EmptyString rest.
Proof.
  revert acc. induction prefix as [| c prefix IH]; intros acc; cbn.
  - reflexivity.
  - destruct (Ascii.eqb c "/"); apply IH.
Qed.

(** X20: the area name is what follows the last slash of the asset id:
    for a name without slash, any path in front of it is dropped, and an
    id without slash is its own name. *)
Theorem area_name_is_last_segment :
  forall (path name : string),
    occurrences "/" name = O ->
    last_segment (path ++ String "/" name) = name
    /\ last_segment name = name.
Proof.
  intros path name Hname. unfold last_segment. split.
  - rewrite last_segment_from_after_slash.
    apply (last_segment_from_no_slash EmptyString name Hname).
  - apply (last_segment_from_no_slash EmptyString name Hname).
Qed.

Lemma area_name_is_last_segment_witness :
  last_segment ("users/analyst" ++ String "/" "study_area") = "study_area"
  /\ last_segment "study_area" = "study_area".
Proof.
  apply (area_name_is_last_segment "users/analyst" "study_area").
  reflexivity.
Defined.

(** The three index scripts agree on the near-infrared band of
    every satellite identifier, supported or not. *)
Theorem nir_band_consistent :
  forall satellite : string,
    NdbiAnalysis.nir (NdbiAnalysis.getBandNames satellite)
    = NdviAnalysis.nir (NdviAnalysis.getBandNames satellite)
    /\ NdwiAnalysis.nir (NdwiAnalysis.getBandNames satellite)
       = NdviAnalysis.nir (NdviAnalysis.getBandNames satellite).
Proof.
  intros satellite.
  unfold NdbiAnalysis.getBandNames, NdwiAnalysis.getBandNames,
    NdviAnalysis.getBandNames.
  destruct (String.eqb satellite "L8" || String.eqb satellite "L9");
    split; reflexivity.
Qed.

End Names.

(** ** The text helpers and the table of landsat_metadata.js *)

Section MetadataText.

Import Metadata Observe.
Local Open Scope list_scope.
Local Open Scope Z_scope.

Lemma bounded_check (P : nat -> bool) (k : nat) :
  forallb P (seq 0 k) = true -> forall n, (n < k)%nat -> P n = true.
Proof.
  intros H n Hn. rewrite forallb_forall in H. apply H, in_seq. lia.
Qed.

Lemma padZero_two_digits (z : Z) :
  0 <= z < 100 ->
  exists d1 d2,
    padZero (Int z) = [d1; d2]
    /\ is_digit d1 = true /\ is_digit d2 = true
    /\ digit_value d1 * 10 + digit_value d2 = z.
Proof.
  intros Hz.
  assert (H : two_digits (Z.to_nat z) = true).
  { apply (bounded_check two_digits 100); [vm_compute; reflexivity | lia]. }
  unfold two_digits in H. rewrite Z2Nat.id in H by lia.
  destruct (padZero (Int z)) as [|d1 [|d2 [|d3 r]]]; try discriminate H.
  apply andb_prop in H. destruct H as [H H3].
  apply andb_prop in H. destruct H as [H1 H2].
  exists d1, d2. repeat split; auto. now apply Z.eqb_eq.
Qed.

Lemma is_digit_inv (c : N) :
  is_digit c = true ->
  In c [48; 49; 50; 51; 52; 53; 54; 55; 56; 57]%N.
Proof.
  unfold is_digit. intros H. apply andb_prop in H. destruct H as [H1 H2].
  apply N.leb_le in H1. apply N.leb_le in H2.
  change [48; 49; 50; 51; 52; 53; 54; 55; 56; 57]%N
    with (map N.of_nat (seq 48 10)).
  rewrite <- (N2Nat.id c). apply in_map, in_seq. lia.
Qed.

Ltac each_digit H :=
  apply is_digit_inv in H; cbn in H;
  repeat (destruct H as [H | H]; [subst | ]); [.. | contradiction].

Lemma digit_starts_literal (d : N) (r : str) :
  is_digit d = true ->
  skip_spaces (d :: r) = d :: r
  /\ sign (d :: r) = (false, d :: r)
  /\ starts_with (lit "Infinity") (d :: r) = false.
Proof.
  intros H. each_digit H; repeat split; reflexivity.
Qed.

Lemma digit_value_range (d : N) :
  is_digit d = true -> 0 <= digit_value d <= 9.
Proof.
  intros H. each_digit H; cbn; lia.
Qed.

Lemma digit_not_colon (d : N) :
  is_digit d = true -> N.eqb d 58 = false.
Proof.
  intros H. each_digit H; reflexivity.
Qed.

Lemma digits_decimal (ds rest : str) :
  Forall (fun c => is_digit c = true) ds ->
  match rest with c :: _ => is_digit c = false | [] => True end ->
  forall acc count,
    digits acc count (ds ++ rest)
    = (decimal acc ds, (count + List.length ds)%nat, rest).
Proof.
  intros Hds Hrest. induction Hds as [|d ds Hd Hds IH]; intros acc count.
  - cbn. rewrite Nat.add_0_r. destruct rest as [|c r]; [reflexivity|].
    cbn. now rewrite Hrest.
  - cbn. rewrite Hd, IH. f_equal. f_equal. lia.
Qed.

Lemma decimal_bounds (ds : str) :
  Forall (fun c => is_digit c = true) ds ->
  forall acc,
    acc * 10 ^ Z.of_nat (List.length ds) <= decimal acc ds
    < (acc + 1) * 10 ^ Z.of_nat (List.length ds).
Proof.
  intros Hds. induction Hds as [|d ds Hd Hds IH]; intros acc.
  - cbn. lia.
  - cbn [decimal fold_left List.length].
    specialize (IH (acc * 10 + digit_value d)). unfold decimal in IH.
    apply digit_value_range in Hd.
    rewrite Nat2Z.inj_succ, Z.pow_succ_r by lia.
    assert (0 < 10 ^ Z.of_nat (List.length ds)) by (apply Z.pow_pos_nonneg; lia).
    nia.
Qed.

Lemma Qfloor_between (q : Q) (z : Z) :
  (inject_Z z <= q)%Q -> (q < inject_Z (z + 1))%Q -> Qfloor q = z.
Proof.
  intros Hlo Hhi.
  assert (H1 : (inject_Z (Qfloor q) < inject_Z (z + 1))%Q).
  { apply Qle_lt_trans with q; [apply Qfloor_le | exact Hhi]. }
  assert (H2 : (inject_Z z < inject_Z (Qfloor q + 1))%Q).
  { apply Qle_lt_trans with q; [exact Hlo | apply Qlt_floor]. }
  rewrite <- Zlt_Qlt in H1, H2. lia.
Qed.

Lemma numberOfInteger_small (z : Z) :
  0 <= z < 100 -> numberOfInteger z = Int z.
Proof.
  intros Hz.
  assert (H : exact_integer (Z.to_nat z) = true).
  { apply (bounded_check exact_integer 100); [vm_compute; reflexivity | lia]. }
  unfold exact_integer in H. rewrite Z2Nat.id in H by lia.
  destruct (numberOfInteger z); try discriminate H.
  f_equal. now apply Z.eqb_eq.
Qed.

Lemma nearest_even_above (q : Q) (k : Z) :
  (inject_Z k <= q)%Q -> k <= nearest_even q.
Proof.
  intros H. apply Qfloor_resp_le in H. rewrite Qfloor_Z in H.
  unfold nearest_even.
  destruct (Qcompare _ _); [destruct (Z.even _) | |]; lia.
Qed.

Lemma nearest_even_below (q : Q) :
  (inject_Z (nearest_even q) <= q + (1 # 2))%Q.
Proof.
  unfold nearest_even. pose proof (Qfloor_le q) as Hf.
  destruct (Qcompare (q - inject_Z (Qfloor q)) (1 # 2)) eqn:E.
  - apply Qeq_alt in E. destruct (Z.even _).
    + lra.
    + rewrite inject_Z_plus. change (inject_Z 1) with 1%Q. lra.
  - lra.
  - apply Qgt_alt in E. rewrite inject_Z_plus.
    change (inject_Z 1) with 1%Q. lra.
Qed.

Lemma log2_floor_le (q : Q) : (0 < q)%Q -> (Qpower 2 (log2_floor q) <= q)%Q.
Proof.
  intros Hq. unfold log2_floor.
  destruct (Qle_bool _ q) eqn:E; [now apply Qle_bool_iff |]. clear E.
  destruct q as [p d]. assert (Hp : 0 < p) by (unfold Qlt in Hq; cbn in Hq; lia).
  cbn [Qnum Qden].
  replace (Z.log2 p - Z.log2 (Z.pos d) - 1)
    with (Z.log2 p - (Z.log2 (Z.pos d) + 1)) by lia.
  rewrite Qpower_minus by discriminate.
  pose proof (Z.log2_spec p Hp) as [Hlp _].
  pose proof (Z.log2_spec (Z.pos d) ltac:(lia)) as [_ Hld].
  pose proof (Z.log2_nonneg p) as Hnp.
  pose proof (Z.log2_nonneg (Z.pos d)) as Hnd.
  change 2%Q with (inject_Z 2).
  rewrite <- !Zpower_Qpower by lia.
  replace (Z.succ (Z.log2 (Z.pos d))) with (Z.log2 (Z.pos d) + 1) in Hld by lia.
  set (a := 2 ^ Z.log2 p) in *. set (b := 2 ^ (Z.log2 (Z.pos d) + 1)) in *.
  assert (Hb : (0 < inject_Z b)%Q).
  { change 0%Q with (inject_Z 0). rewrite <- Zlt_Qlt. lia. }
  apply Qle_shift_div_r; [exact Hb |].
  unfold Qle, Qmult, inject_Z. cbn [Qnum Qden]. nia.
Qed.

(** Rounding a number below 128 to a Number does not move it across an
    integer it is at least 2^-47 away from. *)
Lemma round_positive_floor (x : Q) (s : Z) :
  0 <= s -> (0 < x)%Q -> (inject_Z s <= x)%Q ->
  (x + (1 # 2 ^ 47) < inject_Z (s + 1))%Q -> (x < 128)%Q ->
  exists v, round_positive x = Finite v /\ Qfloor v = s.
Proof.
  intros Hs Hpos Hlo Hhi Hmax.
  pose proof (log2_floor_le x Hpos) as Hc.
  assert (Hc6 : log2_floor x <= 6).
  { destruct (Z.le_gt_cases (log2_floor x) 6) as [H | H]; [exact H | exfalso].
    assert (H7 : (Qpower 2 7 <= Qpower 2 (log2_floor x))%Q)
      by (apply Qpower_le_compat_l; [lia | discriminate]).
    change (Qpower 2 7) with 128%Q in H7. lra. }
  unfold round_positive.
  set (e := Z.max (log2_floor x - 52) (-1074)).
  assert (He : e <= -46) by lia.
  set (P := Qpower 2 e).
  assert (HP : (0 < P)%Q) by (apply Qpower_0_lt; reflexivity).
  assert (HP46 : (P <= 1 # 2 ^ 46)%Q).
  { change (1 # 2 ^ 46)%Q with (Qpower 2 (-46)).
    apply Qpower_le_compat_l; [exact He | discriminate]. }
  assert (HxP : (x / P * P == x)%Q) by (field; lra).
  set (m := nearest_even (x / P)).
  assert (Hup : (inject_Z m * P <= x + P * (1 # 2))%Q).
  { pose proof (nearest_even_below (x / P)) as H. fold m in H.
    apply (Qmult_le_compat_r _ _ P) in H; [| lra].
    rewrite Qmult_plus_distr_l, HxP in H. lra. }
  assert (Hlow : (inject_Z s <= inject_Z m * P)%Q).
  { set (k := s * 2 ^ (- e)).
    assert (Hk : (inject_Z k * P == inject_Z s)%Q).
    { unfold k. rewrite inject_Z_mult, Zpower_Qpower by lia.
      change (inject_Z 2) with 2%Q. rewrite Qpower_opp. fold P. field. lra. }
    assert (Hkx : (inject_Z k <= x / P)%Q).
    { apply Qle_shift_div_l; [exact HP |]. rewrite Hk. exact Hlo. }
    apply nearest_even_above in Hkx. fold m in Hkx.
    rewrite <- Hk. apply Qmult_le_compat_r; [| lra].
    rewrite <- Zle_Qle. exact Hkx. }
  assert (Hbelow : (inject_Z m * P < inject_Z (s + 1))%Q).
  { assert (H47 : ((1 # 2 ^ 46) * (1 # 2) == 1 # 2 ^ 47)%Q) by reflexivity.
    lra. }
  destruct (Qle_bool (Qpower 2 1024) (inject_Z m * P)) eqn:E.
  - exfalso. apply Qle_bool_iff in E.
    assert (H1024 : (Qpower 2 7 <= Qpower 2 1024)%Q)
      by (apply Qpower_le_compat_l; [lia | discriminate]).
    change (Qpower 2 7) with 128%Q in H1024.
    assert (Hs128 : s + 1 <= 128).
    { assert (H : (inject_Z s < inject_Z 128)%Q)
        by (change (inject_Z 128) with 128%Q; lra).
      rewrite <- Zlt_Qlt in H. lia. }
    assert (H : (inject_Z (s + 1) <= inject_Z 128)%Q)
      by (rewrite <- Zle_Qle; exact Hs128).
    change (inject_Z 128) with 128%Q in H. lra.
  - eexists. split; [reflexivity |].
    apply Qfloor_between; [exact Hlow | exact Hbelow].
Qed.

(** The seconds of a time with at most 14 fraction digits: the Number
    that is read keeps the whole seconds. *)
Lemma floor_of_seconds (s : Z) (frac : str) :
  0 <= s < 100 ->
  Forall (fun c => is_digit c = true) frac ->
  (List.length frac <= 14)%nat ->
  floor (binary64 ((inject_Z s
                    + inject_Z (decimal 0 frac)
                      / inject_Z (10 ^ Z.of_nat (List.length frac)))
                   * Qpower 10 0)%Q) = Int s.
Proof.
  intros Hs Hfrac Hlen. pose proof (decimal_bounds frac Hfrac 0) as Hb.
  assert (Hp14 : 10 ^ Z.of_nat (List.length frac) <= 10 ^ 14)
    by (apply Z.pow_le_mono_r; lia).
  set (p := 10 ^ Z.of_nat (List.length frac)) in *.
  set (v := decimal 0 frac) in *.
  assert (Hp : 0 < p) by (apply Z.pow_pos_nonneg; lia).
  assert (Hq : (0 < inject_Z p)%Q) by (rewrite Zlt_Qlt in Hp; exact Hp).
  assert (H0 : (0 <= inject_Z v / inject_Z p)%Q).
  { apply Qle_shift_div_l; [exact Hq|]. rewrite Qmult_0_l.
    change 0%Q with (inject_Z 0). rewrite <- Zle_Qle. lia. }
  assert (H1 : (inject_Z v / inject_Z p + (1 # 2 ^ 47) < 1)%Q).
  { assert (Hv : (inject_Z v / inject_Z p <= 1 - 1 / inject_Z p)%Q).
    { apply Qle_shift_div_r; [exact Hq |].
      assert (E : ((1 - 1 / inject_Z p) * inject_Z p == inject_Z p - 1)%Q)
        by (field; lra).
      rewrite E.
      assert (Hvz : (inject_Z v <= inject_Z (p + -1))%Q)
        by (rewrite <- Zle_Qle; lia).
      rewrite inject_Z_plus in Hvz. change (inject_Z (-1)) with (-1)%Q in Hvz.
      lra. }
    assert (Hsmall : ((1 # 2 ^ 47) < 1 / inject_Z p)%Q).
    { apply Qlt_shift_div_l; [exact Hq |].
      assert (H : (inject_Z p <= inject_Z (10 ^ 14))%Q)
        by (rewrite <- Zle_Qle; exact Hp14).
      assert (H' : ((1 # 2 ^ 47) * inject_Z (10 ^ 14) < 1)%Q) by reflexivity.
      assert (H'' : ((1 # 2 ^ 47) * inject_Z p
                     <= (1 # 2 ^ 47) * inject_Z (10 ^ 14))%Q).
      { rewrite !(Qmult_comm (1 # 2 ^ 47)).
        apply Qmult_le_compat_r; [exact H | discriminate]. }
      lra. }
    lra. }
  change (Qpower 10 0) with 1%Q.
  set (x := ((inject_Z s + inject_Z v / inject_Z p) * 1)%Q).
  assert (Hx : (x == inject_Z s + inject_Z v / inject_Z p)%Q)
    by (unfold x; ring).
  assert (Hs0 : (0 <= inject_Z s)%Q).
  { change 0%Q with (inject_Z 0). rewrite <- Zle_Qle. lia. }
  assert (Hs100 : (inject_Z s <= 99)%Q).
  { change 99%Q with (inject_Z 99). rewrite <- Zle_Qle. lia. }
  assert (H47 : (0 < 1 # 2 ^ 47)%Q) by reflexivity.
  unfold binary64. destruct (Qcompare x 0) eqn:E.
  - apply Qeq_alt in E. cbn [floor]. f_equal.
    assert (H : (inject_Z s <= inject_Z 0)%Q)
      by (change (inject_Z 0) with 0%Q; lra).
    rewrite <- Zle_Qle in H. change (Qfloor 0) with 0. lia.
  - apply Qlt_alt in E. lra.
  - apply Qgt_alt in E.
    destruct (round_positive_floor x s) as (r & -> & Hr).
    + lia.
    + exact E.
    + lra.
    + rewrite inject_Z_plus. change (inject_Z 1) with 1%Q. lra.
    + lra.
    + cbn [floor]. f_equal. exact Hr.
Qed.

Lemma parseInt_padZero (z : Z) :
  0 <= z < 100 -> parseInt (Some (padZero (Int z))) = Int z.
Proof.
  intros Hz.
  destruct (padZero_two_digits z Hz) as (d1 & d2 & -> & H1 & H2 & Hv).
  destruct (digit_starts_literal d1 [d2] H1) as (Hs & Hg & _).
  unfold parseInt. rewrite Hs, Hg.
  change [d1; d2] with ([d1; d2] ++ []).
  rewrite digits_decimal by (repeat constructor; assumption).
  cbn [Nat.add List.length].
  replace (decimal 0 [d1; d2]) with z by (cbn; lia).
  apply numberOfInteger_small. exact Hz.
Qed.

Lemma split_from_segment (a b acc : str) :
  Forall (fun c => N.eqb c 58 = false) a ->
  split_from 58 acc (a ++ 58%N :: b) = (acc ++ a) :: split_from 58 [] b.
Proof.
  intros Ha. revert acc. induction Ha as [|c a Hc Ha IH]; intros acc.
  - cbn. now rewrite app_nil_r.
  - cbn. rewrite Hc, IH, <- app_assoc. reflexivity.
Qed.

Lemma split_from_last (a acc : str) :
  Forall (fun c => N.eqb c 58 = false) a ->
  split_from 58 acc a = [acc ++ a].
Proof.
  intros Ha. revert acc. induction Ha as [|c a Hc Ha IH]; intros acc.
  - cbn. now rewrite app_nil_r.
  - cbn. rewrite Hc, IH, <- app_assoc. reflexivity.
Qed.

Lemma padZero_no_colon (z : Z) :
  0 <= z < 100 -> Forall (fun c => N.eqb c 58 = false) (padZero (Int z)).
Proof.
  intros Hz.
  destruct (padZero_two_digits z Hz) as (d1 & d2 & -> & H1 & H2 & _).
  repeat constructor; now apply digit_not_colon.
Qed.

Lemma floor_parseFloat_seconds (s : Z) (frac : str) :
  0 <= s < 100 ->
  Forall (fun c => is_digit c = true) frac ->
  (List.length frac <= 14)%nat ->
  floor (parseFloat (Some (padZero (Int s) ++ lit "." ++ frac ++ lit "Z")))
  = Int s.
Proof.
  intros Hs Hfrac Hlen.
  destruct (padZero_two_digits s Hs) as (d1 & d2 & -> & H1 & H2 & Hv).
  destruct (digit_starts_literal d1 ([d2] ++ lit "." ++ frac ++ lit "Z") H1)
    as (Hsk & Hsg & Hinf).
  unfold parseFloat.
  change ([d1; d2] ++ lit "." ++ frac ++ lit "Z")
    with (d1 :: [d2] ++ lit "." ++ frac ++ lit "Z").
  rewrite Hsk, Hsg, Hinf.
  change (d1 :: [d2] ++ lit "." ++ frac ++ lit "Z")
    with ([d1; d2] ++ 46%N :: frac ++ [90%N]).
  rewrite digits_decimal;
    [ | repeat constructor; assumption | reflexivity ].
  rewrite digits_decimal; [ | assumption | reflexivity ].
  cbn [Nat.add List.length Nat.eqb].
  replace (decimal 0 [d1; d2]) with s by (cbn; lia).
  change (exponent [90%N]) with 0.
  apply floor_of_seconds; assumption.
Qed.

(** X21: for a scene centre time written [HH:MM:SS.fffZ] (two digits
    each, at most 14 fraction digits) [calcBeijingTime] returns the clock
    time eight hours later, [(HH + 8) mod 24] with the minutes and the
    whole seconds unchanged: the fraction is dropped, and a time that
    passes midnight wraps round with nothing said of the day.  (From 15
    fraction digits on the Number read for the seconds can be the next
    whole second.) *)
Theorem beijing_time_of_utc (h m s : Z) (frac : str) :
  0 <= h < 24 -> 0 <= m < 60 -> 0 <= s < 60 ->
  Forall (fun c => is_digit c = true) frac ->
  (List.length frac <= 14)%nat ->
  calcBeijingTime (padZero (Int h) ++ lit ":" ++ padZero (Int m) ++ lit ":"
                   ++ padZero (Int s) ++ lit "." ++ frac ++ lit "Z")
  = padZero (Int ((h + 8) mod 24)) ++ lit ":" ++ padZero (Int m) ++ lit ":"
    ++ padZero (Int s).
Proof.
  intros Hh Hm Hs Hfrac Hlen.
  assert (Hparts :
    split 58 (padZero (Int h) ++ lit ":" ++ padZero (Int m) ++ lit ":"
              ++ padZero (Int s) ++ lit "." ++ frac ++ lit "Z")
    = [ padZero (Int h); padZero (Int m);
        padZero (Int s) ++ lit "." ++ frac ++ lit "Z" ]).
  { unfold split.
    change (lit ":" ++ ?x) with (58%N :: x).
    rewrite split_from_segment by (apply padZero_no_colon; lia).
    change (lit ":" ++ ?x) with (58%N :: x).
    rewrite split_from_segment by (apply padZero_no_colon; lia).
    rewrite split_from_last; [reflexivity|].
    apply Forall_app. split; [apply padZero_no_colon; lia|].
    apply Forall_app. split; [repeat constructor|].
    apply Forall_app. split; [|repeat constructor].
    eapply Forall_impl; [|exact Hfrac]. intros c. apply digit_not_colon. }
  unfold calcBeijingTime. rewrite Hparts. unfold part. cbn [nth_error].
  rewrite !parseInt_padZero by lia.
  rewrite floor_parseFloat_seconds by (assumption || lia).
  unfold plus8mod24. rewrite numberOfInteger_small by lia.
  rewrite Z.rem_mod_nonneg by lia. reflexivity.
Qed.

Lemma beijing_time_of_utc_witness :
  calcBeijingTime (lit "17:05:09.1234560Z") = lit "01:05:09".
Proof.
  apply (beijing_time_of_utc 17 5 9 (lit "1234560")).
  - lia.
  - lia.
  - lia.
  - repeat constructor.
  - cbn. lia.
Defined.

(** X22: for a number from 0 to 99 [padZero] gives exactly two
    characters, and [parseInt], as [calcBeijingTime] calls it, reads the
    number back from them. *)
Theorem padZero_two_digit_round_trip (z : Z) :
  0 <= z < 100 ->
  List.length (padZero (Int z)) = 2%nat
  /\ parseInt (Some (padZero (Int z))) = Int z.
Proof.
  intros Hz. split; [|now apply parseInt_padZero].
  destruct (padZero_two_digits z Hz) as (d1 & d2 & -> & _). reflexivity.
Qed.

Lemma padZero_two_digit_round_trip_witness :
  List.length (padZero (Int 7)) = 2%nat
  /\ parseInt (Some (padZero (Int 7))) = Int 7.
Proof.
  apply (padZero_two_digit_round_trip 7). lia.
Defined.

Lemma repeat_loop_length (s : str) (n : nat) :
  List.length (repeat_loop s n) = (n * List.length s)%nat.
Proof.
  induction n as [|n IH]; [reflexivity|].
  cbn [repeat_loop]. rewrite length_app, IH. cbn. lia.
Qed.

Lemma repeatStr_length (s : str) (times : Z) :
  Z.of_nat (List.length (repeatStr s times))
  = Z.max 0 times * Z.of_nat (List.length s).
Proof.
  unfold repeatStr. rewrite repeat_loop_length, Nat2Z.inj_mul.
  f_equal. lia.
Qed.

(** X23: [repeatStr] with a count that is not negative: repeating
    [a + b] times is repeating [a] times and then [b] times, and the
    result is [a] times as long as the string. *)
Theorem repeatStr_counts (s : str) (a b : Z) :
  0 <= a -> 0 <= b ->
  repeatStr s (a + b) = repeatStr s a ++ repeatStr s b
  /\ Z.of_nat (List.length (repeatStr s a)) = a * Z.of_nat (List.length s).
Proof.
  intros Ha Hb. split.
  - unfold repeatStr. rewrite Z2Nat.inj_add by lia.
    induction (Z.to_nat b) as [|n IH].
    + rewrite Nat.add_0_r. cbn. now rewrite app_nil_r.
    + rewrite Nat.add_succ_r. cbn [repeat_loop]. rewrite IH.
      now rewrite app_assoc.
  - rewrite repeatStr_length. f_equal. lia.
Qed.

Lemma repeatStr_counts_witness :
  repeatStr (lit "-") (12 + 8) = repeatStr (lit "-") 12 ++ repeatStr (lit "-") 8
  /\ Z.of_nat (List.length (repeatStr (lit "-") 12))
     = 12 * Z.of_nat (List.length (lit "-")).
Proof.
  apply (repeatStr_counts (lit "-") 12 8); lia.
Defined.

(** X24: [padString] never shortens: the text is a prefix of the
    result, which is at least as long as asked; and when no pad
    character is given it has exactly the longer of the two lengths. *)
Theorem padString_extends (s : str) (length : Z) (padChar : option str) :
  firstn (List.length s) (padString s length padChar) = s
  /\ length <= Z.of_nat (List.length (padString s length padChar))
  /\ Z.of_nat (List.length (padString s length None))
     = Z.max length (Z.of_nat (List.length s)).
Proof.
  unfold padString.
  destruct (Z.leb_spec length (Z.of_nat (List.length s))) as [Hle | Hlt].
  - repeat split.
    + apply firstn_all.
    + exact Hle.
    + lia.
  - assert (Hpad : (1 <= List.length (padCharOr padChar))%nat).
    { destruct padChar as [[|c r]|]; cbn; lia. }
    repeat split.
    + rewrite firstn_app, Nat.sub_diag, firstn_all. cbn.
      now rewrite app_nil_r.
    + rewrite length_app, Nat2Z.inj_add, repeatStr_length. nia.
    + rewrite length_app, Nat2Z.inj_add, repeatStr_length. cbn. lia.
Qed.

End MetadataText.

Section MetadataTable.

Import Metadata Observe.
Local Open Scope list_scope.
Local Open Scope Z_scope.

(** A row fits the widths: as many cells as columns, none wider than
    its column. *)
Lemma updateWidths_fits (row : list str) :
  forall ws : list Z,
    List.length row = List.length ws ->
    exists ws',
      updateWidths (map Some ws) row = map Some ws'
      /\ Forall2 Z.le ws ws'
      /\ Forall2 (fun cell w => Z.of_nat (List.length cell) <= w) row ws'.
Proof.
  induction row as [|cell row IH]; intros [|w ws] Hlen; try discriminate Hlen.
  - exists []. repeat split; constructor.
  - injection Hlen as Hlen. destruct (IH ws Hlen) as (ws' & Hu & Hle & Hfit).
    exists (Z.max w (Z.of_nat (List.length cell)) :: ws'). cbn. rewrite Hu.
    repeat split; constructor; auto; lia.
Qed.

Lemma fits_wider (row : list str) (ws ws' : list Z) :
  Forall2 (fun cell w => Z.of_nat (List.length cell) <= w) row ws ->
  Forall2 Z.le ws ws' ->
  Forall2 (fun cell w => Z.of_nat (List.length cell) <= w) row ws'.
Proof.
  intros Hfit. revert ws'.
  induction Hfit as [|cell w row ws Hc Hfit IH]; intros ws' Hle;
    inversion Hle; subst; constructor; auto; lia.
Qed.

Lemma le_all_trans (a b c : list Z) :
  Forall2 Z.le a b -> Forall2 Z.le b c -> Forall2 Z.le a c.
Proof.
  intros Hab. revert c.
  induction Hab as [|x y a b Hxy Hab IH]; intros c Hbc;
    inversion Hbc; subst; constructor; auto; lia.
Qed.

Lemma le_all_refl (a : list Z) : Forall2 Z.le a a.
Proof. induction a; constructor; auto; lia. Qed.

Lemma columnWidths_fit (rows : list (list str)) :
  forall ws : list Z,
    Forall (fun row => List.length row = List.length ws) rows ->
    exists ws',
      fold_left updateWidths rows (map Some ws) = map Some ws'
      /\ Forall2 Z.le ws ws'
      /\ Forall (fun row =>
                  Forall2 (fun cell w => Z.of_nat (List.length cell) <= w)
                          row ws') rows.
Proof.
  induction rows as [|row rows IH]; intros ws Hrows.
  - exists ws. repeat split; [apply le_all_refl | constructor].
  - inversion Hrows as [|? ? Hrow Hrest]; subst.
    destruct (updateWidths_fits row ws Hrow) as (ws1 & Hu & Hle1 & Hfit1).
    assert (Hlen : List.length ws1 = List.length ws).
    { symmetry. eapply Forall2_length; eassumption. }
    destruct (IH ws1) as (ws' & Hf & Hle & Hfit).
    { eapply Forall_impl; [|exact Hrest]. cbn. intros r Hr. congruence. }
    exists ws'. cbn. rewrite Hu, Hf. repeat split.
    + eapply le_all_trans; eassumption.
    + constructor; [|exact Hfit]. eapply fits_wider; eassumption.
Qed.

Lemma padCells_lengths (row : list str) :
  forall ws : list Z,
    Forall2 (fun cell w => Z.of_nat (List.length cell) <= w) row ws ->
    Forall2 (fun cell w => Z.of_nat (List.length cell) = w)
            (padCells (map Some ws) row) ws.
Proof.
  induction row as [|cell row IH]; intros ws Hfit; inversion Hfit; subst.
  - constructor.
  - cbn. constructor; [|apply IH; assumption].
    rewrite length_app, Nat2Z.inj_add, repeatStr_length. cbn. lia.
Qed.

Lemma join_length (separator : str) (cells : list str) :
  forall ws : list Z,
    Forall2 (fun cell w => Z.of_nat (List.length cell) = w) cells ws ->
    cells <> [] ->
    Z.of_nat (List.length (join separator cells))
    = total ws
      + Z.of_nat (List.length separator) * (Z.of_nat (List.length ws) - 1).
Proof.
  induction cells as [|cell cells IH]; intros ws Hws Hne; [congruence|].
  inversion Hws as [|? w ? ws' Hc Hrest]; subst.
  destruct cells as [|cell' cells].
  - inversion Hrest; subst. cbn. lia.
  - change (join separator (cell :: cell' :: cells))
      with (cell ++ separator ++ join separator (cell' :: cells)).
    rewrite !length_app, !Nat2Z.inj_add.
    rewrite (IH ws' Hrest) by discriminate.
    cbn [total fold_right List.length]. fold (total ws'). lia.
Qed.

Lemma totalWidth_of (ws : list Z) :
  totalWidth (map Some ws)
  = Some (total ws + Z.of_nat (List.length ws) * 3 - 1).
Proof.
  unfold totalWidth.
  assert (H : fold_right (fun w sum =>
                            match w, sum with
                            | Some x, Some y => Some (x + y)
                            | _, _ => None
                            end) (Some 0) (map Some ws) = Some (total ws)).
  { induction ws as [|w ws IH]; [reflexivity|]. cbn. now rewrite IH. }
  rewrite H, length_map. reflexivity.
Qed.

Lemma rowLine_length (row : list str) (ws : list Z) :
  row <> [] ->
  Forall2 (fun cell w => Z.of_nat (List.length cell) <= w) row ws ->
  Z.of_nat (List.length (rowLine (map Some ws) row))
  = total ws + Z.of_nat (List.length ws) * 3 + 1.
Proof.
  intros Hne Hfit. unfold rowLine.
  rewrite !length_app, !Nat2Z.inj_add.
  rewrite (join_length _ _ ws (padCells_lengths row ws Hfit)).
  - change (Z.of_nat (List.length (lit "| "))) with 2.
    change (Z.of_nat (List.length (lit " |"))) with 2.
    change (Z.of_nat (List.length (lit " | "))) with 3. lia.
  - destruct row; [congruence|discriminate].
Qed.

Lemma rowsFrom_arity (features : list Feature) :
  forall index,
    Forall (fun row => List.length row = 10%nat) (rowsFrom index features).
Proof.
  induction features as [|f features IH]; intros index; cbn; constructor;
    [reflexivity | apply IH].
Qed.

Lemma total_lower (ws ws' : list Z) :
  Forall2 Z.le ws ws' -> total ws <= total ws'.
Proof.
  induction 1; cbn; [lia|]. fold (total l) (total l'). lia.
Qed.

(** X25: the scene table, whatever the scenes: the column widths are
    all numbers, every printed row (the header and one for each scene)
    has the same length, and the rules printed above, under the header
    and below are each two characters shorter than the rows. *)
Theorem table_rows_aligned (features : list Feature) :
  exists W : Z,
    totalWidth (columnWidths features) = Some W
    /\ Forall (fun row =>
                Z.of_nat (List.length (rowLine (columnWidths features) row))
                = W + 2) (tableData features)
    /\ forall ch : N,
         Z.of_nat (List.length (ruler [ch] (totalWidth (columnWidths features))))
         = W.
Proof.
  set (ws0 := map (fun col : str => Z.of_nat (List.length col)) header).
  assert (Hw0 : columnWidths features
                = fold_left updateWidths (rowsFrom O features) (map Some ws0)).
  { unfold columnWidths, ws0. now rewrite map_map. }
  destruct (columnWidths_fit (rowsFrom O features) ws0) as (ws & Hf & Hle & Hfit).
  { apply rowsFrom_arity. }
  rewrite Hw0, Hf. clear Hw0 Hf.
  assert (Hlen : List.length ws = 10%nat).
  { symmetry. rewrite <- (Forall2_length Hle). reflexivity. }
  assert (Hhead : Forall2 (fun cell w => Z.of_nat (List.length cell) <= w)
                          header ws).
  { apply fits_wider with ws0; [|exact Hle].
    unfold ws0. generalize header. intros cols.
    induction cols; constructor; auto; lia. }
  exists (total ws + Z.of_nat (List.length ws) * 3 - 1).
  split; [apply totalWidth_of|]. split.
  - unfold tableData. constructor.
    + rewrite rowLine_length by (discriminate || assumption). lia.
    + rewrite Forall_forall in Hfit. apply Forall_forall. intros row Hrow.
      rewrite rowLine_length; [lia | | apply Hfit, Hrow].
      pose proof (rowsFrom_arity features O) as Har.
      rewrite Forall_forall in Har. specialize (Har row Hrow).
      destruct row; [discriminate Har | discriminate].
  - intros ch. rewrite totalWidth_of. unfold ruler.
    rewrite repeatStr_length. cbn [List.length].
    pose proof (total_lower ws0 ws Hle) as Hlow.
    assert (H0 : 0 <= total ws0) by (vm_compute; discriminate). lia.
Qed.

End MetadataTable.
